(** * GradescopeBase: the submission rate limiter of [Autograder.py]

    A shallow embedding of the rate-limit accounting of
    [GradescopeBase/Autograder.py] ([RateLimit], [Autograder.rate_limit_main],
    [Autograder.generate_results]) and of the older revision kept as
    [Autograder.py] (module [Legacy]), with the properties of the token
    accounting proved about them.

    Python values read from [submission_metadata.json] are modelled by the
    type [json]; a Python exception is an [outcome] of its own, and
    [sys.exit()] is the outcome [Exit].  Mutation of the [Autograder] object
    is explicit state passing in the monad [M]. *)

From Stdlib Require Import ZArith List String Ascii Bool Lia.
From Stdlib Require Import DecimalString.
Import ListNotations.

Set Warnings "-register-all".

Local Open Scope string_scope.
Local Open Scope Z_scope.

(** ** Python values *)

(** What [json.load] yields.  Numbers are the integers; the fields the
    limiter inspects ([sub_counts], [id]) are integers or strings, and the
    other payloads (score, tests, leaderboard) are only passed along. *)
Inductive json : Type :=
| JNull
| JBool (b : bool)
| JNum (n : Z)
| JStr (s : string)
| JList (l : list json)
| JObj (kv : list (string * json)).

Definition dict := list (string * json).

(** The exceptions the modelled code can meet. *)
Inductive exn : Type :=
| KeyError | TypeError | IndexError | ValueError | AttributeError.

(** Result of running a piece of Python: a value, a raised exception
    (a subclass of [Exception]) or [sys.exit()]. *)
Inductive outcome (A : Type) : Type :=
| Ret (a : A)
| Raise (e : exn)
| Exit.
Arguments Ret {A} a.
Arguments Raise {A} e.
Arguments Exit {A}.

Definition obind {A B} (c : outcome A) (k : A -> outcome B) : outcome B :=
  match c with
  | Ret a => k a
  | Raise e => Raise e
  | Exit => Exit
  end.

Declare Scope py_scope.
Delimit Scope py_scope with py.
Notation "x <- c ;; k" := (obind c (fun x => k))
  (at level 61, c at next level, right associativity) : py_scope.

Module Py.

(** [d[k]] on a dict read with its first binding of [k]. *)
Fixpoint lookup (k : string) (d : dict) : option json :=
  match d with
  | [] => None
  | (k', v) :: d' => if String.eqb k k' then Some v else lookup k d'
  end.

(** [d[k] = v]: replace the binding in place, or append a new one. *)
Fixpoint setitem (k : string) (v : json) (d : dict) : dict :=
  match d with
  | [] => [(k, v)]
  | (k', v') :: d' =>
      if String.eqb k k' then (k, v) :: d' else (k', v') :: setitem k v d'
  end.

Definition has_key (k : string) (d : dict) : bool :=
  match lookup k d with Some _ => true | None => false end.

(** [bool(x)]. *)
Definition truthy (x : json) : bool :=
  match x with
  | JNull => false
  | JBool b => b
  | JNum n => negb (n =? 0)
  | JStr s => negb (String.eqb s "")
  | JList l => match l with [] => false | _ => true end
  | JObj kv => match kv with [] => false | _ => true end
  end.

(** [x is None]. *)
Definition is_none (x : json) : bool :=
  match x with JNull => true | _ => false end.

(** [x == y].  [bool] is a subclass of [int], so [True == 1]; sequences
    compare element by element and dicts key by key. *)
Fixpoint eq (x y : json) {struct x} : bool :=
  match x, y with
  | JNull, JNull => true
  | JBool a, JBool b => Bool.eqb a b
  | JBool a, JNum n => (if a then 1 else 0) =? n
  | JNum n, JBool b => n =? (if b then 1 else 0)
  | JNum n, JNum m => n =? m
  | JStr s, JStr t => String.eqb s t
  | JList l, JList l' =>
      (fix eq_list (l l' : list json) {struct l} : bool :=
         match l, l' with
         | [], [] => true
         | a :: r, b :: r' => eq a b && eq_list r r'
         | _, _ => false
         end) l l'
  | JObj kv, JObj kv' =>
      (fix eq_items (kv : dict) {struct kv} : bool :=
         match kv with
         | [] => true
         | (k, v) :: r =>
             match lookup k kv' with
             | Some v' => eq v v'
             | None => false
             end && eq_items r
         end) kv
      && forallb (fun p => has_key (fst p) kv) kv'
  | _, _ => false
  end.

(** [x in l] for a Python list [l]. *)
Definition mem (x : json) (l : list json) : bool :=
  existsb (eq x) l.

(** [x[k]] for a string key [k]: only a dict can be subscripted by one. *)
Definition getitem (x : json) (k : string) : outcome json :=
  match x with
  | JObj kv =>
      match lookup k kv with
      | Some v => Ret v
      | None => Raise KeyError
      end
  | _ => Raise TypeError
  end.

(** [x.get(k)]: [None] for a missing key; only a dict has the method. *)
Definition get (x : json) (k : string) : outcome json :=
  match x with
  | JObj kv =>
      match lookup k kv with
      | Some v => Ret v
      | None => Ret JNull
      end
  | _ => Raise AttributeError
  end.

(** [t] occurs in [s] as a substring. *)
Fixpoint prefixb (t s : string) : bool :=
  match t, s with
  | EmptyString, _ => true
  | String a t', String b s' => Ascii.eqb a b && prefixb t' s'
  | String _ _, EmptyString => false
  end.

Fixpoint substringb (t s : string) : bool :=
  prefixb t s ||
  match s with
  | EmptyString => false
  | String _ s' => substringb t s'
  end.

(** [k in x] for a string [k]: key of a dict, element of a list,
    substring of a string; the other values are not containers. *)
Definition contains (x : json) (k : string) : outcome bool :=
  match x with
  | JObj kv => Ret (has_key k kv)
  | JList l => Ret (mem (JStr k) l)
  | JStr s => Ret (substringb k s)
  | _ => Raise TypeError
  end.

(** What a [for] loop (or [enumerate]) runs over: the elements of a list,
    the keys of a dict, the characters of a string. *)
Fixpoint chars (s : string) : list json :=
  match s with
  | EmptyString => []
  | String c s' => JStr (String c EmptyString) :: chars s'
  end.

Definition iter (x : json) : outcome (list json) :=
  match x with
  | JList l => Ret l
  | JObj kv => Ret (map (fun p => JStr (fst p)) kv)
  | JStr s => Ret (chars s)
  | _ => Raise TypeError
  end.

(** [x[len(x) - 1]].  For an empty sequence the index is [-1], which is
    out of range; a dict from JSON has no integer key. *)
Definition last_item (x : json) : outcome json :=
  match x with
  | JList l =>
      match rev l with
      | [] => Raise IndexError
      | v :: _ => Ret v
      end
  | JStr s =>
      match rev (chars s) with
      | [] => Raise IndexError
      | v :: _ => Ret v
      end
  | JObj _ => Raise KeyError
  | _ => Raise TypeError
  end.

(** [str(n)] for an [int]. *)
Definition str (n : Z) : string :=
  NilZero.string_of_int (Z.to_int n).

(** [s[:-13]]: the string without its last 13 characters. *)
Fixpoint take (n : nat) (s : string) : string :=
  match n, s with
  | O, _ => EmptyString
  | S n', String c s' => String c (take n' s')
  | S _, EmptyString => EmptyString
  end.

Definition drop_last (k : nat) (s : string) : string :=
  take (String.length s - k) s.

End Py.

(** ** The clock

    [time.strptime] with the format ["%Y-%m-%dT%H:%M:%S"], [time.mktime] and
    the [datetime] operations the limiter calls belong to Python's library
    and depend on the time zone of the host; they are taken as an interface.
    [strptime] answers [None] where Python raises [ValueError]; [mktime] is
    in whole seconds, as every parsed time is.  Range errors of the library
    (years outside what the platform's C library accepts) are not modelled. *)
Class TimeLib : Type := {
  struct_time : Type;
  strptime : string -> option struct_time;
  mktime : struct_time -> Z;
  datetime : Type;
  fromtimestamp : Z -> datetime;
  (** [dt + datetime.timedelta(seconds=n)] *)
  plus_seconds : datetime -> Z -> datetime;
  ctime : datetime -> string
}.

Definition nl : string := String (ascii_of_nat 10) EmptyString.

(** ** [class RateLimit] *)

(** A format string with [{}] fields, as [str.format] reads it. *)
Inductive piece : Type :=
| Lit (s : string)
| Hole.

Section Base.

Context {T : TimeLib}.

(** [Utils.is_local()]: a fact of the host the process runs on. *)
Variable is_local : bool.

Record RateLimit : Type := mkRateLimit {
  tokens : option Z;
  seconds : Z;
  minutes : Z;
  hours : Z;
  days : Z;
  reset_time : option string;
  rl_output : string;
  pull_prev_run : bool;
  submission_id_exclude : list json;
  oldest_token_time : option datetime;
  current_submission_time : option datetime;
  main_string : list piece;
  (** [None] stands for the initial [""]. *)
  tokens_used : option Z
}.

(** [RateLimit.__init__]: plain assignments; nothing is checked, so the
    constructor returns for every argument. *)
Definition RateLimit_init (tokens : option Z) (seconds minutes hours days : Z)
    (reset_time : option string) (pull_prev_run : bool)
    (submission_id_exclude : list json) : outcome RateLimit :=
  Ret {| tokens := tokens;
         seconds := seconds;
         minutes := minutes;
         hours := hours;
         days := days;
         reset_time := reset_time;
         rl_output := "";
         pull_prev_run := pull_prev_run;
         submission_id_exclude := submission_id_exclude;
         oldest_token_time := None;
         current_submission_time := None;
         main_string := [];
         tokens_used := None |}.

Definition total_seconds (rl : RateLimit) : Z :=
  seconds rl + 60 * (minutes rl + 60 * (hours rl + (24 * days rl))).

Definition set_next_token_regen (oldest current : option datetime)
    (rl : RateLimit) : RateLimit :=
  {| tokens := tokens rl;
     seconds := seconds rl;
     minutes := minutes rl;
     hours := hours rl;
     days := days rl;
     reset_time := reset_time rl;
     rl_output := rl_output rl;
     pull_prev_run := pull_prev_run rl;
     submission_id_exclude := submission_id_exclude rl;
     oldest_token_time := oldest;
     current_submission_time := current;
     main_string := main_string rl;
     tokens_used := tokens_used rl |}.

Definition rate_limit_set_main_string (str : list piece) (used : Z)
    (rl : RateLimit) : RateLimit :=
  {| tokens := tokens rl;
     seconds := seconds rl;
     minutes := minutes rl;
     hours := hours rl;
     days := days rl;
     reset_time := reset_time rl;
     rl_output := rl_output rl;
     pull_prev_run := pull_prev_run rl;
     submission_id_exclude := submission_id_exclude rl;
     oldest_token_time := oldest_token_time rl;
     current_submission_time := current_submission_time rl;
     main_string := str;
     tokens_used := Some used |}.

(** [main_string.format(tu)]: every [{}] is replaced by [str(tu)]. *)
Definition format (str : list piece) (tu : option Z) : string :=
  String.concat ""
    (map (fun p => match p with
                   | Lit s => s
                   | Hole => match tu with
                             | Some n => Py.str n
                             | None => ""
                             end
                   end) str).

(** ** [class Autograder] *)

Record Autograder : Type := mkAutograder {
  (** class attribute, [False] unless a subclass overrides it *)
  use_ratelimit_when_local : bool;
  (** what [get_results()] answers for each registered test
      ([AutograderTest] lives in another module) *)
  tests : list json;
  score : json;
  output : option string;
  visibility : json;
  stdout_visibility : json;
  extra_data : dict;
  leaderboard : json;
  reverse_tests : bool;
  (** [None], or anything that is not a [RateLimit], switches the limiter
      off *)
  rate_limit : option RateLimit;
  modify_results : dict -> dict;
  (** the parsed [submission_metadata.json]; [JNull] on a local run
      without that file *)
  metadata : json;
  (** the file at [results_file] as [dump_results] last wrote it *)
  results_json : option dict
}.

Definition with_score (v : json) (ag : Autograder) : Autograder :=
  {| use_ratelimit_when_local := use_ratelimit_when_local ag;
     tests := tests ag;
     score := v;
     output := output ag;
     visibility := visibility ag;
     stdout_visibility := stdout_visibility ag;
     extra_data := extra_data ag;
     leaderboard := leaderboard ag;
     reverse_tests := reverse_tests ag;
     rate_limit := rate_limit ag;
     modify_results := modify_results ag;
     metadata := metadata ag;
     results_json := results_json ag |}.

Definition with_output (v : option string) (ag : Autograder) : Autograder :=
  {| use_ratelimit_when_local := use_ratelimit_when_local ag;
     tests := tests ag;
     score := score ag;
     output := v;
     visibility := visibility ag;
     stdout_visibility := stdout_visibility ag;
     extra_data := extra_data ag;
     leaderboard := leaderboard ag;
     reverse_tests := reverse_tests ag;
     rate_limit := rate_limit ag;
     modify_results := modify_results ag;
     metadata := metadata ag;
     results_json := results_json ag |}.

Definition with_extra_data (v : dict) (ag : Autograder) : Autograder :=
  {| use_ratelimit_when_local := use_ratelimit_when_local ag;
     tests := tests ag;
     score := score ag;
     output := output ag;
     visibility := visibility ag;
     stdout_visibility := stdout_visibility ag;
     extra_data := v;
     leaderboard := leaderboard ag;
     reverse_tests := reverse_tests ag;
     rate_limit := rate_limit ag;
     modify_results := modify_results ag;
     metadata := metadata ag;
     results_json := results_json ag |}.

Definition with_rate_limit (v : option RateLimit) (ag : Autograder)
    : Autograder :=
  {| use_ratelimit_when_local := use_ratelimit_when_local ag;
     tests := tests ag;
     score := score ag;
     output := output ag;
     visibility := visibility ag;
     stdout_visibility := stdout_visibility ag;
     extra_data := extra_data ag;
     leaderboard := leaderboard ag;
     reverse_tests := reverse_tests ag;
     rate_limit := v;
     modify_results := modify_results ag;
     metadata := metadata ag;
     results_json := results_json ag |}.

Definition with_results_json (v : option dict) (ag : Autograder)
    : Autograder :=
  {| use_ratelimit_when_local := use_ratelimit_when_local ag;
     tests := tests ag;
     score := score ag;
     output := output ag;
     visibility := visibility ag;
     stdout_visibility := stdout_visibility ag;
     extra_data := extra_data ag;
     leaderboard := leaderboard ag;
     reverse_tests := reverse_tests ag;
     rate_limit := rate_limit ag;
     modify_results := modify_results ag;
     metadata := metadata ag;
     results_json := v |}.

(** Methods run in a state-and-exception monad over the object. *)
Definition M (A : Type) : Type := Autograder -> outcome A * Autograder.

Definition ret {A} (a : A) : M A := fun ag => (Ret a, ag).

Definition bind {A B} (c : M A) (k : A -> M B) : M B :=
  fun ag =>
    match c ag with
    | (Ret a, ag') => k a ag'
    | (Raise e, ag') => (Raise e, ag')
    | (Exit, ag') => (Exit, ag')
    end.

Definition lift {A} (o : outcome A) : M A := fun ag => (o, ag).

Definition gets {A} (f : Autograder -> A) : M A :=
  fun ag => (Ret (f ag), ag).

Definition modify (f : Autograder -> Autograder) : M unit :=
  fun ag => (Ret tt, f ag).

Definition sys_exit {A} : M A := fun ag => (Exit, ag).

Declare Scope m_scope.
Delimit Scope m_scope with M.
Notation "x <- c ;; k" := (bind c (fun x => k))
  (at level 61, c at next level, right associativity) : m_scope.
Notation "c ;;; k" := (bind c (fun _ => k))
  (at level 61, right associativity) : m_scope.

(** What [Autograder.print] appends to: the output, [""] for [None]. *)
Definition text (ag : Autograder) : string :=
  match output ag with Some o => o | None => "" end.

(** [Autograder.print] with one string argument. *)
Definition print (msg : string) : M unit :=
  modify (fun ag => with_output (Some (text ag ++ msg ++ nl)) ag).

Definition set_score (v : json) : M unit := modify (with_score v).

Definition dump_results (data : dict) : M unit :=
  modify (with_results_json (Some data)).

(** [["score" in t for t in tests]], evaluated for every element. *)
Fixpoint score_in_each (l : list json) : outcome (list bool) :=
  match l with
  | [] => Ret []
  | t :: l' =>
      (b <- Py.contains t "score" ;;
       bs <- score_in_each l' ;;
       Ret (b :: bs))%py
  end.

(** [results[k] = v] when the guard holds. *)
Definition set_if (c : bool) (k : string) (v : json) (d : dict) : dict :=
  if c then Py.setitem k v d else d.

(** Lines 280 to 294 of [generate_results]: the [tests] entry, from the
    argument when it is given and from the registered tests otherwise. *)
Definition with_tests (test_results : json) (ag : Autograder)
    (results : dict) : dict :=
  match test_results with
  | JNull =>
      let tsts := if reverse_tests ag then rev (tests ag) else tests ag in
      let tests := filter Py.truthy tsts in
      set_if (Py.truthy (JList tests)) "tests" (JList tests) results
  | JList _ => Py.setitem "tests" test_results results
  | _ => results
  end.

(** Lines 302 to 314: the entries copied from the object. *)
Definition with_fields (leaderboard_arg : json) (ag : Autograder)
    (results : dict) : dict :=
  let results :=
    match output ag with
    | Some o => Py.setitem "output" (JStr o) results
    | None => results
    end in
  let results :=
    set_if (negb (Py.is_none (visibility ag)))
      "visibility" (visibility ag) results in
  let results :=
    set_if (negb (Py.is_none (stdout_visibility ag)))
      "stdout_visibility" (stdout_visibility ag) results in
  let results :=
    set_if (Py.truthy (JObj (extra_data ag)))
      "extra_data" (JObj (extra_data ag)) results in
  if Py.truthy leaderboard_arg then
    Py.setitem "leaderboard" leaderboard_arg results
  else
    set_if (negb (Py.is_none (leaderboard ag)))
      "leaderboard" (leaderboard ag) results.

(** [Autograder.generate_results].  The [execution_time] entry, a
    wall-clock float, is left out of the dict. *)
Definition generate_results (test_results : json) (leaderboard_arg : json)
    (dump : bool) (print_main_score_warning_error : bool) : M dict :=
  (ag <- gets (fun ag => ag) ;;
   let results := with_tests test_results ag [] in
   results <-
     (if negb (Py.is_none (score ag)) then
        ret (Py.setitem "score" (score ag) results)
      else
        no_points <-
          lift (match Py.lookup "tests" results with
                | None => Ret true
                | Some (JList []) => Ret true
                | Some (JList ts) =>
                    (bs <- score_in_each ts ;;
                     Ret (negb (existsb (fun b => b) bs)))%py
                | Some _ => Ret true
                end) ;;
        if no_points : bool then
          (if print_main_score_warning_error then
             print "This autograder does not set the main score or have any tests which give points!"
           else ret tt) ;;;
          ret (Py.setitem "score" (JNum 0) results)
        else ret results) ;;
   ag <- gets (fun ag => ag) ;;
   let results := modify_results ag (with_fields leaderboard_arg ag results) in
   (if dump then dump_results results else ret tt) ;;;
   ret results)%M.

(** ** [Autograder.rate_limit_main] *)

(** [get_submission_time], [s[:-13]], followed by the type check of
    [time.strptime] on the next line: a value that is not a string
    stops one of the two with a [TypeError]. *)
Definition get_submission_time (s : json) : outcome string :=
  match s with
  | JStr s => Ret (Py.drop_last 13 s)
  | _ => Raise TypeError
  end.

Definition strptime_or_raise (s : string) : outcome struct_time :=
  match strptime s with
  | Some t => Ret t
  | None => Raise ValueError
  end.

Definition unit_str (n : Z) (name : string) : string :=
  let x := if n =? 0 then "" else Py.str n ++ " " ++ name in
  x ++ (if String.eqb x "" || (n =? 1) then "" else "s").

Definition pretty_time_str (s m h d : Z) : string :=
  let sstr := unit_str s "second" in
  let mstr := unit_str m "minute" in
  let hstr := unit_str h "hour" in
  let dstr := unit_str d "day" in
  let st :=
    fold_left
      (fun st tmpstr =>
         (if negb (String.eqb st "") && negb (String.eqb tmpstr "")
          then st ++ " " else st) ++ tmpstr)
      [hstr; mstr; sstr] dstr in
  if String.eqb st "" then "none" else st.

(** [try: body  except Exception: handler]. *)
Definition try_except {A} (body : outcome A) (handler : exn -> outcome A)
    : outcome A :=
  match body with
  | Raise e => handler e
  | o => o
  end.

(** Lines 412 and 413: the time of the history entry [v]. *)
Definition subm_time_of (v : json) : outcome struct_time :=
  (t <- Py.getitem v "submission_time" ;;
   subm_string <- get_submission_time t ;;
   strptime_or_raise subm_string)%py.

(** The accumulators of the loop: [tokens_used] and
    [oldest_counted_submission]. *)
Definition counters : Type := (Z * option struct_time)%type.

(** One iteration of the loop over [previous_submissions] (the [verbose]
    printing, which reads the same entries, is left out).  Inside the
    [try], [previous_submissions[i]] is the loop variable [v]. *)
Definition visit (restart_time : option struct_time)
    (current_time : struct_time) (regen_time_seconds : Z)
    (exclude : list json) (acc : counters) (v : json) : outcome counters :=
  let '(tokens_used, oldest_counted_submission) := acc in
  (subm_time <- subm_time_of v ;;
   if match restart_time with
      | Some r => mktime subm_time - mktime r <? 0
      | None => false
      end
   then Ret acc
   else if mktime current_time - mktime subm_time <? regen_time_seconds then
     try_except
       (res <- Py.getitem v "results" ;;
        ed <- Py.getitem res "extra_data" ;;
        if negb (Py.is_none ed) then
          subID <- Py.get ed "id" ;;
          sc <- Py.getitem ed "sub_counts" ;;
          if Py.eq sc (JNum 1)
             && (Py.truthy subID && negb (Py.mem subID exclude))
          then
            Ret (tokens_used + 1,
                 match oldest_counted_submission with
                 | None => Some subm_time
                 | Some o => Some o
                 end)
          else Ret acc
        else Ret acc)
       (fun _ => Ret (tokens_used + 1, oldest_counted_submission))
   else Ret acc)%py.

Fixpoint count_submissions (restart_time : option struct_time)
    (current_time : struct_time) (regen_time_seconds : Z)
    (exclude : list json) (l : list json) (acc : counters)
    : outcome counters :=
  match l with
  | [] => Ret acc
  | v :: l' =>
      (acc' <- visit restart_time current_time regen_time_seconds
                 exclude acc v ;;
       count_submissions restart_time current_time regen_time_seconds
         exclude l' acc')%py
  end.

(** The test of line 475,
    [prev_sub and "results" not in prev_sub
     or prev_sub["results"] and "tests" not in prev_sub["results"]],
    with Python's precedence and short-circuit evaluation. *)
Definition pull_failed (prev_sub : json) : outcome bool :=
  (a <- (if Py.truthy prev_sub then
           b <- Py.contains prev_sub "results" ;; Ret (negb b)
         else Ret false) ;;
   if a : bool then Ret true
   else
     r <- Py.getitem prev_sub "results" ;;
     if Py.truthy r then
       b <- Py.contains r "tests" ;; Ret (negb b)
     else Ret false)%py.

(** The [pull_prev_run] branch: what is handed to [generate_results]
    as [(tests, leaderboard)], the score being set on the way. *)
Definition pull_prev_run_results : M (json * json) :=
  (md <- gets metadata ;;
   prev_subs <- lift (Py.getitem md "previous_submissions") ;;
   prev_sub <- lift (Py.last_item prev_subs) ;;
   failed <- lift (pull_failed prev_sub) ;;
   if failed : bool then
     print "[ERROR]: Could not pull the data from your previous submission! This is probably due to it not have finished running!" ;;;
     set_score (JNum 0) ;;;
     ret (JList [], JNull)
   else
     res <- lift (Py.getitem prev_sub "results") ;;
     tests <- lift (Py.getitem res "tests") ;;
     leaderboard <- lift (Py.getitem res "leaderboard") ;;
     sc <- lift (Py.get prev_sub "score") ;;
     set_score sc ;;;
     ret (tests, leaderboard))%M.

Definition grant_main_string (tokens s m h d : Z) : list piece :=
  [Lit ("[Rate Limit]: Students can get up to " ++ Py.str tokens
        ++ " graded submissions within any given period of "
        ++ pretty_time_str s m h d
        ++ ". In the last period, you have had ");
   Hole;
   Lit (" graded submissions." ++ nl)].

Definition deny_message (tokens s m h d tokens_used : Z) (pull : bool)
    : string :=
  let msg :=
    if pull
    then ", so the results of your last graded submission are being displayed."
    else "." in
  "[Rate Limit]: Students can get up to " ++ Py.str tokens
  ++ " graded submissions within any given period of "
  ++ pretty_time_str s m h d
  ++ ". You have already had " ++ Py.str tokens_used
  ++ " graded submissions within the last " ++ pretty_time_str s m h d
  ++ msg
  ++ " Because you do not have any more tokens, this submission will not count as a graded submission.".

Definition regen_line (next_token_regen : datetime) : string :=
  "[Rate Limit]: As of this submission time, your next token will regenerate at "
  ++ ctime next_token_regen ++ " (PT)." ++ nl.

Definition no_tokens_line : string :=
  "[Rate Limit]: As of this submisison, you have not used any tokens." ++ nl.

(** Lines 404 and 405: the time of the current submission. *)
Definition current_time_of (md : json) : outcome struct_time :=
  (created <- Py.getitem md "created_at" ;;
   current_subm_string <- get_submission_time created ;;
   strptime_or_raise current_subm_string)%py.

(** Line 406: [reset_time] is parsed as it is written, not cut. *)
Definition restart_time_of (rl : RateLimit) : outcome (option struct_time) :=
  match reset_time rl with
  | Some r => (t <- strptime_or_raise r ;; Ret (Some t))%py
  | None => Ret None
  end.

(** What the loop of line 411 runs over. *)
Definition history_of (md : json) : outcome (list json) :=
  (prev <- Py.getitem md "previous_submissions" ;;
   Py.iter prev)%py.

(** Lines 378 to 447: the configuration is read, the two clocks are
    parsed and the history is walked.  Answers [tokens_used],
    [oldest_counted_submission] and [current_time]. *)
Definition count_history (rl : RateLimit) (md : json)
    : outcome (Z * option struct_time * struct_time) :=
  (let regen_time_seconds := total_seconds rl in
   current_time <- current_time_of md ;;
   restart_time <- restart_time_of rl ;;
   items <- history_of md ;;
   acc <- count_submissions restart_time current_time regen_time_seconds
            (submission_id_exclude rl) items (0, None) ;;
   Ret (fst acc, snd acc, current_time))%py.

Definition set_sub_counts (n : Z) : M unit :=
  modify (fun ag =>
    with_extra_data (Py.setitem "sub_counts" (JNum n) (extra_data ag)) ag).

(** [self.rate_limit.<method>(...)] on the limiter object [rl]. *)
Definition on_rate_limit (f : RateLimit -> RateLimit) : M unit :=
  modify (fun ag =>
    match rate_limit ag with
    | Some rl => with_rate_limit (Some (f rl)) ag
    | None => ag
    end).

(** Lines 454 to 457: the submission counts. *)
Definition grant (rl : RateLimit) (tokens tokens_used : Z)
    (oldest_counted_submission : option datetime)
    (datetime_current_time : datetime) : M unit :=
  (set_sub_counts 1 ;;;
   let tokens_used := tokens_used + 1 in
   on_rate_limit
     (rate_limit_set_main_string
        (grant_main_string tokens (seconds rl) (minutes rl) (hours rl)
           (days rl))
        tokens_used) ;;;
   on_rate_limit
     (set_next_token_regen oldest_counted_submission
        (Some datetime_current_time)))%M.

(** Lines 459 to 493: the submission does not count; the process ends
    in [sys.exit()]. *)
Definition deny (rl : RateLimit) (tokens tokens_used : Z)
    (oldest_counted_submission : option datetime) : M unit :=
  (set_sub_counts 0 ;;;
   print (deny_message tokens (seconds rl) (minutes rl) (hours rl)
            (days rl) tokens_used (pull_prev_run rl)) ;;;
   match oldest_counted_submission with
   | Some o => print (regen_line (plus_seconds o (total_seconds rl)))
   | None => print no_tokens_line
   end ;;;
   tl <- (if pull_prev_run rl then pull_prev_run_results
          else set_score (JNum 0) ;;; ret (JList [], JNull)) ;;
   generate_results (fst tl) (snd tl) true true ;;;
   sys_exit)%M.

Definition rate_limit_main : M unit :=
  (ag <- gets (fun ag => ag) ;;
   if is_local && negb (use_ratelimit_when_local ag) then ret tt
   else
     match rate_limit ag with
     | None => ret tt
     | Some rl =>
       match tokens rl with
       | None => ret tt
       | Some tokens =>
         counted <- lift (count_history rl (metadata ag)) ;;
         let '(tokens_used, oldest, current_time) := counted in
         let oldest_counted_submission :=
           option_map (fun t => fromtimestamp (mktime t)) oldest in
         let datetime_current_time := fromtimestamp (mktime current_time) in
         if tokens_used <? tokens then
           grant rl tokens tokens_used oldest_counted_submission
             datetime_current_time
         else
           deny rl tokens tokens_used oldest_counted_submission
       end
     end)%M.

Definition rate_limit_unset_submission : M unit := set_sub_counts 0.

Definition rate_limit_does_submission_count (ag : Autograder)
    : outcome json :=
  Py.getitem (JObj (extra_data ag)) "sub_counts".

(** [RateLimit.get_rate_limit_str]. *)
Definition get_rate_limit_str (rl : RateLimit) (ag : Autograder)
    : outcome string :=
  (let datetime_regen_rate := total_seconds rl in
   sub_to_count <-
     match oldest_token_time rl with
     | Some o => Ret (Some o)
     | None =>
         c <- rate_limit_does_submission_count ag ;;
         if Py.truthy c then Ret (current_submission_time rl)
         else Ret None
     end ;;
   c <- rate_limit_does_submission_count ag ;;
   tu <- (if negb (Py.truthy c) then
            match tokens_used rl with
            | Some n => Ret (Some (n - 1))
            | None => Raise TypeError
            end
          else Ret (tokens_used rl)) ;;
   let next_token_regen_str :=
     match sub_to_count with
     | Some t =>
         "[Rate Limit]: As of this submission time, your next token will regenerate at "
         ++ ctime (plus_seconds t datetime_regen_rate) ++ " (PT)." ++ nl ++ nl
     | None =>
         "[Rate Limit]: As of this submission time, you have not used any tokens!"
         ++ nl ++ nl
     end in
   Ret (format (main_string rl) tu ++ next_token_regen_str))%py.

(** Lines 328 to 332 of [Autograder.execute]: the report of the limiter is
    put before the output and the results are written. *)
Definition report_and_dump : M unit :=
  (ag <- gets (fun ag => ag) ;;
   match rate_limit ag with
   | Some rl =>
       (match output ag with
        | None => modify (with_output (Some ""))
        | Some _ => ret tt
        end) ;;;
       ag <- gets (fun ag => ag) ;;
       str <- lift (get_rate_limit_str rl ag) ;;
       modify (with_output
                 (Some (str ++ match output ag with
                               | Some o => o
                               | None => ""
                               end)))
   | None => ret tt
   end ;;;
   generate_results JNull JNull true true ;;;
   ret tt)%M.

(** [Autograder.execute]; [run_tests] runs the setups, tests and
    teardowns registered from the other modules. *)
Definition execute (run_tests : M bool) : M unit :=
  (rate_limit_main ;;;
   _ <- run_tests ;;
   report_and_dump)%M.

End Base.

(** ** The older revision, [Autograder.py] at the top of the repository *)

Module Legacy.
Section Legacy.

Context {T : TimeLib}.

Record RateLimit : Type := mkRateLimit {
  tokens : option Z;
  seconds : Z;
  minutes : Z;
  hours : Z;
  days : Z;
  reset_time : option string
}.

Record Autograder : Type := mkAutograder {
  tests : list json;
  score : json;
  output : option string;
  visibility : json;
  stdout_visibility : json;
  extra_data : dict;
  leaderboard : json;
  rate_limit : option RateLimit;
  results_json : option dict
}.

Definition with_score (v : json) (ag : Autograder) : Autograder :=
  {| tests := tests ag;
     score := v;
     output := output ag;
     visibility := visibility ag;
     stdout_visibility := stdout_visibility ag;
     extra_data := extra_data ag;
     leaderboard := leaderboard ag;
     rate_limit := rate_limit ag;
     results_json := results_json ag |}.

Definition with_output (v : option string) (ag : Autograder) : Autograder :=
  {| tests := tests ag;
     score := score ag;
     output := v;
     visibility := visibility ag;
     stdout_visibility := stdout_visibility ag;
     extra_data := extra_data ag;
     leaderboard := leaderboard ag;
     rate_limit := rate_limit ag;
     results_json := results_json ag |}.

Definition with_extra_data (v : dict) (ag : Autograder) : Autograder :=
  {| tests := tests ag;
     score := score ag;
     output := output ag;
     visibility := visibility ag;
     stdout_visibility := stdout_visibility ag;
     extra_data := v;
     leaderboard := leaderboard ag;
     rate_limit := rate_limit ag;
     results_json := results_json ag |}.

Definition with_results_json (v : option dict) (ag : Autograder)
    : Autograder :=
  {| tests := tests ag;
     score := score ag;
     output := output ag;
     visibility := visibility ag;
     stdout_visibility := stdout_visibility ag;
     extra_data := extra_data ag;
     leaderboard := leaderboard ag;
     rate_limit := rate_limit ag;
     results_json := v |}.

Definition M (A : Type) : Type := Autograder -> outcome A * Autograder.

Definition ret {A} (a : A) : M A := fun ag => (Ret a, ag).

Definition bind {A B} (c : M A) (k : A -> M B) : M B :=
  fun ag =>
    match c ag with
    | (Ret a, ag') => k a ag'
    | (Raise e, ag') => (Raise e, ag')
    | (Exit, ag') => (Exit, ag')
    end.

Definition lift {A} (o : outcome A) : M A := fun ag => (o, ag).

Definition gets {A} (f : Autograder -> A) : M A :=
  fun ag => (Ret (f ag), ag).

Definition modify (f : Autograder -> Autograder) : M unit :=
  fun ag => (Ret tt, f ag).

Definition sys_exit {A} : M A := fun ag => (Exit, ag).

Declare Scope lm_scope.
Delimit Scope lm_scope with LM.
Notation "x <- c ;; k" := (bind c (fun x => k))
  (at level 61, c at next level, right associativity) : lm_scope.
Notation "c ;;; k" := (bind c (fun _ => k))
  (at level 61, right associativity) : lm_scope.

(** What [Autograder.print] appends to: the output, [""] for [None]. *)
Definition text (ag : Autograder) : string :=
  match output ag with Some o => o | None => "" end.

(** [Autograder.print] with string arguments. *)
Definition print (msg : string) : M unit :=
  modify (fun ag => with_output (Some (text ag ++ msg ++ nl)) ag).

Definition dump_results (data : dict) : M unit :=
  modify (with_results_json (Some data)).

Definition set_if (c : bool) (k : string) (v : json) (d : dict) : dict :=
  if c then Py.setitem k v d else d.

(** [Autograder.generate_results] of the older revision, without the
    [execution_time] entry. *)
Definition generate_results (test_results : json) (dump : bool) : M dict :=
  (ag <- gets (fun ag => ag) ;;
   let results : dict := [] in
   let results :=
     match test_results with
     | JNull =>
         let tests := filter Py.truthy (tests ag) in
         set_if (Py.truthy (JList tests)) "tests" (JList tests) results
     | JList _ => Py.setitem "tests" test_results results
     | _ => results
     end in
   let results :=
     set_if (negb (Py.is_none (score ag))) "score" (score ag) results in
   let results :=
     match output ag with
     | Some o => Py.setitem "output" (JStr o) results
     | None => results
     end in
   let results :=
     set_if (negb (Py.is_none (visibility ag)))
       "visibility" (visibility ag) results in
   let results :=
     set_if (negb (Py.is_none (stdout_visibility ag)))
       "stdout_visibility" (stdout_visibility ag) results in
   let results :=
     set_if (Py.truthy (JObj (extra_data ag)))
       "extra_data" (JObj (extra_data ag)) results in
   let results :=
     set_if (negb (Py.is_none (leaderboard ag)))
       "leaderboard" (leaderboard ag) results in
   (if dump then dump_results results else ret tt) ;;;
   ret results)%LM.

Definition get_submission_time (s : json) : outcome string :=
  match s with
  | JStr s => Ret (Py.drop_last 13 s)
  | _ => Raise TypeError
  end.

Definition strptime_or_raise (s : string) : outcome struct_time :=
  match strptime s with
  | Some t => Ret t
  | None => Raise ValueError
  end.

Definition unit_str (n : Z) (name : string) : string :=
  let x := if n =? 0 then "" else Py.str n ++ " " ++ name in
  x ++ (if String.eqb x "" || (n =? 1) then "" else "s").

Definition pretty_time_str (s m h d : Z) : string :=
  let sstr := unit_str s "second" in
  let mstr := unit_str m "minute" in
  let hstr := unit_str h "hour" in
  let dstr := unit_str d "day" in
  let st :=
    fold_left
      (fun st tmpstr =>
         (if negb (String.eqb st "") && negb (String.eqb tmpstr "")
          then st ++ " " else st) ++ tmpstr)
      [hstr; mstr; sstr] dstr in
  if String.eqb st "" then "none" else st.

(** Lines 244 and 245: the time of the history entry [v]. *)
Definition subm_time_of (v : json) : outcome struct_time :=
  (t <- Py.getitem v "submission_time" ;;
   subm_string <- get_submission_time t ;;
   strptime_or_raise subm_string)%py.

(** [try: body  except: handler], a bare [except]. *)
Definition try_except {A} (body : outcome A) (handler : outcome A)
    : outcome A :=
  match body with
  | Raise _ => handler
  | o => o
  end.

(** One iteration of the loop; the only accumulator is [tokens_used].
    The [print] calls of the [try] block read the same entries as the
    test that follows them. *)
Definition visit (restart_time : option struct_time)
    (current_time : struct_time) (regen_time_seconds : Z)
    (tokens_used : Z) (v : json) : outcome Z :=
  (subm_time <- subm_time_of v ;;
   if match restart_time with
      | Some r => mktime subm_time - mktime r <? 0
      | None => false
      end
   then Ret tokens_used
   else if mktime current_time - mktime subm_time <? regen_time_seconds then
     try_except
       (res <- Py.getitem v "results" ;;
        ed <- Py.getitem res "extra_data" ;;
        sc <- Py.getitem ed "sub_counts" ;;
        if Py.eq sc (JNum 1) then Ret (tokens_used + 1)
        else Ret tokens_used)
       (Ret (tokens_used + 1))
   else Ret tokens_used)%py.

Fixpoint count_submissions (restart_time : option struct_time)
    (current_time : struct_time) (regen_time_seconds : Z)
    (l : list json) (tokens_used : Z) : outcome Z :=
  match l with
  | [] => Ret tokens_used
  | v :: l' =>
      (n <- visit restart_time current_time regen_time_seconds
              tokens_used v ;;
       count_submissions restart_time current_time regen_time_seconds l' n)%py
  end.

(** Lines 238 and 239: the time of the current submission. *)
Definition current_time_of (md : json) : outcome struct_time :=
  (created <- Py.getitem md "created_at" ;;
   current_subm_string <- get_submission_time created ;;
   strptime_or_raise current_subm_string)%py.

(** Line 240. *)
Definition restart_time_of (rl : RateLimit) : outcome (option struct_time) :=
  match reset_time rl with
  | Some r => (t <- strptime_or_raise r ;; Ret (Some t))%py
  | None => Ret None
  end.

(** What the loop of line 243 runs over. *)
Definition history_of (md : json) : outcome (list json) :=
  (prev <- Py.getitem md "previous_submissions" ;;
   Py.iter prev)%py.

Definition regen_time_seconds_of (rl : RateLimit) : Z :=
  seconds rl + 60 * (minutes rl + 60 * (hours rl + (24 * days rl))).

(** Lines 210 to 263: answers [tokens_used]. *)
Definition count_history (rl : RateLimit) (md : json) : outcome Z :=
  (let regen_time_seconds := regen_time_seconds_of rl in
   current_time <- current_time_of md ;;
   restart_time <- restart_time_of rl ;;
   items <- history_of md ;;
   count_submissions restart_time current_time regen_time_seconds items 0)%py.

Definition grant_message (tokens s m h d tokens_used : Z) : string :=
  "Students can get up to " ++ Py.str tokens
  ++ " graded submissions within any given period of "
  ++ pretty_time_str s m h d
  ++ ". In the last period, you have had " ++ Py.str tokens_used
  ++ " graded submissions.".

Definition deny_message (tokens s m h d tokens_used : Z) : string :=
  "Students can get up to " ++ Py.str tokens
  ++ " graded submissions within any given period of "
  ++ pretty_time_str s m h d
  ++ ". You have already had " ++ Py.str tokens_used
  ++ " graded submissions within the last " ++ pretty_time_str s m h d
  ++ ", so the results of your last graded submission are being displayed. This submission will not count as a graded submission.".

Definition set_sub_counts (n : Z) : M unit :=
  modify (fun ag =>
    with_extra_data (Py.setitem "sub_counts" (JNum n) (extra_data ag)) ag).

(** Lines 265 to 267: the submission counts. *)
Definition grant (rl : RateLimit) (tokens tokens_used : Z) : M unit :=
  (set_sub_counts 1 ;;;
   let tokens_used := tokens_used + 1 in
   print (grant_message tokens (seconds rl) (minutes rl) (hours rl)
            (days rl) tokens_used))%LM.

(** Lines 269 to 274: the last entry of the history is replayed and the
    process ends in [sys.exit()]. *)
Definition deny (rl : RateLimit) (md : json) (tokens tokens_used : Z)
    : M unit :=
  (set_sub_counts 0 ;;;
   print (deny_message tokens (seconds rl) (minutes rl) (hours rl)
            (days rl) tokens_used) ;;;
   prev_subs <- lift (Py.getitem md "previous_submissions") ;;
   prev_sub <- lift (Py.last_item prev_subs) ;;
   sc <- lift (Py.getitem prev_sub "score") ;;
   modify (with_score sc) ;;;
   prev_subs <- lift (Py.getitem md "previous_submissions") ;;
   prev_sub <- lift (Py.last_item prev_subs) ;;
   res <- lift (Py.getitem prev_sub "results") ;;
   tests <- lift (Py.getitem res "tests") ;;
   generate_results tests true ;;;
   sys_exit)%LM.

(** [Autograder.rate_limit_main]; [md] is what [json.load] reads from
    [/autograder/submission_metadata.json]. *)
Definition rate_limit_main (md : json) : M unit :=
  (ag <- gets (fun ag => ag) ;;
   match rate_limit ag with
   | None => ret tt
   | Some rl =>
     match tokens rl with
     | None => ret tt
     | Some tokens =>
       tokens_used <- lift (count_history rl md) ;;
       if tokens_used <? tokens then grant rl tokens tokens_used
       else deny rl md tokens tokens_used
     end
   end)%LM.

End Legacy.
End Legacy.

(** ** The rest of [class Autograder]

    The methods around the limiter: registering tests, the score, the
    leaderboard, failing with a result, the safe environment, and running
    the setups, tests and teardowns.  The objects of the other modules
    ([AutograderTest], the setups and the teardowns) are given by what
    their methods do to the autograder. *)

(** What [safe_env] hands back: the value of [f], or an
    [AutograderSafeEnvError] around what the handler answered or around
    the exception. *)
Inductive safe_result (A : Type) : Type :=
| Value (a : A)
| SafeEnvError (info : json)
| SafeEnvErrorOf (exc : exn).
Arguments Value {A} a.
Arguments SafeEnvError {A} info.
Arguments SafeEnvErrorOf {A} exc.

Section Orchestration.

Context {T : TimeLib}.

Declare Scope a_scope.
Delimit Scope a_scope with A.
Notation "x <- c ;; k" := (bind c (fun x => k))
  (at level 61, c at next level, right associativity) : a_scope.
Notation "c ;;; k" := (bind c (fun _ => k))
  (at level 61, right associativity) : a_scope.

Definition with_registered (v : list json) (ag : Autograder) : Autograder :=
  {| use_ratelimit_when_local := use_ratelimit_when_local ag;
     tests := v;
     score := score ag;
     output := output ag;
     visibility := visibility ag;
     stdout_visibility := stdout_visibility ag;
     extra_data := extra_data ag;
     leaderboard := leaderboard ag;
     reverse_tests := reverse_tests ag;
     rate_limit := rate_limit ag;
     modify_results := modify_results ag;
     metadata := metadata ag;
     results_json := results_json ag |}.

Definition with_leaderboard (v : json) (ag : Autograder) : Autograder :=
  {| use_ratelimit_when_local := use_ratelimit_when_local ag;
     tests := tests ag;
     score := score ag;
     output := output ag;
     visibility := visibility ag;
     stdout_visibility := stdout_visibility ag;
     extra_data := extra_data ag;
     leaderboard := v;
     reverse_tests := reverse_tests ag;
     rate_limit := rate_limit ag;
     modify_results := modify_results ag;
     metadata := metadata ag;
     results_json := results_json ag |}.

(** [l.insert(index, x)]: a negative index counts from the end, and an
    index out of range is brought back to the nearest end. *)
Definition list_insert {A} (index : Z) (x : A) (l : list A) : list A :=
  let n := Z.of_nat (List.length l) in
  let i := if index <? 0 then Z.max 0 (index + n) else Z.min index n in
  firstn (Z.to_nat i) l ++ x :: skipn (Z.to_nat i) l.

(** [Autograder.add_test]; [is_test] is [isinstance(test, AutograderTest)],
    and a test stands in the list as it does in the field [tests]. *)
Definition add_test (is_test : bool) (test : json) (index : option Z)
    : M unit :=
  if is_test then
    modify (fun ag =>
      with_registered
        (match index with
         | None => tests ag ++ [test]
         | Some i => list_insert i test (tests ag)
         end) ag)
  else lift (Raise ValueError).

(** [Autograder.add_score] with an integer [addition], on a score that
    is a value of [json]: an integer, a [bool] (which counts as 0 or 1),
    or a string, a list or a dict, none of which [+=] adds an [int] to.
    The numbers of [json] are the integers: a float score is no value of
    this type, and neither this definition nor a statement about it says
    what becomes of one. *)
Definition add_score (addition : Z) : M unit :=
  (ag <- gets (fun ag => ag) ;;
   (if Py.is_none (score ag) then set_score (JNum 0) else ret tt) ;;;
   ag <- gets (fun ag => ag) ;;
   match score ag with
   | JNum n => set_score (JNum (n + addition))
   | JBool b => set_score (JNum ((if b then 1 else 0) + addition))
   | JNull | JStr _ | JList _ | JObj _ => lift (Raise TypeError)
   end)%A.

(** [Autograder.get_score]; [test_scores] is what [get_score()] answers
    for each registered test, [None] or an integer. *)
Definition get_score (test_scores : list (option Z)) (ag : Autograder)
    : json :=
  let total :=
    fold_left
      (fun total test_score =>
         match test_score with
         | Some ts =>
             match total with
             | None => Some ts
             | Some s => Some (s + ts)
             end
         | None => total
         end)
      test_scores None in
  match total with
  | Some s => JNum s
  | None => score ag
  end.

(** The item [add_leaderboard_item] appends for a new name. *)
Definition new_item (name : string) (value order : json) : json :=
  JObj (set_if (negb (Py.is_none order)) "order" order
          [("name", JStr name); ("value", value)]).

(** The loop of [add_leaderboard_item] with its [else] branch: the first
    item of that name is updated in place, or a new item is appended. *)
Fixpoint add_item (name : string) (value order : json) (l : list json)
    : outcome (list json) :=
  match l with
  | [] => Ret [new_item name value order]
  | item :: l' =>
      (n <- Py.getitem item "name" ;;
       if Py.eq n (JStr name) then
         match item with
         | JObj kv =>
             Ret (JObj (set_if (negb (Py.is_none order)) "order" order
                          (Py.setitem "value" value kv)) :: l')
         | _ => Raise TypeError
         end
       else
         rest <- add_item name value order l' ;;
         Ret (item :: rest))%py
  end.

(** [Autograder.add_leaderboard_item].  A leaderboard that is neither
    [None] nor a list has items without a [name], or no [append]. *)
Definition add_leaderboard_item (name : string) (value order : json)
    : M unit :=
  (ag <- gets (fun ag => ag) ;;
   let lb := if Py.is_none (leaderboard ag) then JList []
             else leaderboard ag in
   modify (with_leaderboard lb) ;;;
   match lb with
   | JList l =>
       l' <- lift (add_item name value order l) ;;
       modify (with_leaderboard (JList l'))
   | other =>
       items <- lift (Py.iter other) ;;
       match items with
       | [] => lift (Raise AttributeError)
       | item :: _ =>
           lift (_ <- Py.getitem item "name" ;; Raise TypeError)%py
       end
   end)%A.

Fixpoint find_item (name : string) (l : list json) : outcome json :=
  match l with
  | [] => Ret JNull
  | item :: l' =>
      (n <- Py.getitem item "name" ;;
       if Py.eq n (JStr name) then Ret item else find_item name l')%py
  end.

(** [Autograder.get_leaderboard_item]: [None] when no item has the name;
    a leaderboard that is [None] cannot be iterated. *)
Definition get_leaderboard_item (name : string) (ag : Autograder)
    : outcome json :=
  (items <- Py.iter (leaderboard ag) ;;
   find_item name items)%py.

(** [l.remove(x)]: the first element equal to [x] goes. *)
Fixpoint list_remove (x : json) (l : list json) : outcome (list json) :=
  match l with
  | [] => Raise ValueError
  | y :: l' =>
      if Py.eq y x then Ret l'
      else (rest <- list_remove x l' ;; Ret (y :: rest))%py
  end.

(** [Autograder.remove_leaderboard_item]. *)
Definition remove_leaderboard_item (name : string) : M bool :=
  (ag <- gets (fun ag => ag) ;;
   item <- lift (get_leaderboard_item name ag) ;;
   if Py.truthy item then
     match leaderboard ag with
     | JList l =>
         l' <- lift (list_remove item l) ;;
         modify (with_leaderboard (JList l')) ;;;
         ret true
     | _ => lift (Raise AttributeError)
     end
   else ret false)%A.

(** [data.update(extra)]: every key of [extra] is set, once, to the
    value [extra] holds for it. *)
Fixpoint dict_update (extra : dict) (seen : list string) (data : dict)
    : dict :=
  match extra with
  | [] => data
  | (k, v) :: extra' =>
      if existsb (String.eqb k) seen then dict_update extra' seen data
      else dict_update extra' (k :: seen) (Py.setitem k v data)
  end.

(** [Autograder.ag_fail]. *)
Definition ag_fail (message : string) (extra : dict) (exit_prog : bool)
    : M unit :=
  (let data :=
     dict_update extra [] [("score", JNum 0); ("output", JStr message)] in
   dump_results data ;;;
   if exit_prog then sys_exit else ret tt)%A.

Definition unexpected_exception : string :=
  "An unexpected exception ocurred while trying to execute the autograder. Please try again or contact a TA if this persists.".

(** [Autograder.safe_env].  [ag_fail] is called with its default
    [exit_prog], so the [return] after it is never reached. *)
Definition safe_env {A} (f : M A) (handler : option (exn -> M json))
    : M (safe_result A) :=
  fun ag =>
    match f ag with
    | (Ret a, ag') => (Ret (Value a), ag')
    | (Exit, ag') => (Exit, ag')
    | (Raise exc, ag') =>
        let fail : M (safe_result A) :=
          bind (ag_fail unexpected_exception [] true)
            (fun _ => ret (SafeEnvErrorOf exc)) in
        match handler with
        | Some handle =>
            match handle exc ag' with
            | (Ret h, ag'') =>
                if Py.truthy h then (Ret (SafeEnvError h), ag'')
                else fail ag''
            | (Raise _, ag'') => fail ag''
            | (Exit, ag'') => (Exit, ag'')
            end
        | None => fail ag'
        end
    end.

Definition main_exception : string :=
  "An exception occured in the autograder's main function. Please contact a TA to resolve this issue.".

(** [Autograder.main] on a given autograder (the welcome message goes to
    the standard output). *)
Definition main {A} (f : M A) : M unit :=
  (let handler := fun _ : exn =>
     (ag_fail main_exception [] true ;;; ret (JBool true))%A in
   let wrapper := (f ;;; ret tt)%A in
   safe_env wrapper (Some handler) ;;;
   ret tt)%A.

(** A setup or a teardown: whether it is to run on a local or a remote
    host, and what running it does and answers. *)
Record step : Type := mkStep {
  okay_to_run : bool -> bool;
  run : M json
}.

Definition token_back : string :=
  "[Rate Limit]: Since the autograder failed to run, you will not use up a token!".

(** [handle_failed] of [run_tests]. *)
Definition handle_failed : M unit :=
  (set_score (JNum 0) ;;;
   ag <- gets (fun ag => ag) ;;
   if Py.has_key "sub_counts" (extra_data ag) then
     print token_back ;;;
     rate_limit_unset_submission
   else ret tt)%A.

(** The loop over the setups, and over the teardowns: [False] as soon as
    one that is to run answers a false value. *)
Fixpoint run_steps (local : bool) (error : string) (steps : list step)
    : M bool :=
  match steps with
  | [] => ret true
  | s :: steps' =>
      if negb (okay_to_run s local) then run_steps local error steps'
      else
        (res <- run s ;;
         if negb (Py.truthy res) then
           print error ;;;
           handle_failed ;;;
           ret false
         else run_steps local error steps')%A
  end.

(** The loop over the tests; each is given by its [run]. *)
Fixpoint run_each (export_tests_after_test : bool) (runs : list (M unit))
    : M unit :=
  match runs with
  | [] => ret tt
  | r :: runs' =>
      (r ;;;
       (if export_tests_after_test then
          generate_results JNull JNull true false ;;; ret tt
        else ret tt) ;;;
       run_each export_tests_after_test runs')%A
  end.

Definition setup_error : string :=
  "[Error]: An error occurred in the setup of the Autograder!".

Definition teardown_error : string :=
  "[Error]: An error occurred in the teardown of the Autograder!".

(** [Autograder.run_tests]; [local] is [is_local()]. *)
Definition run_tests (local : bool) (setups : list step)
    (runs : list (M unit)) (export_tests_after_test : bool)
    (teardowns : list step) : M bool :=
  (ok <- run_steps local setup_error setups ;;
   if ok : bool then
     run_each export_tests_after_test runs ;;;
     run_steps local teardown_error teardowns
   else ret false)%A.

End Orchestration.

(** ** Vocabulary of the further statements *)

(** The unit strings of a duration that are not empty, largest unit
    first. *)
Definition duration_parts (s m h d : Z) : list string :=
  filter (fun part => negb (String.eqb part ""))
    [unit_str d "day"; unit_str h "hour"; unit_str m "minute";
     unit_str s "second"].

(** The string holds a space. *)
Fixpoint has_space (s : string) : bool :=
  match s with
  | EmptyString => false
  | String c s' => Ascii.eqb c " " || has_space s'
  end.

(** The integer a score stands for in [score += addition], when it stands
    for one: [None] has been replaced by 0, and a [bool] is an [int]. *)
Definition score_value (v : json) : option Z :=
  match v with
  | JNull => Some 0
  | JNum n => Some n
  | JBool b => Some (if b then 1 else 0)
  | _ => None
  end.

(** The scores of the tests that have one. *)
Definition given_scores (test_scores : list (option Z)) : list Z :=
  flat_map (fun o => match o with Some z => [z] | None => [] end)
    test_scores.

(** The name of a leaderboard item is a string. *)
Definition has_name (item : json) : bool :=
  match Py.getitem item "name" with
  | Ret (JStr _) => true
  | _ => false
  end.

(** The item carries that name. *)
Definition is_named (name : string) (item : json) : bool :=
  match Py.getitem item "name" with
  | Ret n => Py.eq n (JStr name)
  | _ => false
  end.

(** The result [ag_fail] writes when it is given nothing more. *)
Definition failure (message : string) : dict :=
  [("score", JNum 0); ("output", JStr message)].

(** The leaderboard as [add_leaderboard_item] finds it: [None] stands
    for the empty list it starts. *)
Definition board (lb : json) : option (list json) :=
  match lb with
  | JNull => Some []
  | JList l => Some l
  | _ => None
  end.

(** ** The rest of the older revision

    [set_score], [ag_fail], [safe_env], [main], [run_tests] and [execute]
    of [Autograder.py] at the top of the repository. *)

Module LegacyRun.
Section LegacyRun.

Context {T : TimeLib}.

Import Legacy.

Declare Scope lr_scope.
Delimit Scope lr_scope with LR.
Notation "x <- c ;; k" := (bind c (fun x => k))
  (at level 61, c at next level, right associativity) : lr_scope.
Notation "c ;;; k" := (bind c (fun _ => k))
  (at level 61, right associativity) : lr_scope.

Definition set_score (v : json) : M unit := modify (with_score v).

(** [Autograder.ag_fail]. *)
Definition ag_fail (message : string) (extra : dict) (exit_prog : bool)
    : M unit :=
  (let data :=
     dict_update extra [] [("score", JNum 0); ("output", JStr message)] in
   dump_results data ;;;
   if exit_prog then sys_exit else ret tt)%LR.

(** [Autograder.safe_env]; the handler takes no argument, and the error
    object is an [AutograderError] around what the handler answered. *)
Definition safe_env {A} (f : M A) (handler : option (M json))
    : M (safe_result A) :=
  fun ag =>
    match f ag with
    | (Ret a, ag') => (Ret (Value a), ag')
    | (Exit, ag') => (Exit, ag')
    | (Raise exc, ag') =>
        let fail : M (safe_result A) :=
          bind (ag_fail unexpected_exception [] true)
            (fun _ => ret (SafeEnvError JNull)) in
        match handler with
        | Some handle =>
            match handle ag' with
            | (Ret h, ag'') =>
                if Py.truthy h then (Ret (SafeEnvError h), ag'')
                else fail ag''
            | (Raise _, ag'') => fail ag''
            | (Exit, ag'') => (Exit, ag'')
            end
        | None => fail ag'
        end
    end.

(** [Autograder.main] on a given autograder. *)
Definition main {A} (f : M A) : M unit :=
  (let handler :=
     (ag_fail main_exception [] true ;;; ret (JBool true))%LR in
   let wrapper := (f ;;; ret tt)%LR in
   safe_env wrapper (Some handler) ;;;
   ret tt)%LR.

(** The loop over the setups, and over the teardowns, each given by its
    [run]: the score is set to 0 and [False] answered as soon as one
    answers a false value. *)
Fixpoint run_steps (error : string) (steps : list (M json)) : M bool :=
  match steps with
  | [] => ret true
  | s :: steps' =>
      (res <- s ;;
       if negb (Py.truthy res) then
         set_score (JNum 0) ;;;
         print error ;;;
         ret false
       else run_steps error steps')%LR
  end.

Fixpoint run_each (runs : list (M unit)) : M unit :=
  match runs with
  | [] => ret tt
  | r :: runs' => (r ;;; run_each runs')%LR
  end.

Definition setup_error : string :=
  "An error occurrsed in the setup of the Autograder!".

Definition teardown_error : string :=
  "An error occurred in the teardown of the Autograder!".

(** [Autograder.run_tests]. *)
Definition run_tests (setups : list (M json)) (runs : list (M unit))
    (teardowns : list (M json)) : M bool :=
  (ok <- run_steps setup_error setups ;;
   if ok : bool then
     run_each runs ;;;
     run_steps teardown_error teardowns
   else ret false)%LR.

(** [Autograder.execute]; [md] is the metadata [rate_limit_main] loads. *)
Definition execute (md : json) (run_tests : M bool) : M unit :=
  (rate_limit_main md ;;;
   _ <- run_tests ;;
   generate_results JNull true ;;;
   ret tt)%LR.

(** What a denial replays: the [score] of the last entry and the [tests]
    of its [results], read in this order. *)
Definition replayed (md : json) : outcome (json * json) :=
  (prev_subs <- Py.getitem md "previous_submissions" ;;
   prev_sub <- Py.last_item prev_subs ;;
   sc <- Py.getitem prev_sub "score" ;;
   res <- Py.getitem prev_sub "results" ;;
   tests <- Py.getitem res "tests" ;;
   Ret (sc, tests))%py.

(** The steps leave [extra_data] alone. *)
Definition keeps_extra_data {A} (c : M A) : Prop :=
  forall ag, extra_data (snd (c ag)) = extra_data ag.

End LegacyRun.
End LegacyRun.

(** ** Proper values

    A Python dict holds each key once; the association lists that stand
    for dicts are proper when they do, at every depth. *)

Fixpoint unique_keys (ks : list string) : bool :=
  match ks with
  | [] => true
  | k :: ks' => negb (existsb (String.eqb k) ks') && unique_keys ks'
  end.

Fixpoint proper (x : json) : bool :=
  match x with
  | JList l => forallb proper l
  | JObj kv =>
      unique_keys (map fst kv) && forallb (fun p => proper (snd p)) kv
  | _ => true
  end.

(** The list without its first item of that name. *)
Fixpoint drop_named (name : string) (l : list json) : list json :=
  match l with
  | [] => []
  | item :: l' =>
      if is_named name item then l' else item :: drop_named name l'
  end.

(** ** Steps of the older revision that only print

    The setups, tests and teardowns of the older revision as the
    statements about its reports take them: they leave [extra_data] alone
    and at most append to the output. *)

Section LegacyVocabulary.

Context {T : TimeLib}.

Definition legacy_grows (ag ag' : Legacy.Autograder) : Prop :=
  Legacy.extra_data ag' = Legacy.extra_data ag
  /\ (Legacy.output ag' = Legacy.output ag
      \/ exists suffix,
           Legacy.output ag' = Some (Legacy.text ag ++ suffix)).

Definition legacy_steady {A} (c : Legacy.M A) : Prop :=
  forall ag, legacy_grows ag (snd (c ag)).

Definition legacy_steady_steps {A} (steps : list (Legacy.M A)) : Prop :=
  forall s, In s steps -> legacy_steady s.

End LegacyVocabulary.

(** ** A clock for worked examples

    One instance of [TimeLib]: fixed-width fields, the proleptic Gregorian
    calendar, and UTC for the time zone of the host. *)

Module UTC.

Record tm : Type := mkTm {
  tm_year : Z; tm_mon : Z; tm_mday : Z;
  tm_hour : Z; tm_min : Z; tm_sec : Z
}.

Definition digit_of (c : ascii) : option Z :=
  let n := Z.of_nat (nat_of_ascii c) in
  if (48 <=? n) && (n <=? 57) then Some (n - 48) else None.

(** Reads [n] decimal digits, most significant first. *)
Fixpoint read_digits (n : nat) (acc : Z) (s : string)
    : option (Z * string) :=
  match n with
  | O => Some (acc, s)
  | S n' =>
      match s with
      | String c s' =>
          match digit_of c with
          | Some d => read_digits n' (10 * acc + d) s'
          | None => None
          end
      | EmptyString => None
      end
  end.

Definition read_char (c : ascii) (s : string) : option string :=
  match s with
  | String c' s' => if Ascii.eqb c c' then Some s' else None
  | EmptyString => None
  end.

Definition is_leap (y : Z) : bool :=
  ((y mod 4 =? 0) && negb (y mod 100 =? 0)) || (y mod 400 =? 0).

Definition days_in_month (y m : Z) : Z :=
  if m =? 2 then (if is_leap y then 29 else 28)
  else if (m =? 4) || (m =? 6) || (m =? 9) || (m =? 11) then 30
  else 31.

Definition parse (s : string) : option tm :=
  match read_digits 4 0 s with
  | Some (y, s) =>
    match read_char "-" s with
    | Some s =>
      match read_digits 2 0 s with
      | Some (mo, s) =>
        match read_char "-" s with
        | Some s =>
          match read_digits 2 0 s with
          | Some (d, s) =>
            match read_char "T" s with
            | Some s =>
              match read_digits 2 0 s with
              | Some (h, s) =>
                match read_char ":" s with
                | Some s =>
                  match read_digits 2 0 s with
                  | Some (mi, s) =>
                    match read_char ":" s with
                    | Some s =>
                      match read_digits 2 0 s with
                      | Some (se, EmptyString) =>
                          if (1 <=? mo) && (mo <=? 12) && (1 <=? d)
                             && (d <=? days_in_month y mo)
                             && (h <=? 23) && (mi <=? 59) && (se <=? 61)
                          then Some (mkTm y mo d h mi se)
                          else None
                      | _ => None
                      end
                    | None => None
                    end
                  | None => None
                  end
                | None => None
                end
              | None => None
              end
            | None => None
            end
          | None => None
          end
        | None => None
        end
      | None => None
      end
    | None => None
    end
  | None => None
  end.

(** Days from 1970-01-01 to the civil date [y-m-d]. *)
Definition days_from_civil (y m d : Z) : Z :=
  let y := if m <=? 2 then y - 1 else y in
  let era := y / 400 in
  let yoe := y - era * 400 in
  let doy := (153 * (m + (if 2 <? m then -3 else 9)) + 2) / 5 + d - 1 in
  let doe := yoe * 365 + yoe / 4 - yoe / 100 + doy in
  era * 146097 + doe - 719468.

Definition seconds_of (t : tm) : Z :=
  days_from_civil (tm_year t) (tm_mon t) (tm_mday t) * 86400
  + tm_hour t * 3600 + tm_min t * 60 + tm_sec t.

(** The civil date of a day number: [(year, month, day)]. *)
Definition civil_from_days (z : Z) : Z * Z * Z :=
  let z := z + 719468 in
  let era := z / 146097 in
  let doe := z - era * 146097 in
  let yoe := (doe - doe / 1460 + doe / 36524 - doe / 146096) / 365 in
  let y := yoe + era * 400 in
  let doy := doe - (365 * yoe + yoe / 4 - yoe / 100) in
  let mp := (5 * doy + 2) / 153 in
  let d := doy - (153 * mp + 2) / 5 + 1 in
  let m := if mp <? 10 then mp + 3 else mp - 9 in
  (if m <=? 2 then y + 1 else y, m, d).

Definition day_name (n : Z) : string :=
  nth (Z.to_nat n) ["Sun"; "Mon"; "Tue"; "Wed"; "Thu"; "Fri"; "Sat"] "".

Definition month_name (m : Z) : string :=
  nth (Z.to_nat (m - 1))
    ["Jan"; "Feb"; "Mar"; "Apr"; "May"; "Jun";
     "Jul"; "Aug"; "Sep"; "Oct"; "Nov"; "Dec"] "".

Definition pad2 (fill : string) (n : Z) : string :=
  if n <? 10 then fill ++ Py.str n else Py.str n.

(** ["Sat Apr 25 14:56:44 2020"] *)
Definition render (t : Z) : string :=
  let days := t / 86400 in
  let rest := t mod 86400 in
  let '(y, m, d) := civil_from_days days in
  day_name ((days + 4) mod 7) ++ " " ++ month_name m ++ " "
  ++ pad2 " " d ++ " "
  ++ pad2 "0" (rest / 3600) ++ ":" ++ pad2 "0" (rest mod 3600 / 60) ++ ":"
  ++ pad2 "0" (rest mod 60) ++ " " ++ Py.str y.

#[export] Instance clock : TimeLib := {|
  struct_time := tm;
  strptime := parse;
  mktime := seconds_of;
  datetime := Z;
  fromtimestamp := fun z => z;
  plus_seconds := Z.add;
  ctime := render
|}.

End UTC.

(** ** Vocabulary of the statements *)

Section Vocabulary.

Context {T : TimeLib}.

(** [now - submitted_at], in seconds. *)
Definition age (current_time t : struct_time) : Z :=
  mktime current_time - mktime t.

(** The record predates the administrative reset. *)
Definition before_reset (restart_time : option struct_time)
    (t : struct_time) : bool :=
  match restart_time with
  | Some r => mktime t - mktime r <? 0
  | None => false
  end.

(** The record lies inside the active window: it passed the reset filter
    and its token has not regenerated. *)
Definition in_window (restart_time : option struct_time)
    (current_time : struct_time) (regen_time_seconds : Z)
    (t : struct_time) : bool :=
  negb (before_reset restart_time t)
  && (age current_time t <? regen_time_seconds).

(** The record has a time and it is outside the regeneration window. *)
Definition outside_window (current_time : struct_time)
    (regen_time_seconds : Z) (v : json) : bool :=
  match subm_time_of v with
  | Ret t => regen_time_seconds <=? age current_time t
  | _ => false
  end.

(** The record is not dropped by the reset filter for [r] (a record whose
    time cannot be read stops the loop with or without a reset). *)
Definition at_or_after (r : struct_time) (v : json) : bool :=
  match subm_time_of v with
  | Ret t => negb (mktime t - mktime r <? 0)
  | _ => true
  end.

(** A well-formed payload: [results.extra_data] is a dict that has the key
    [sub_counts]. *)
Definition payload (v : json) : option dict :=
  match Py.getitem v "results" with
  | Ret res =>
      match Py.getitem res "extra_data" with
      | Ret (JObj ed) => if Py.has_key "sub_counts" ed then Some ed else None
      | _ => None
      end
  | _ => None
  end.

(** The counted flag of a payload. *)
Definition counted (ed : dict) : bool :=
  match Py.lookup "sub_counts" ed with
  | Some sc => Py.eq sc (JNum 1)
  | None => false
  end.

(** The submission id of a payload, [None] when it is absent. *)
Definition submission_id (ed : dict) : json :=
  match Py.lookup "id" ed with
  | Some i => i
  | None => JNull
  end.

(** The four malformed payloads, as the text lists them. *)
Inductive malformation : Type :=
| AbsentResults
| AbsentExtraData
| NullExtraData
| AbsentSubCounts.

Definition malformed (v : json) : option malformation :=
  match v with
  | JObj kv =>
      match Py.lookup "results" kv with
      | None => Some AbsentResults
      | Some (JObj res) =>
          match Py.lookup "extra_data" res with
          | None => Some AbsentExtraData
          | Some JNull => Some NullExtraData
          | Some (JObj ed) =>
              if Py.has_key "sub_counts" ed then None else Some AbsentSubCounts
          | Some _ => None
          end
      | Some _ => None
      end
  | _ => None
  end.

(** One more token, the oldest counted submission kept if there is one. *)
Definition bump (acc : counters) (t : struct_time) : counters :=
  (fst acc + 1, match snd acc with None => Some t | Some o => Some o end).

(** The rule the accounting applies to a well-formed payload. *)
Definition consumes_token (exclude : list json) (ed : dict) : bool :=
  counted ed
  && (Py.truthy (submission_id ed)
      && negb (Py.mem (submission_id ed) exclude)).

(** The time of [v] when it is a counted, non-excluded record of the
    active window. *)
Definition qualifying_time (restart_time : option struct_time)
    (current_time : struct_time) (regen_time_seconds : Z)
    (exclude : list json) (v : json) : option struct_time :=
  match subm_time_of v with
  | Ret t =>
      if in_window restart_time current_time regen_time_seconds t then
        match payload v with
        | Some ed => if consumes_token exclude ed then Some t else None
        | None => None
        end
      else None
  | _ => None
  end.

(** [results.extra_data] is present and null. *)
Definition null_extra_data (v : json) : bool :=
  match Py.getitem v "results" with
  | Ret res =>
      match Py.getitem res "extra_data" with
      | Ret JNull => true
      | _ => false
      end
  | _ => false
  end.

(** The record costs a token: it lies in the active window and either its
    well-formed payload consumes one or its payload is malformed otherwise
    than by a null [extra_data]. *)
Definition costs_token (restart_time : option struct_time)
    (current_time : struct_time) (regen_time_seconds : Z)
    (exclude : list json) (v : json) : bool :=
  match subm_time_of v with
  | Ret t =>
      in_window restart_time current_time regen_time_seconds t
      && match payload v with
         | Some ed => consumes_token exclude ed
         | None => negb (null_extra_data v)
         end
  | _ => false
  end.

(** The first answer of [f] along a list. *)
Fixpoint first_some {A B} (f : A -> option B) (l : list A) : option B :=
  match l with
  | [] => None
  | a :: l' =>
      match f a with
      | Some b => Some b
      | None => first_some f l'
      end
  end.

(** The limiter is not switched off: the run is not a skipped local one,
    and a [RateLimit] with a capacity is configured. *)
Definition limiter_runs (is_local : bool) (ag : Autograder)
    (rl : RateLimit) (capacity : Z) : Prop :=
  is_local && negb (use_ratelimit_when_local ag) = false
  /\ rate_limit ag = Some rl
  /\ tokens rl = Some capacity.

(** The configuration of a limiter: what [__init__] received. *)
Definition config_of (rl : RateLimit)
    : option Z * Z * Z * Z * Z * option string * bool * list json :=
  (tokens rl, seconds rl, minutes rl, hours rl, days rl, reset_time rl,
   pull_prev_run rl, submission_id_exclude rl).

(** Two objects hand the same (now, config, history) to an evaluation. *)
Definition same_inputs (ag ag' : Autograder) : Prop :=
  metadata ag' = metadata ag
  /\ use_ratelimit_when_local ag' = use_ratelimit_when_local ag
  /\ option_map config_of (rate_limit ag') = option_map config_of (rate_limit ag).

(** [ag'] is [ag] after some printing, scoring and dumping. *)
Definition grows (ag ag' : Autograder) : Prop :=
  extra_data ag' = extra_data ag
  /\ rate_limit ag' = rate_limit ag
  /\ metadata ag' = metadata ag
  /\ use_ratelimit_when_local ag' = use_ratelimit_when_local ag
  /\ modify_results ag' = modify_results ag
  /\ (output ag' = output ag
      \/ exists suffix, output ag' = Some (text ag ++ suffix)).

(** The object a granted submission leaves behind. *)
Definition granted (ag : Autograder) (rl : RateLimit) (capacity n : Z)
    (oldest : option struct_time) (current_time : struct_time) : Autograder :=
  with_rate_limit
    (Some (set_next_token_regen
             (option_map (fun t => fromtimestamp (mktime t)) oldest)
             (Some (fromtimestamp (mktime current_time)))
             (rate_limit_set_main_string
                (grant_main_string capacity (seconds rl) (minutes rl)
                   (hours rl) (days rl))
                (n + 1) rl)))
    (with_extra_data (Py.setitem "sub_counts" (JNum 1) (extra_data ag)) ag).

(** The sentence that ends the report of a granted submission. *)
Definition grant_regen_str (t : datetime) (regen : Z) : string :=
  "[Rate Limit]: As of this submission time, your next token will regenerate at "
  ++ ctime (plus_seconds t regen) ++ " (PT)." ++ nl ++ nl.

Definition grant_unused_str : string :=
  "[Rate Limit]: As of this submission time, you have not used any tokens!"
  ++ nl ++ nl.

(** The last entry of the history, as the replay reads it. *)
Definition last_entry (ag : Autograder) : outcome json :=
  (prev_subs <- Py.getitem (metadata ag) "previous_submissions" ;;
   Py.last_item prev_subs)%py.

(** The line a denial prints about the next token. *)
Definition next_token_line (rl : RateLimit) (oldest : option datetime)
    : string :=
  match oldest with
  | Some o => regen_line (plus_seconds o (total_seconds rl))
  | None => no_tokens_line
  end.

(** The object after the flag and the two messages of a denial, before
    the previous run is looked up. *)
Definition denied (ag : Autograder) (rl : RateLimit) (capacity n : Z)
    (oldest : option datetime) : Autograder :=
  with_output
    (Some ((text ag
            ++ deny_message capacity (seconds rl) (minutes rl) (hours rl)
                 (days rl) n (pull_prev_run rl) ++ nl)
           ++ next_token_line rl oldest ++ nl))
    (with_extra_data (Py.setitem "sub_counts" (JNum 0) (extra_data ag)) ag).

(** The message of a replay that found nothing to replay. *)
Definition pull_error : string :=
  "[ERROR]: Could not pull the data from your previous submission! This is probably due to it not have finished running!".

End Vocabulary.

Section Steadiness.

Context {T : TimeLib}.

(** A method that only prints, scores and dumps. *)
Definition steady {A} (c : M A) : Prop :=
  forall ag, grows ag (snd (c ag)).

(** A method that never returns to its caller. *)
Definition never_returns {A} (c : M A) : Prop :=
  forall ag a, fst (c ag) <> Ret a.

End Steadiness.

(** ** Data of the worked examples

    The current submission is created at 14:56:44 on 2020-04-25; the
    limiter gives one token a day unless said otherwise. *)

Module Sample.

Import UTC.

Definition now : tm := mkTm 2020 4 25 14 56 44.

Definition created_at : string := "2020-04-25T14:56:44.087023-07:00".
Definition two_hours_ago : string := "2020-04-25T12:56:44.512300-07:00".
Definition three_hours_ago : string := "2020-04-25T11:56:44.512300-07:00".
Definition eighteen_hours_ago : string := "2020-04-24T20:56:44.512300-07:00".
Definition two_days_ago : string := "2020-04-23T14:56:44.512300-07:00".
Definition twelve_hours_ago_reset : string := "2020-04-25T02:56:44".

Definition a_test : json :=
  JObj [("name", JStr "test_add"); ("score", JNum 7); ("max_score", JNum 10)].

(** A history entry: its time, its score and what else it holds. *)
Definition entry (submission_time : string) (fields : dict) : json :=
  JObj (("submission_time", JStr submission_time)
        :: ("score", JNum 7) :: fields).

(** The [results] of an entry whose run finished, with its [extra_data]. *)
Definition results_with (ed : json) : string * json :=
  ("results",
   JObj [("extra_data", ed); ("score", JNum 7);
         ("tests", JList [a_test]); ("leaderboard", JNull)]).

Definition counted_as (id : json) : json :=
  JObj [("id", id); ("sub_counts", JNum 1)].

Definition not_counted_as (id : json) : json :=
  JObj [("id", id); ("sub_counts", JNum 0)].

Definition metadata_of (history : list json) : json :=
  JObj [("id", JNum 5); ("created_at", JStr created_at);
        ("previous_submissions", JList history)].

Definition limiter (capacity : option Z) (hours days : Z)
    (reset : option string) (pull : bool) (exclude : list json)
    : RateLimit :=
  mkRateLimit capacity 0 0 hours days reset "" pull exclude
    None None [] None.

(** The object [Autograder.__init__] builds on the platform. *)
Definition autograder (rl : RateLimit) (history : list json) : Autograder :=
  mkAutograder false [] JNull None JNull JNull [("id", JNum 5)] JNull false
    (Some rl) (fun results => results) (metadata_of history) None.

Definition legacy_limiter (capacity : option Z) (hours days : Z)
    (reset : option string) : Legacy.RateLimit :=
  Legacy.mkRateLimit capacity 0 0 hours days reset.

Definition legacy_autograder (rl : Legacy.RateLimit) : Legacy.Autograder :=
  Legacy.mkAutograder [] JNull None JNull JNull [] JNull (Some rl) None.

(** One token a day. *)
Definition daily : RateLimit := limiter (Some 1) 0 1 None false [].

Definition legacy_daily : Legacy.RateLimit :=
  legacy_limiter (Some 1) 0 1 None.

(** Two tokens an hour. *)
Definition two_an_hour : RateLimit := limiter (Some 2) 1 0 None false [].

Definition legacy_two_an_hour : Legacy.RateLimit :=
  legacy_limiter (Some 2) 1 0 None.

(** The reset of twelve hours ago, as [strptime] reads it. *)
Definition reset_tm : tm := mkTm 2020 4 25 2 56 44.

(** One token a day, the previous run replayed on a denial. *)
Definition pulling : RateLimit := limiter (Some 1) 0 1 None true [].

(** One counted submission, two hours ago. *)
Definition one_counted : list json :=
  [entry two_hours_ago [results_with (counted_as (JNum 4))]].

(** The last run is on record with [results] null: it never finished. *)
Definition unfinished : list json :=
  [entry two_hours_ago [("results", JNull)]].

(** The last run left an empty [results] object. *)
Definition empty_results : list json :=
  [entry two_hours_ago [("results", JObj [])]].

(** The last run finished and its results, written without a leaderboard,
    have no [leaderboard] key. *)
Definition no_leaderboard_key : list json :=
  [entry two_hours_ago
     [("results",
       JObj [("extra_data", counted_as (JNum 4)); ("score", JNum 7);
             ("tests", JList [a_test])])]].

(** The last run has no [results] at all. *)
Definition no_results : list json := [entry two_hours_ago []].

End Sample.

(** ** Vocabulary of a run of the setups, tests and teardowns *)

Section RunVocabulary.

Context {T : TimeLib}.

(** What [handle_failed] makes of [extra_data]: the flag, when it is
    there, is taken back. *)
Definition unset (ed : dict) : dict :=
  if Py.has_key "sub_counts" ed then Py.setitem "sub_counts" (JNum 0) ed
  else ed.

(** [ag'] is [ag] after a run that failed: the score is 0, the flag of the
    limiter is taken back, something has been printed, and the limiter,
    the metadata and the hook are as they were. *)
Definition gave_back (ag ag' : Autograder) : Prop :=
  score ag' = JNum 0
  /\ extra_data ag' = unset (extra_data ag)
  /\ rate_limit ag' = rate_limit ag
  /\ metadata ag' = metadata ag
  /\ use_ratelimit_when_local ag' = use_ratelimit_when_local ag
  /\ modify_results ag' = modify_results ag
  /\ exists suffix, output ag' = Some (text ag ++ suffix).

(** The setups (or teardowns) print, score and dump, and leave the
    limiter, the metadata and [extra_data] alone. *)
Definition steady_steps (steps : list step) : Prop :=
  forall s, In s steps -> steady (run s).

(** The same of the tests. *)
Definition steady_runs (runs : list (M unit)) : Prop :=
  forall r, In r runs -> steady r.

(** [get_results()] of a test answered a dict or [None]. *)
Definition dict_or_none (t : json) : bool :=
  match t with
  | JNull | JObj _ => true
  | _ => false
  end.

Definition is_dict (t : json) : bool :=
  match t with
  | JObj _ => true
  | _ => false
  end.

(** The report [execute] puts before the output of a granted run:
    [used] tokens, and the time the next one comes back. *)
Definition report (rl : RateLimit) (capacity used : Z)
    (regen_str : string) : string :=
  format (grant_main_string capacity (seconds rl) (minutes rl) (hours rl)
            (days rl)) (Some used)
  ++ regen_str.

End RunVocabulary.

(** ** Setups and tests of the worked examples *)

Module SampleRun.

Import UTC.

(** A setup that answers nothing, which counts as a failure. *)
Definition failing_setup : step :=
  mkStep (fun _ => true) (ret JNull).

(** A setup that answers [True]. *)
Definition passing_setup : step :=
  mkStep (fun _ => true) (ret (JBool true)).

(** A test whose run leaves its result on record. *)
Definition a_test_run : M unit :=
  modify (with_registered [Sample.a_test]).

(** The first submission under one token a day. *)
Definition first_submission : Autograder :=
  Sample.autograder Sample.daily [].

(** A leaderboard with one item. *)
Definition one_item : list json :=
  [JObj [("name", JStr "accuracy"); ("value", JNum 90)]].

End SampleRun.

Example str_samples :
  Py.str 0 = "0" /\ Py.str 42 = "42" /\ Py.str (-7) = "-7".
Proof. repeat split; reflexivity. Qed.

Example drop_last_sample :
  Py.drop_last 13 "2020-04-25T14:56:44.087023-07:00" = "2020-04-25T14:56:44".
Proof. reflexivity. Qed.

Example utc_clock_samples :
  option_map UTC.seconds_of (UTC.parse "2020-04-25T14:56:44") = Some 1587826604
  /\ option_map UTC.seconds_of (UTC.parse "2024-02-29T23:59:59") = Some 1709251199
  /\ UTC.parse "2021-02-29T00:00:00" = None
  /\ UTC.render 1587826604 = "Sat Apr 25 14:56:44 2020"
  /\ UTC.render 1586048523 = "Sun Apr  5 01:02:03 2020"
  /\ UTC.render 0 = "Thu Jan  1 00:00:00 1970".
Proof. repeat split; vm_compute; reflexivity. Qed.

Example pretty_time_str_samples :
  pretty_time_str 0 0 2 1 = "1 day 2 hours"
  /\ pretty_time_str 0 0 0 0 = "none"
  /\ pretty_time_str 1 30 0 0 = "30 minutes 1 second".
Proof. repeat split; vm_compute; reflexivity. Qed.

(** * Properties *)

(** ** Dicts *)

Lemma lookup_setitem (k : string) (v : json) (d : dict) :
  Py.lookup k (Py.setitem k v d) = Some v.
Proof.
  induction d as [|[k' v'] d IH]; simpl.
  - rewrite String.eqb_refl. reflexivity.
  - destruct (String.eqb k k') eqn:E; simpl.
    + rewrite String.eqb_refl. reflexivity.
    + rewrite E. exact IH.
Qed.

Lemma setitem_setitem (k : string) (v : json) (d : dict) :
  Py.setitem k v (Py.setitem k v d) = Py.setitem k v d.
Proof.
  induction d as [|[k' v'] d IH]; simpl.
  - rewrite String.eqb_refl. reflexivity.
  - destruct (String.eqb k k') eqn:E; simpl.
    + rewrite String.eqb_refl. reflexivity.
    + rewrite E, IH. reflexivity.
Qed.

Lemma append_assoc (a b c : string) : (a ++ b) ++ c = a ++ (b ++ c).
Proof. induction a; simpl; congruence. Qed.

Lemma append_empty_r (a : string) : a ++ "" = a.
Proof. induction a; simpl; congruence. Qed.

Lemma getitem_not_exit (x : json) (k : string) : Py.getitem x k <> Exit.
Proof.
  destruct x; simpl; try discriminate.
  destruct (Py.lookup k kv); discriminate.
Qed.

(** ** The loop over the history *)

Section Loop.

Context {T : TimeLib}.

Variables (current_time : struct_time) (regen : Z) (exclude : list json).

Lemma visit_no_time restart acc v :
  (forall t, subm_time_of v <> Ret t) ->
  visit restart current_time regen exclude acc v =
  match subm_time_of v with
  | Ret _ => Ret acc
  | Raise e => Raise e
  | Exit => Exit
  end.
Proof.
  intros H. destruct acc as [n o]. unfold visit.
  destruct (subm_time_of v) as [t| |]; simpl; auto.
  exfalso. apply (H t). reflexivity.
Qed.

Lemma visit_before_reset r acc v t :
  subm_time_of v = Ret t -> mktime t - mktime r < 0 ->
  visit (Some r) current_time regen exclude acc v = Ret acc.
Proof.
  intros Ht Hlt. destruct acc as [n o]. unfold visit. rewrite Ht. simpl.
  apply Z.ltb_lt in Hlt. rewrite Hlt. reflexivity.
Qed.

Lemma visit_at_or_after r acc v :
  at_or_after r v = true ->
  visit (Some r) current_time regen exclude acc v =
  visit None current_time regen exclude acc v.
Proof.
  unfold at_or_after. intros H. destruct acc as [n o]. unfold visit.
  destruct (subm_time_of v) as [t| |]; simpl; auto.
  apply negb_true_iff in H. rewrite H. reflexivity.
Qed.

Lemma visit_outside_window restart acc v :
  outside_window current_time regen v = true ->
  visit restart current_time regen exclude acc v = Ret acc.
Proof.
  unfold outside_window, age. intros H. destruct acc as [n o]. unfold visit.
  destruct (subm_time_of v) as [t| |]; try discriminate. simpl.
  apply Z.leb_le in H.
  destruct (match restart with Some r => _ | None => false end); auto.
  destruct (mktime current_time - mktime t <? regen) eqn:E; auto.
  apply Z.ltb_lt in E. lia.
Qed.

Lemma visit_in_window restart n o v t :
  subm_time_of v = Ret t ->
  in_window restart current_time regen t = true ->
  visit restart current_time regen exclude (n, o) v =
  try_except
    (res <- Py.getitem v "results" ;;
     ed <- Py.getitem res "extra_data" ;;
     if negb (Py.is_none ed) then
       subID <- Py.get ed "id" ;;
       sc <- Py.getitem ed "sub_counts" ;;
       if Py.eq sc (JNum 1) && (Py.truthy subID && negb (Py.mem subID exclude))
       then Ret (bump (n, o) t)
       else Ret (n, o)
     else Ret (n, o))%py
    (fun _ => Ret (n + 1, o)).
Proof.
  intros Ht Hw. unfold visit. rewrite Ht. simpl.
  unfold in_window, before_reset, age in Hw.
  apply andb_true_iff in Hw. destruct Hw as [Hr Hw].
  apply negb_true_iff in Hr. rewrite Hr, Hw. reflexivity.
Qed.

Lemma visit_wellformed restart n o v t ed :
  subm_time_of v = Ret t ->
  in_window restart current_time regen t = true ->
  payload v = Some ed ->
  visit restart current_time regen exclude (n, o) v =
  Ret (if consumes_token exclude ed then bump (n, o) t else (n, o)).
Proof.
  intros Ht Hw Hp. rewrite (visit_in_window _ _ _ _ _ Ht Hw).
  unfold payload in Hp.
  destruct (Py.getitem v "results") as [res| |]; try discriminate. simpl.
  destruct (Py.getitem res "extra_data") as [ed'| |]; try discriminate.
  destruct ed' as [| | | | |kv]; try discriminate.
  destruct (Py.has_key "sub_counts" kv) eqn:Hk; try discriminate.
  injection Hp as ->. simpl.
  unfold Py.has_key in Hk. unfold consumes_token, counted, submission_id.
  destruct (Py.lookup "sub_counts" ed) as [sc|]; try discriminate.
  destruct (Py.lookup "id" ed) as [i|]; simpl.
  - destruct (Py.eq sc (JNum 1) && (Py.truthy i && negb (Py.mem i exclude)));
      reflexivity.
  - rewrite andb_false_r. reflexivity.
Qed.

(** In the window, a record without a well-formed payload costs a token,
    unless its [extra_data] is [None]. *)
Lemma visit_no_payload restart n o v t :
  subm_time_of v = Ret t ->
  in_window restart current_time regen t = true ->
  payload v = None ->
  visit restart current_time regen exclude (n, o) v =
  Ret (match Py.getitem v "results" with
       | Ret res =>
           match Py.getitem res "extra_data" with
           | Ret JNull => (n, o)
           | _ => (n + 1, o)
           end
       | _ => (n + 1, o)
       end).
Proof.
  intros Ht Hw Hp. rewrite (visit_in_window _ _ _ _ _ Ht Hw).
  unfold payload in Hp.
  destruct (Py.getitem v "results") as [res| |] eqn:Er; simpl; auto;
    [|destruct (getitem_not_exit _ _ Er)].
  destruct (Py.getitem res "extra_data") as [ed| |] eqn:Ee; simpl; auto;
    [|destruct (getitem_not_exit _ _ Ee)].
  destruct ed as [| | | | |kv]; simpl; auto.
  unfold Py.has_key in Hp.
  destruct (Py.lookup "sub_counts" kv); try discriminate.
  destruct (Py.lookup "id" kv); reflexivity.
Qed.
Lemma count_submissions_cons restart v l acc :
  count_submissions restart current_time regen exclude (v :: l) acc =
  (acc' <- visit restart current_time regen exclude acc v ;;
   count_submissions restart current_time regen exclude l acc')%py.
Proof. reflexivity. Qed.

Lemma count_submissions_outside restart l acc :
  forallb (outside_window current_time regen) l = true ->
  count_submissions restart current_time regen exclude l acc = Ret acc.
Proof.
  induction l as [|v l IH]; simpl; intros H; auto.
  apply andb_true_iff in H. destruct H as [Hv Hl].
  rewrite (visit_outside_window _ _ _ Hv). simpl. auto.
Qed.

Lemma count_submissions_reset r l :
  forall acc,
  count_submissions (Some r) current_time regen exclude l acc =
  count_submissions None current_time regen exclude
    (filter (at_or_after r) l) acc.
Proof.
  induction l as [|v l IH]; simpl; intros acc; auto.
  destruct (at_or_after r v) eqn:E.
  - simpl. rewrite (visit_at_or_after _ _ _ E).
    destruct (visit None current_time regen exclude acc v); simpl; auto.
  - unfold at_or_after in E.
    destruct (subm_time_of v) as [t| |] eqn:Ht; try discriminate.
    apply negb_false_iff, Z.ltb_lt in E.
    rewrite (visit_before_reset _ _ _ _ Ht E). simpl. auto.
Qed.

(** A visit answers, or stops the loop with the exception of the clock. *)
Lemma visit_oldest restart n o v n' o' :
  visit restart current_time regen exclude (n, o) v = Ret (n', o') ->
  o' = match o with
       | Some t => Some t
       | None => qualifying_time restart current_time regen exclude v
       end.
Proof.
  unfold qualifying_time. intros H.
  destruct (subm_time_of v) as [t| |] eqn:Ht;
    try (rewrite visit_no_time in H by congruence; rewrite Ht in H;
         discriminate).
  destruct (in_window restart current_time regen t) eqn:Hw.
  - destruct (payload v) as [ed|] eqn:Hp.
    + rewrite (visit_wellformed _ _ _ _ _ _ Ht Hw Hp) in H.
      destruct (consumes_token exclude ed); injection H as _ <-;
        destruct o; reflexivity.
    + rewrite (visit_no_payload _ _ _ _ _ Ht Hw Hp) in H.
      injection H as H. 
      destruct (Py.getitem v "results") as [res| |].
      * destruct (Py.getitem res "extra_data") as [[]| |];
          injection H as _ <-; destruct o; reflexivity.
      * injection H as _ <-; destruct o; reflexivity.
      * injection H as _ <-; destruct o; reflexivity.
  - assert (Hv : visit restart current_time regen exclude (n, o) v = Ret (n, o)).
    { unfold visit. rewrite Ht. simpl.
      unfold in_window, before_reset, age in Hw.
      destruct (match restart with Some r => _ | None => false end); auto.
      simpl in Hw. rewrite Hw. reflexivity. }
    rewrite Hv in H. injection H as _ <-. destruct o; reflexivity.
Qed.

Lemma count_submissions_oldest restart l :
  forall n o n' o',
  count_submissions restart current_time regen exclude l (n, o) = Ret (n', o') ->
  o' = match o with
       | Some t => Some t
       | None =>
           first_some (qualifying_time restart current_time regen exclude) l
       end.
Proof.
  induction l as [|v l IH]; intros n o n' o' H.
  - injection H as _ <-. destruct o; reflexivity.
  - rewrite count_submissions_cons in H. cbn [first_some].
    destruct (visit restart current_time regen exclude (n, o) v)
      as [[n1 o1]| |] eqn:Hv; try discriminate.
    cbn [obind] in H. apply IH in H. apply visit_oldest in Hv. subst o1.
    destruct o; auto.
Qed.

End Loop.

(** ** Methods of the object *)

Section Methods.

Context {T : TimeLib}.

Lemma grows_refl ag : grows ag ag.
Proof. unfold grows. intuition. Qed.

Lemma grows_trans ag1 ag2 ag3 :
  grows ag1 ag2 -> grows ag2 ag3 -> grows ag1 ag3.
Proof.
  unfold grows.
  intros (E1 & R1 & M1 & U1 & F1 & O1) (E2 & R2 & M2 & U2 & F2 & O2).
  repeat split; try congruence.
  destruct O1 as [O1|[s1 O1]], O2 as [O2|[s2 O2]].
  - left. congruence.
  - right. exists s2. rewrite O2. unfold text. rewrite O1. reflexivity.
  - right. exists s1. congruence.
  - right. exists (s1 ++ s2). rewrite O2. unfold text at 1. rewrite O1.
    rewrite append_assoc. reflexivity.
Qed.

Lemma steady_ret {A} (a : A) : steady (ret a).
Proof. intros ag. apply grows_refl. Qed.

Lemma steady_gets {A} (f : Autograder -> A) : steady (gets f).
Proof. intros ag. apply grows_refl. Qed.

Lemma steady_lift {A} (o : outcome A) : steady (lift o).
Proof. intros ag. apply grows_refl. Qed.

Lemma steady_sys_exit {A} : steady (@sys_exit T A).
Proof. intros ag. apply grows_refl. Qed.

Lemma steady_bind {A B} (c : M A) (k : A -> M B) :
  steady c -> (forall a, steady (k a)) -> steady (bind c k).
Proof.
  intros Hc Hk ag. unfold bind. specialize (Hc ag).
  destruct (c ag) as [[a| |] ag']; simpl in *; auto.
  eapply grows_trans; [exact Hc|apply Hk].
Qed.

Lemma steady_print msg : steady (print msg).
Proof.
  intros ag. unfold print, modify, grows. simpl.
  repeat split. right. exists (msg ++ nl). reflexivity.
Qed.

Lemma steady_set_score v : steady (set_score v).
Proof. intros ag. unfold set_score, modify, grows. simpl. intuition. Qed.

Lemma steady_dump_results d : steady (dump_results d).
Proof. intros ag. unfold dump_results, modify, grows. simpl. intuition. Qed.

End Methods.

Ltac steady_step :=
  match goal with
  | |- steady (bind _ _) => apply steady_bind; [|intros]
  | |- steady (ret _) => apply steady_ret
  | |- steady (gets _) => apply steady_gets
  | |- steady (lift _) => apply steady_lift
  | |- steady (print _) => apply steady_print
  | |- steady (set_score _) => apply steady_set_score
  | |- steady (dump_results _) => apply steady_dump_results
  | |- steady sys_exit => apply steady_sys_exit
  | |- steady (if ?b then _ else _) => destruct b
  | |- steady (match ?x with _ => _ end) => destruct x
  | |- steady _ => progress cbv zeta
  end.

Section MethodsSteady.

Context {T : TimeLib}.

Lemma steady_generate_results tr lb dump warn :
  steady (generate_results tr lb dump warn).
Proof. unfold generate_results. repeat steady_step. Qed.

Lemma steady_pull_prev_run_results : steady pull_prev_run_results.
Proof. unfold pull_prev_run_results. repeat steady_step. Qed.

Lemma never_returns_sys_exit {A} : never_returns (@sys_exit T A).
Proof. intros ag a. discriminate. Qed.

Lemma never_returns_bind {A B} (c : M A) (k : A -> M B) :
  (forall a, never_returns (k a)) -> never_returns (bind c k).
Proof.
  intros Hk ag b. unfold bind.
  destruct (c ag) as [[a| |] ag']; simpl; try discriminate. apply Hk.
Qed.

End MethodsSteady.

(** ** The verdict *)

Section Verdict.

Context {T : TimeLib}.

Variable is_local : bool.

Lemma rate_limit_main_runs ag rl capacity :
  limiter_runs is_local ag rl capacity ->
  rate_limit_main is_local ag =
  match count_history rl (metadata ag) with
  | Ret (n, oldest, current_time) =>
      if n <? capacity then
        grant rl capacity n
          (option_map (fun t => fromtimestamp (mktime t)) oldest)
          (fromtimestamp (mktime current_time)) ag
      else
        deny rl capacity n
          (option_map (fun t => fromtimestamp (mktime t)) oldest) ag
  | Raise e => (Raise e, ag)
  | Exit => (Exit, ag)
  end.
Proof.
  intros (Hl & Hr & Ht). unfold rate_limit_main, bind, gets, lift.
  rewrite Hl, Hr, Ht.
  destruct (count_history rl (metadata ag)) as [[[n o] c]| |];
    try reflexivity.
  simpl. destruct (n <? capacity); reflexivity.
Qed.

Lemma rate_limit_main_grant ag rl capacity n oldest current_time :
  limiter_runs is_local ag rl capacity ->
  count_history rl (metadata ag) = Ret (n, oldest, current_time) ->
  n < capacity ->
  rate_limit_main is_local ag =
  (Ret tt, granted ag rl capacity n oldest current_time).
Proof.
  intros Hrun Hc Hlt. rewrite (rate_limit_main_runs _ _ _ Hrun), Hc.
  apply Z.ltb_lt in Hlt. rewrite Hlt.
  destruct Hrun as (_ & Hr & _).
  unfold grant, granted, bind, set_sub_counts, on_rate_limit, modify.
  simpl. rewrite Hr. reflexivity.
Qed.

Lemma rate_limit_main_deny ag rl capacity n oldest current_time :
  limiter_runs is_local ag rl capacity ->
  count_history rl (metadata ag) = Ret (n, oldest, current_time) ->
  capacity <= n ->
  rate_limit_main is_local ag =
  deny rl capacity n
    (option_map (fun t => fromtimestamp (mktime t)) oldest) ag.
Proof.
  intros Hrun Hc Hle. rewrite (rate_limit_main_runs _ _ _ Hrun), Hc.
  apply Z.ltb_ge in Hle. rewrite Hle. reflexivity.
Qed.

(** The line a denial prints about the next token. *)
Lemma deny_leaves rl capacity n oldest ag :
  let r := deny rl capacity n oldest ag in
  (forall a, fst r <> Ret a)
  /\ extra_data (snd r) = Py.setitem "sub_counts" (JNum 0) (extra_data ag)
  /\ rate_limit (snd r) = rate_limit ag
  /\ metadata (snd r) = metadata ag
  /\ use_ratelimit_when_local (snd r) = use_ratelimit_when_local ag
  /\ exists tail,
       output (snd r) =
       Some (text ag
             ++ deny_message capacity (seconds rl) (minutes rl) (hours rl)
                  (days rl) n (pull_prev_run rl) ++ nl
             ++ match oldest with
                | Some o => regen_line (plus_seconds o (total_seconds rl))
                | None => no_tokens_line
                end ++ nl
             ++ tail).
Proof.
  set (rest :=
         bind (if pull_prev_run rl then pull_prev_run_results
               else bind (set_score (JNum 0))
                      (fun _ => ret (JList [], JNull)))
           (fun tl =>
              bind (generate_results (fst tl) (snd tl) true true)
                (fun _ => @sys_exit T unit))).
  assert (Hs : steady rest).
  { unfold rest. apply steady_bind.
    - destruct (pull_prev_run rl).
      + apply steady_pull_prev_run_results.
      + repeat steady_step.
    - intros tl. apply steady_bind.
      + apply steady_generate_results.
      + intros _. apply steady_sys_exit. }
  assert (Hn : never_returns rest).
  { unfold rest. apply never_returns_bind. intros tl.
    apply never_returns_bind. intros _. apply never_returns_sys_exit. }
  set (line := match oldest with
               | Some o => regen_line (plus_seconds o (total_seconds rl))
               | None => no_tokens_line
               end).
  set (msg := deny_message capacity (seconds rl) (minutes rl) (hours rl)
                (days rl) n (pull_prev_run rl)).
  set (X := with_output (Some ((text ag ++ msg ++ nl) ++ line ++ nl))
              (with_extra_data
                 (Py.setitem "sub_counts" (JNum 0) (extra_data ag)) ag)).
  assert (E : deny rl capacity n oldest ag = rest X).
  { unfold deny, rest, X, line, msg, bind, set_sub_counts, print, modify, text.
    destruct oldest; reflexivity. }
  intros r. unfold r. rewrite E. clear r E.
  specialize (Hs X). specialize (Hn X).
  destruct Hs as (He & Hr & Hm & Hu & _ & Ho).
  repeat split; auto.
  assert (Ox : output X = Some ((text ag ++ msg ++ nl) ++ line ++ nl))
    by reflexivity.
  destruct Ho as [Ho|[suffix Ho]]; rewrite Ho.
  - exists "". rewrite Ox, append_empty_r, !append_assoc. reflexivity.
  - exists suffix. unfold text at 1. rewrite Ox, !append_assoc. reflexivity.
Qed.

(** The report of a granted submission that still counts. *)
Lemma get_rate_limit_str_granted ag rl capacity n oldest current_time :
  let ag' := granted ag rl capacity n oldest current_time in
  forall rl', rate_limit ag' = Some rl' ->
  get_rate_limit_str rl' ag' =
  Ret (format (grant_main_string capacity (seconds rl) (minutes rl)
                 (hours rl) (days rl)) (Some (n + 1))
       ++ grant_regen_str
            (fromtimestamp
               (mktime (match oldest with
                        | Some t => t
                        | None => current_time
                        end)))
            (total_seconds rl)).
Proof.
  intros ag' rl' H. unfold ag', granted in H. simpl in H.
  injection H as <-.
  unfold get_rate_limit_str, rate_limit_does_submission_count, ag', granted.
  simpl. rewrite lookup_setitem. simpl.
  destruct oldest; simpl; try rewrite lookup_setitem; reflexivity.
Qed.

End Verdict.

(** ** The older revision *)

Section LegacyLoop.

Context {T : TimeLib}.

Variables (current_time : struct_time) (regen : Z).

Lemma legacy_subm_time_of v : Legacy.subm_time_of v = subm_time_of v.
Proof. reflexivity. Qed.

Lemma legacy_visit_before_reset r n v t :
  subm_time_of v = Ret t -> mktime t - mktime r < 0 ->
  Legacy.visit (Some r) current_time regen n v = Ret n.
Proof.
  intros Ht Hlt. unfold Legacy.visit. rewrite legacy_subm_time_of, Ht. simpl.
  apply Z.ltb_lt in Hlt. rewrite Hlt. reflexivity.
Qed.

Lemma legacy_visit_at_or_after r n v :
  at_or_after r v = true ->
  Legacy.visit (Some r) current_time regen n v =
  Legacy.visit None current_time regen n v.
Proof.
  unfold at_or_after. intros H. unfold Legacy.visit.
  rewrite legacy_subm_time_of.
  destruct (subm_time_of v) as [t| |]; simpl; auto.
  apply negb_true_iff in H. rewrite H. reflexivity.
Qed.

Lemma legacy_visit_outside_window restart n v :
  outside_window current_time regen v = true ->
  Legacy.visit restart current_time regen n v = Ret n.
Proof.
  unfold outside_window, age. intros H. unfold Legacy.visit.
  rewrite legacy_subm_time_of.
  destruct (subm_time_of v) as [t| |]; try discriminate. simpl.
  apply Z.leb_le in H.
  destruct (match restart with Some r => _ | None => false end); auto.
  destruct (mktime current_time - mktime t <? regen) eqn:E; auto.
  apply Z.ltb_lt in E. lia.
Qed.

Lemma legacy_visit_in_window restart n v t :
  subm_time_of v = Ret t ->
  in_window restart current_time regen t = true ->
  Legacy.visit restart current_time regen n v =
  Legacy.try_except
    (res <- Py.getitem v "results" ;;
     ed <- Py.getitem res "extra_data" ;;
     sc <- Py.getitem ed "sub_counts" ;;
     if Py.eq sc (JNum 1) then Ret (n + 1) else Ret n)%py
    (Ret (n + 1)).
Proof.
  intros Ht Hw. unfold Legacy.visit. rewrite legacy_subm_time_of, Ht. simpl.
  unfold in_window, before_reset, age in Hw.
  apply andb_true_iff in Hw. destruct Hw as [Hr Hw].
  apply negb_true_iff in Hr. rewrite Hr, Hw. reflexivity.
Qed.

(** The older revision counts every malformed payload. *)
Lemma legacy_visit_malformed restart n v t m :
  subm_time_of v = Ret t ->
  in_window restart current_time regen t = true ->
  malformed v = Some m ->
  Legacy.visit restart current_time regen n v = Ret (n + 1).
Proof.
  intros Ht Hw Hm. rewrite (legacy_visit_in_window _ _ _ _ Ht Hw).
  destruct v as [| | | | |kv]; try discriminate. simpl in *.
  destruct (Py.lookup "results" kv) as [res|]; auto.
  destruct res as [| | | | |rkv]; try discriminate. simpl.
  destruct (Py.lookup "extra_data" rkv) as [ed|]; auto.
  destruct ed as [| | | | |ekv]; try discriminate; auto. simpl.
  unfold Py.has_key in Hm.
  destruct (Py.lookup "sub_counts" ekv); try discriminate. reflexivity.
Qed.

Lemma legacy_count_submissions_outside restart l n :
  forallb (outside_window current_time regen) l = true ->
  Legacy.count_submissions restart current_time regen l n = Ret n.
Proof.
  induction l as [|v l IH]; simpl; intros H; auto.
  apply andb_true_iff in H. destruct H as [Hv Hl].
  rewrite (legacy_visit_outside_window _ _ _ Hv). simpl. auto.
Qed.

Lemma legacy_count_submissions_reset r l :
  forall n,
  Legacy.count_submissions (Some r) current_time regen l n =
  Legacy.count_submissions None current_time regen
    (filter (at_or_after r) l) n.
Proof.
  induction l as [|v l IH]; simpl; intros n; auto.
  destruct (at_or_after r v) eqn:E.
  - simpl. rewrite (legacy_visit_at_or_after _ _ _ E).
    destruct (Legacy.visit None current_time regen n v); simpl; auto.
  - unfold at_or_after in E.
    destruct (subm_time_of v) as [t| |] eqn:Ht; try discriminate.
    apply negb_false_iff, Z.ltb_lt in E.
    rewrite (legacy_visit_before_reset _ _ _ _ Ht E). simpl. auto.
Qed.

End LegacyLoop.

Section LegacyVerdict.

Context {T : TimeLib}.

Lemma legacy_rate_limit_main_runs md ag rl capacity :
  Legacy.rate_limit ag = Some rl ->
  Legacy.tokens rl = Some capacity ->
  Legacy.rate_limit_main md ag =
  match Legacy.count_history rl md with
  | Ret n =>
      if n <? capacity then Legacy.grant rl capacity n ag
      else Legacy.deny rl md capacity n ag
  | Raise e => (Raise e, ag)
  | Exit => (Exit, ag)
  end.
Proof.
  intros Hr Ht.
  unfold Legacy.rate_limit_main, Legacy.bind, Legacy.gets, Legacy.lift.
  rewrite Hr, Ht.
  destruct (Legacy.count_history rl md) as [n| |]; try reflexivity.
  simpl. destruct (n <? capacity); reflexivity.
Qed.

Lemma legacy_grant_leaves rl capacity n ag :
  Legacy.grant rl capacity n ag =
  (Ret tt,
   Legacy.with_output
     (Some (Legacy.text ag
            ++ Legacy.grant_message capacity (Legacy.seconds rl)
                 (Legacy.minutes rl) (Legacy.hours rl) (Legacy.days rl)
                 (n + 1)
            ++ nl))
     (Legacy.with_extra_data
        (Py.setitem "sub_counts" (JNum 1) (Legacy.extra_data ag)) ag)).
Proof. reflexivity. Qed.

Lemma legacy_deny_leaves rl md capacity n ag :
  let r := Legacy.deny rl md capacity n ag in
  (forall a, fst r <> Ret a)
  /\ Legacy.extra_data (snd r) =
     Py.setitem "sub_counts" (JNum 0) (Legacy.extra_data ag)
  /\ Legacy.output (snd r) =
     Some (Legacy.text ag
           ++ Legacy.deny_message capacity (Legacy.seconds rl)
                (Legacy.minutes rl) (Legacy.hours rl) (Legacy.days rl) n
           ++ nl).
Proof.
  unfold Legacy.deny, Legacy.bind, Legacy.lift, Legacy.set_sub_counts,
    Legacy.print, Legacy.modify, Legacy.sys_exit, Legacy.generate_results,
    Legacy.gets, Legacy.dump_results, Legacy.ret.
  cbn [fst snd].
  destruct (Py.getitem md "previous_submissions") as [ps| |];
    cbn [fst snd]; [|repeat split; discriminate..].
  destruct (Py.last_item ps) as [p| |];
    cbn [fst snd]; [|repeat split; discriminate..].
  destruct (Py.getitem p "score") as [sc| |];
    cbn [fst snd]; [|repeat split; discriminate..].
  destruct (Py.getitem p "results") as [res| |];
    cbn [fst snd]; [|repeat split; discriminate..].
  destruct (Py.getitem res "tests") as [ts| |];
    cbn [fst snd]; [|repeat split; discriminate..].
  repeat split; discriminate.
Qed.

End LegacyVerdict.

(** ** The verdict of both revisions *)

Section Verdicts.

Context {T : TimeLib}.

Lemma format_grant_main_string capacity s m h d k :
  format (grant_main_string capacity s m h d) (Some k) =
  ("[Rate Limit]: Students can get up to " ++ Py.str capacity
   ++ " graded submissions within any given period of "
   ++ pretty_time_str s m h d
   ++ ". In the last period, you have had ")
  ++ Py.str k ++ " graded submissions." ++ nl.
Proof. reflexivity. Qed.

Lemma base_verdict (is_local : bool) ag rl capacity n oldest current_time :
  limiter_runs is_local ag rl capacity ->
  count_history rl (metadata ag) = Ret (n, oldest, current_time) ->
  let r := rate_limit_main is_local ag in
  (fst r = Ret tt <-> n < capacity)
  /\ (n < capacity ->
      Py.lookup "sub_counts" (extra_data (snd r)) = Some (JNum 1)
      /\ exists rl',
           rate_limit (snd r) = Some rl'
           /\ tokens_used rl' = Some (n + 1)
           /\ exists regen_str,
                get_rate_limit_str rl' (snd r) =
                Ret (format
                       (grant_main_string capacity (seconds rl) (minutes rl)
                          (hours rl) (days rl))
                       (Some (n + 1))
                     ++ regen_str))
  /\ (capacity <= n ->
      Py.lookup "sub_counts" (extra_data (snd r)) = Some (JNum 0)
      /\ exists tail,
           output (snd r) =
           Some (text ag
                 ++ deny_message capacity (seconds rl) (minutes rl)
                      (hours rl) (days rl) n (pull_prev_run rl)
                 ++ tail)).
Proof.
  intros Hrun Hc r.
  destruct (Z.lt_ge_cases n capacity) as [Hlt|Hge].
  - assert (E : r = (Ret tt, granted ag rl capacity n oldest current_time))
      by (apply rate_limit_main_grant; assumption).
    rewrite E. cbn [fst snd]. split; [tauto|]. split; [|lia].
    intros _. split.
    + unfold granted. cbn. apply lookup_setitem.
    + eexists. split; [reflexivity|]. split; [reflexivity|].
      eexists. apply get_rate_limit_str_granted. reflexivity.
  - assert (E : r = deny rl capacity n
                      (option_map (fun t => fromtimestamp (mktime t)) oldest)
                      ag)
      by (apply rate_limit_main_deny with (current_time := current_time);
          assumption).
    rewrite E.
    destruct (deny_leaves rl capacity n
                (option_map (fun t => fromtimestamp (mktime t)) oldest) ag)
      as (Hn & He & _ & _ & _ & tail & Ho).
    split; [split; [intros H; destruct (Hn tt H)|lia]|].
    split; [lia|]. intros _. split.
    + rewrite He. apply lookup_setitem.
    + eexists. rewrite Ho. reflexivity.
Qed.

Lemma legacy_verdict md ag rl capacity n :
  Legacy.rate_limit ag = Some rl ->
  Legacy.tokens rl = Some capacity ->
  Legacy.count_history rl md = Ret n ->
  let r := Legacy.rate_limit_main md ag in
  (fst r = Ret tt <-> n < capacity)
  /\ (n < capacity ->
      Py.lookup "sub_counts" (Legacy.extra_data (snd r)) = Some (JNum 1)
      /\ Legacy.output (snd r) =
         Some (Legacy.text ag
               ++ Legacy.grant_message capacity (Legacy.seconds rl)
                    (Legacy.minutes rl) (Legacy.hours rl) (Legacy.days rl)
                    (n + 1)
               ++ nl))
  /\ (capacity <= n ->
      Py.lookup "sub_counts" (Legacy.extra_data (snd r)) = Some (JNum 0)
      /\ Legacy.output (snd r) =
         Some (Legacy.text ag
               ++ Legacy.deny_message capacity (Legacy.seconds rl)
                    (Legacy.minutes rl) (Legacy.hours rl) (Legacy.days rl) n
               ++ nl)).
Proof.
  intros Hr Ht Hc r. unfold r.
  rewrite (legacy_rate_limit_main_runs _ _ _ _ Hr Ht), Hc.
  destruct (Z.lt_ge_cases n capacity) as [Hlt|Hge].
  - pose proof Hlt as Hb. apply Z.ltb_lt in Hb. rewrite Hb.
    rewrite legacy_grant_leaves. cbn [fst snd]. split; [tauto|].
    split; [|lia]. intros _. split; [|reflexivity].
    cbn. apply lookup_setitem.
  - pose proof Hge as Hb. apply Z.ltb_ge in Hb. rewrite Hb.
    destruct (legacy_deny_leaves rl md capacity n ag) as (Hn & He & Ho).
    split; [split; [intros H; destruct (Hn tt H)|lia]|].
    split; [lia|]. intros _. split; [|exact Ho].
    rewrite He. apply lookup_setitem.
Qed.

End Verdicts.

(** * The claims

    Each claim is proved for every clock; its worked example is read with
    the clock of [UTC]. *)

#[local] Existing Instance UTC.clock.

Section ClaimsPayload.

Context {T : TimeLib}.

(** C2, as amended.  For a record of the active window whose payload is
    malformed in one of the four listed ways, the visit answers without an
    exception.  The older revision counts one token in all four cases.
    The current revision counts one token when [results], [extra_data] or
    the key [sub_counts] is absent, and counts nothing when [extra_data] is
    present but null. *)
Theorem malformed_payload_accounting
    restart current_time regen exclude n o v t m :
  subm_time_of v = Ret t ->
  in_window restart current_time regen t = true ->
  malformed v = Some m ->
  visit restart current_time regen exclude (n, o) v =
  Ret (match m with
       | NullExtraData => (n, o)
       | _ => (n + 1, o)
       end)
  /\ Legacy.visit restart current_time regen n v = Ret (n + 1).
Proof.
  intros Ht Hw Hm. split.
  - assert (Hp : payload v = None).
    { destruct v as [| | | | |kv]; try discriminate.
      unfold payload. simpl in *.
      destruct (Py.lookup "results" kv) as [res|]; auto.
      destruct res as [| | | | |rkv]; try discriminate. simpl.
      destruct (Py.lookup "extra_data" rkv) as [ed|]; auto.
      destruct ed as [| | | | |ekv]; try discriminate; auto.
      destruct (Py.has_key "sub_counts" ekv); try discriminate. auto. }
    rewrite (visit_no_payload _ _ _ _ _ _ _ _ Ht Hw Hp).
    destruct v as [| | | | |kv]; try discriminate. simpl in *.
    destruct (Py.lookup "results" kv) as [res|].
    + destruct res as [| | | | |rkv]; try discriminate. simpl.
      destruct (Py.lookup "extra_data" rkv) as [ed|].
      * destruct ed as [| | | | |ekv]; try discriminate.
        -- injection Hm as <-. reflexivity.
        -- destruct (Py.has_key "sub_counts" ekv); try discriminate.
           injection Hm as <-. reflexivity.
      * injection Hm as <-. reflexivity.
    + injection Hm as <-. reflexivity.
  - exact (legacy_visit_malformed _ _ _ _ _ _ _ Ht Hw Hm).
Qed.

(** C3, as amended.  For a record of the active window with a well-formed
    payload, [tokens_used] is incremented exactly when [sub_counts == 1],
    the submission id is present and truthy, and the id is not in
    [submission_id_exclude]; the first such record also fixes
    [oldest_counted_submission].  So a counted record whose id is excluded
    contributes nothing, and neither does one whose id is absent. *)
Theorem wellformed_payload_accounting
    restart current_time regen exclude n o v t ed :
  subm_time_of v = Ret t ->
  in_window restart current_time regen t = true ->
  payload v = Some ed ->
  visit restart current_time regen exclude (n, o) v =
  Ret (if counted ed
          && (Py.truthy (submission_id ed)
              && negb (Py.mem (submission_id ed) exclude))
       then bump (n, o) t
       else (n, o))
  /\ (Py.mem (submission_id ed) exclude = true ->
      visit restart current_time regen exclude (n, o) v = Ret (n, o))
  /\ (Py.lookup "id" ed = None ->
      visit restart current_time regen exclude (n, o) v = Ret (n, o)).
Proof.
  intros Ht Hw Hp.
  pose proof (visit_wellformed current_time regen exclude restart n o v t ed
                Ht Hw Hp) as H.
  unfold consumes_token in H. split; [exact H|]. split.
  - intros Hx. rewrite H, Hx. simpl. rewrite !andb_false_r. reflexivity.
  - intros Hi. rewrite H. unfold submission_id. rewrite Hi. simpl.
    rewrite andb_false_r. reflexivity.
Qed.

End ClaimsPayload.

(** A record two hours old whose [extra_data] is null: one token a day, and
    no token is counted for it; the older revision counts one. *)
Lemma malformed_payload_accounting_witness :
  let v := Sample.entry Sample.two_hours_ago
             [("results", JObj [("extra_data", JNull)])] in
  malformed v = Some NullExtraData
  /\ visit None Sample.now 86400 [] (0, None) v = Ret (0, None)
  /\ Legacy.visit None Sample.now 86400 0 v = Ret 1.
Proof.
  split; [reflexivity|].
  exact (@malformed_payload_accounting UTC.clock None Sample.now 86400 []
           0 None
           (Sample.entry Sample.two_hours_ago
              [("results", JObj [("extra_data", JNull)])])
           (UTC.mkTm 2020 4 25 12 56 44) NullExtraData
           eq_refl eq_refl eq_refl).
Defined.

(** C2 as it was stated fails: the record below lies in the active window,
    its [extra_data] is present but null, and the current revision counts
    no token for it. *)
Lemma null_extra_data_is_not_counted :
  let v := Sample.entry Sample.two_hours_ago
             [("results", JObj [("extra_data", JNull)])] in
  subm_time_of v = Ret (UTC.mkTm 2020 4 25 12 56 44)
  /\ in_window None Sample.now 86400 (UTC.mkTm 2020 4 25 12 56 44) = true
  /\ malformed v = Some NullExtraData
  /\ visit None Sample.now 86400 [] (0, None) v = Ret (0, None)
  /\ visit None Sample.now 86400 [] (0, None) v <> Ret (1, None).
Proof.
  repeat split. discriminate.
Qed.

(** A counted record two hours old whose id is on the exclusion list. *)
Lemma wellformed_payload_accounting_witness :
  let ed := [("id", JNum 4); ("sub_counts", JNum 1)] in
  let v := Sample.entry Sample.two_hours_ago
             [Sample.results_with (JObj ed)] in
  payload v = Some ed
  /\ visit None Sample.now 86400 [JNum 4] (0, None) v = Ret (0, None).
Proof.
  split; [reflexivity|].
  exact (proj1 (proj2
           (@wellformed_payload_accounting UTC.clock None Sample.now 86400
              [JNum 4] 0 None
              (Sample.entry Sample.two_hours_ago
                 [Sample.results_with
                    (JObj [("id", JNum 4); ("sub_counts", JNum 1)])])
              (UTC.mkTm 2020 4 25 12 56 44)
              [("id", JNum 4); ("sub_counts", JNum 1)]
              eq_refl eq_refl eq_refl))
         eq_refl).
Defined.

(** C3 as it was stated fails: the record below is in the window, its
    payload is well formed and counted, its id is absent and so not in the
    (empty) exclusion list, and no token is counted for it. *)
Lemma counted_record_without_id_is_not_counted :
  let ed := [("sub_counts", JNum 1)] in
  let v := Sample.entry Sample.two_hours_ago
             [Sample.results_with (JObj ed)] in
  subm_time_of v = Ret (UTC.mkTm 2020 4 25 12 56 44)
  /\ in_window None Sample.now 86400 (UTC.mkTm 2020 4 25 12 56 44) = true
  /\ payload v = Some ed
  /\ counted ed = true
  /\ Py.mem (submission_id ed) [] = false
  /\ visit None Sample.now 86400 [] (0, None) v = Ret (0, None)
  /\ visit None Sample.now 86400 [] (0, None) v
     <> Ret (1, Some (UTC.mkTm 2020 4 25 12 56 44)).
Proof.
  repeat split. discriminate.
Qed.

Section ClaimsWindow.

Context {T : TimeLib}.

(** C5.  In both revisions a record whose age, [now - submitted_at], is at
    least the seconds of the window is skipped and leaves the counters as
    they were.  So when every record of the history is outside the window,
    [tokens_used] is 0 and, for a capacity of at least 1, the submission is
    allowed. *)
Theorem outside_window_contributes_nothing :
  (forall restart current_time regen exclude acc n v t,
     subm_time_of v = Ret t ->
     regen <= age current_time t ->
     visit restart current_time regen exclude acc v = Ret acc
     /\ Legacy.visit restart current_time regen n v = Ret n)
  /\ (forall (is_local : bool) ag rl capacity current_time restart items,
        limiter_runs is_local ag rl capacity ->
        1 <= capacity ->
        current_time_of (metadata ag) = Ret current_time ->
        restart_time_of rl = Ret restart ->
        history_of (metadata ag) = Ret items ->
        forallb (outside_window current_time (total_seconds rl)) items
        = true ->
        count_history rl (metadata ag) = Ret (0, None, current_time)
        /\ rate_limit_main is_local ag =
           (Ret tt, granted ag rl capacity 0 None current_time)
        /\ Py.lookup "sub_counts"
             (extra_data (snd (rate_limit_main is_local ag)))
           = Some (JNum 1))
  /\ (forall md ag rl capacity current_time restart items,
        Legacy.rate_limit ag = Some rl ->
        Legacy.tokens rl = Some capacity ->
        1 <= capacity ->
        Legacy.current_time_of md = Ret current_time ->
        Legacy.restart_time_of rl = Ret restart ->
        Legacy.history_of md = Ret items ->
        forallb (outside_window current_time
                   (Legacy.regen_time_seconds_of rl)) items = true ->
        Legacy.count_history rl md = Ret 0
        /\ fst (Legacy.rate_limit_main md ag) = Ret tt
        /\ Py.lookup "sub_counts"
             (Legacy.extra_data (snd (Legacy.rate_limit_main md ag)))
           = Some (JNum 1)).
Proof.
  split; [|split].
  - intros restart current_time regen exclude acc n v t Ht Hage.
    assert (Ho : outside_window current_time regen v = true).
    { unfold outside_window. rewrite Ht. apply Z.leb_le. exact Hage. }
    split.
    + apply visit_outside_window. exact Ho.
    + apply legacy_visit_outside_window. exact Ho.
  - intros is_local ag rl capacity current_time restart items
      Hrun Hcap Hcur Hres Hhist Hall.
    assert (Hc : count_history rl (metadata ag) = Ret (0, None, current_time)).
    { unfold count_history. rewrite Hcur, Hres, Hhist. cbn [obind].
      rewrite (count_submissions_outside _ _ _ _ _ _ Hall). reflexivity. }
    assert (Hm : rate_limit_main is_local ag =
                 (Ret tt, granted ag rl capacity 0 None current_time)).
    { apply rate_limit_main_grant; auto. lia. }
    split; [exact Hc|]. split; [exact Hm|].
    rewrite Hm. unfold granted. cbn. apply lookup_setitem.
  - intros md ag rl capacity current_time restart items
      Hr Ht Hcap Hcur Hres Hhist Hall.
    assert (Hc : Legacy.count_history rl md = Ret 0).
    { unfold Legacy.count_history. rewrite Hcur, Hres, Hhist. cbn [obind].
      apply legacy_count_submissions_outside. exact Hall. }
    split; [exact Hc|].
    rewrite (legacy_rate_limit_main_runs _ _ _ _ Hr Ht), Hc.
    assert (Hb : (0 <? capacity) = true) by (apply Z.ltb_lt; lia).
    rewrite Hb, legacy_grant_leaves. split; [reflexivity|].
    cbn. apply lookup_setitem.
Qed.

(** C6.  When [reset_time] is set and parsed to [r], in both revisions a
    record submitted strictly before [r] is skipped whatever the window
    and the clock are, and leaves the counters as they were; a record at
    or after [r] is treated as it is without a reset.  Over a whole
    history the reset acts as a filter applied before the count. *)
Theorem reset_time_filters_older_records :
  (forall rl s r,
     reset_time rl = Some s -> strptime s = Some r ->
     restart_time_of rl = Ret (Some r))
  /\ (forall r current_time regen exclude acc n v t,
        subm_time_of v = Ret t ->
        mktime t < mktime r ->
        visit (Some r) current_time regen exclude acc v = Ret acc
        /\ Legacy.visit (Some r) current_time regen n v = Ret n)
  /\ (forall r current_time regen exclude acc n v t,
        subm_time_of v = Ret t ->
        mktime r <= mktime t ->
        visit (Some r) current_time regen exclude acc v =
        visit None current_time regen exclude acc v
        /\ Legacy.visit (Some r) current_time regen n v =
           Legacy.visit None current_time regen n v)
  /\ (forall r current_time regen exclude l acc n,
        count_submissions (Some r) current_time regen exclude l acc =
        count_submissions None current_time regen exclude
          (filter (at_or_after r) l) acc
        /\ Legacy.count_submissions (Some r) current_time regen l n =
           Legacy.count_submissions None current_time regen
             (filter (at_or_after r) l) n).
Proof.
  split; [|split; [|split]].
  - intros rl s r Hs Hp. unfold restart_time_of, strptime_or_raise.
    rewrite Hs, Hp. reflexivity.
  - intros r current_time regen exclude acc n v t Ht Hlt. split.
    + apply visit_before_reset with (t := t); auto. lia.
    + apply legacy_visit_before_reset with (t := t); auto. lia.
  - intros r current_time regen exclude acc n v t Ht Hle.
    assert (Ha : at_or_after r v = true).
    { unfold at_or_after. rewrite Ht. apply negb_true_iff, Z.ltb_ge. lia. }
    split.
    + apply visit_at_or_after. exact Ha.
    + apply legacy_visit_at_or_after. exact Ha.
  - intros r current_time regen exclude l acc n. split.
    + apply count_submissions_reset.
    + apply legacy_count_submissions_reset.
Qed.

End ClaimsWindow.

(** Two tokens an hour and one counted submission two hours ago: the
    record is outside the window and the submission is allowed. *)
Lemma outside_window_contributes_nothing_witness :
  forallb (outside_window Sample.now (total_seconds Sample.two_an_hour))
    Sample.one_counted = true
  /\ count_history Sample.two_an_hour (Sample.metadata_of Sample.one_counted)
     = Ret (0, None, Sample.now)
  /\ fst (rate_limit_main false
            (Sample.autograder Sample.two_an_hour Sample.one_counted))
     = Ret tt
  /\ Legacy.count_history Sample.legacy_two_an_hour
       (Sample.metadata_of Sample.one_counted) = Ret 0.
Proof.
  split; [reflexivity|].
  pose proof (proj1 (proj2 (@outside_window_contributes_nothing UTC.clock))
                false
                (Sample.autograder Sample.two_an_hour Sample.one_counted)
                Sample.two_an_hour 2 Sample.now None Sample.one_counted
                (conj eq_refl (conj eq_refl eq_refl))
                ltac:(lia) eq_refl eq_refl eq_refl eq_refl) as H.
  pose proof (proj2 (proj2 (@outside_window_contributes_nothing UTC.clock))
                (Sample.metadata_of Sample.one_counted)
                (Sample.legacy_autograder Sample.legacy_two_an_hour)
                Sample.legacy_two_an_hour 2 Sample.now None
                Sample.one_counted
                eq_refl eq_refl ltac:(lia) eq_refl eq_refl eq_refl eq_refl)
    as L.
  split; [exact (proj1 H)|].
  split; [exact (f_equal fst (proj1 (proj2 H)))|exact (proj1 L)].
Defined.

(** A reset twelve hours ago and a counted record eighteen hours old. *)
Lemma reset_time_filters_older_records_witness :
  let v := Sample.entry Sample.eighteen_hours_ago
             [Sample.results_with (Sample.counted_as (JNum 4))] in
  strptime Sample.twelve_hours_ago_reset = Some Sample.reset_tm
  /\ visit (Some Sample.reset_tm) Sample.now 86400 [] (0, None) v
     = Ret (0, None)
  /\ visit None Sample.now 86400 [] (0, None) v
     = Ret (1, Some (UTC.mkTm 2020 4 24 20 56 44)).
Proof.
  split; [reflexivity|]. split; [|reflexivity].
  exact (proj1
           (proj1 (proj2 (@reset_time_filters_older_records UTC.clock))
              Sample.reset_tm Sample.now 86400 [] (0, None) 0
              (Sample.entry Sample.eighteen_hours_ago
                 [Sample.results_with (Sample.counted_as (JNum 4))])
              (UTC.mkTm 2020 4 24 20 56 44) eq_refl eq_refl)).
Defined.

Section ClaimsReport.

Context {T : TimeLib}.

Lemma count_history_oldest rl md n oldest current_time :
  count_history rl md = Ret (n, oldest, current_time) ->
  exists restart items,
    restart_time_of rl = Ret restart
    /\ history_of md = Ret items
    /\ current_time_of md = Ret current_time
    /\ oldest =
       first_some
         (qualifying_time restart current_time (total_seconds rl)
            (submission_id_exclude rl))
         items.
Proof.
  unfold count_history. intros H.
  destruct (current_time_of md) as [c| |]; try discriminate.
  destruct (restart_time_of rl) as [restart| |]; try discriminate.
  destruct (history_of md) as [items| |]; try discriminate.
  cbn [obind] in H.
  destruct (count_submissions restart c (total_seconds rl)
              (submission_id_exclude rl) items (0, None))
    as [[n' o']| |] eqn:Hc; try discriminate.
  cbn in H. injection H as <- <- <-.
  exists restart, items. repeat split.
  exact (count_submissions_oldest _ _ _ _ _ _ _ _ _ Hc).
Qed.

(** The report after a run that failed and gave its token back
    ([rate_limit_unset_submission]). *)
Lemma get_rate_limit_str_given_back ag rl capacity n oldest current_time :
  let ag' :=
    snd (rate_limit_unset_submission
           (granted ag rl capacity n oldest current_time)) in
  forall rl', rate_limit ag' = Some rl' ->
  get_rate_limit_str rl' ag' =
  Ret (format (grant_main_string capacity (seconds rl) (minutes rl)
                 (hours rl) (days rl)) (Some n)
       ++ match oldest with
          | Some t =>
              grant_regen_str (fromtimestamp (mktime t)) (total_seconds rl)
          | None => grant_unused_str
          end).
Proof.
  intros ag' rl' H. unfold ag', granted in H. simpl in H.
  injection H as <-.
  unfold get_rate_limit_str, rate_limit_does_submission_count, ag', granted.
  unfold rate_limit_unset_submission, set_sub_counts, modify.
  simpl. rewrite !lookup_setitem. simpl.
  rewrite Z.add_simpl_r.
  destruct oldest; simpl; try rewrite !lookup_setitem; reflexivity.
Qed.

(** C7, as amended.  [oldest_counted_submission] is the time of the first
    counted, non-excluded record of the active window, in the order of the
    history.  On a denial the message gives the next regeneration as that
    time plus the window, and says that no token has been used when there
    is none.  On a grant the report gives that time plus the window when
    it is known; when it is not, the report gives the time of the current
    submission plus the window, and only says that no token has been used
    if the run failed afterwards and the submission stopped counting. *)
Theorem oldest_counted_and_next_token
    (is_local : bool) ag rl capacity n oldest current_time :
  limiter_runs is_local ag rl capacity ->
  count_history rl (metadata ag) = Ret (n, oldest, current_time) ->
  let r := rate_limit_main is_local ag in
  let main := grant_main_string capacity (seconds rl) (minutes rl)
                (hours rl) (days rl) in
  (exists restart items,
     restart_time_of rl = Ret restart
     /\ history_of (metadata ag) = Ret items
     /\ oldest =
        first_some
          (qualifying_time restart current_time (total_seconds rl)
             (submission_id_exclude rl))
          items)
  /\ (capacity <= n ->
      exists tail,
        output (snd r) =
        Some (text ag
              ++ deny_message capacity (seconds rl) (minutes rl) (hours rl)
                   (days rl) n (pull_prev_run rl) ++ nl
              ++ match oldest with
                 | Some t =>
                     regen_line
                       (plus_seconds (fromtimestamp (mktime t))
                          (total_seconds rl))
                 | None => no_tokens_line
                 end ++ nl
              ++ tail))
  /\ (n < capacity ->
      exists rl',
        rate_limit (snd r) = Some rl'
        /\ oldest_token_time rl' =
           option_map (fun t => fromtimestamp (mktime t)) oldest
        /\ get_rate_limit_str rl' (snd r) =
           Ret (format main (Some (n + 1))
                ++ grant_regen_str
                     (fromtimestamp
                        (mktime (match oldest with
                                 | Some t => t
                                 | None => current_time
                                 end)))
                     (total_seconds rl))
        /\ get_rate_limit_str rl'
             (snd (rate_limit_unset_submission (snd r))) =
           Ret (format main (Some n)
                ++ match oldest with
                   | Some t =>
                       grant_regen_str (fromtimestamp (mktime t))
                         (total_seconds rl)
                   | None => grant_unused_str
                   end)).
Proof.
  intros Hrun Hc r main. split; [|split].
  - destruct (count_history_oldest _ _ _ _ _ Hc)
      as (restart & items & Hr & Hh & _ & Ho).
    exists restart, items. auto.
  - intros Hge. unfold r.
    rewrite (rate_limit_main_deny _ _ _ _ _ _ _ Hrun Hc Hge).
    destruct (deny_leaves rl capacity n
                (option_map (fun t => fromtimestamp (mktime t)) oldest) ag)
      as (_ & _ & _ & _ & _ & tail & Ho).
    exists tail. rewrite Ho. destruct oldest; reflexivity.
  - intros Hlt. unfold r.
    rewrite (rate_limit_main_grant _ _ _ _ _ _ _ Hrun Hc Hlt). cbn [snd].
    eexists. split; [reflexivity|]. split; [reflexivity|]. split.
    + apply get_rate_limit_str_granted. reflexivity.
    + apply get_rate_limit_str_given_back. reflexivity.
Qed.

End ClaimsReport.

(** One token a day and one counted submission two hours ago: the denial
    names the day after that submission. *)
Lemma oldest_counted_and_next_token_witness :
  limiter_runs false (Sample.autograder Sample.daily Sample.one_counted)
    Sample.daily 1
  /\ first_some (qualifying_time None Sample.now 86400 []) Sample.one_counted
     = Some (UTC.mkTm 2020 4 25 12 56 44)
  /\ regen_line
       (plus_seconds
          (fromtimestamp (mktime (UTC.mkTm 2020 4 25 12 56 44))) 86400)
     = "[Rate Limit]: As of this submission time, your next token will regenerate at Sun Apr 26 12:56:44 2020 (PT)."
       ++ nl
  /\ exists tail,
       output (snd (rate_limit_main false
                      (Sample.autograder Sample.daily Sample.one_counted)))
       = Some (deny_message 1 0 0 0 1 1 false ++ nl
               ++ regen_line
                    (plus_seconds
                       (fromtimestamp
                          (mktime (UTC.mkTm 2020 4 25 12 56 44))) 86400)
               ++ nl ++ tail).
Proof.
  assert (H1 : limiter_runs false
                 (Sample.autograder Sample.daily Sample.one_counted)
                 Sample.daily 1)
    by (repeat split).
  split; [exact H1|]. split; [reflexivity|]. split; [reflexivity|].
  exact (proj1 (proj2
           (@oldest_counted_and_next_token UTC.clock false
              (Sample.autograder Sample.daily Sample.one_counted)
              Sample.daily 1 1 (Some (UTC.mkTm 2020 4 25 12 56 44))
              Sample.now H1 eq_refl))
         ltac:(lia)).
Defined.

(** C7 as it was stated fails: with an empty history no counted record is
    known, the submission is granted, and the report does not say that no
    token has been used; it gives the time of the current submission plus
    the window. *)
Lemma grant_report_names_current_submission :
  let ag := Sample.autograder Sample.daily [] in
  let r := rate_limit_main false ag in
  count_history Sample.daily (metadata ag) = Ret (0, None, Sample.now)
  /\ fst r = Ret tt
  /\ match rate_limit (snd r) with
     | Some rl' =>
         oldest_token_time rl' = None
         /\ get_rate_limit_str rl' (snd r) =
            Ret ("[Rate Limit]: Students can get up to 1 graded submissions within any given period of 1 day. In the last period, you have had 1 graded submissions."
                 ++ nl
                 ++ "[Rate Limit]: As of this submission time, your next token will regenerate at Sun Apr 26 14:56:44 2020 (PT)."
                 ++ nl ++ nl)
         /\ get_rate_limit_str rl' (snd r) <>
            Ret (format (grant_main_string 1 0 0 0 1) (Some 1)
                 ++ grant_unused_str)
     | None => False
     end.
Proof.
  cbv zeta. split; [reflexivity|]. split; [reflexivity|].
  cbn [snd]. split; [reflexivity|]. split; [reflexivity|].
  vm_compute. discriminate.
Qed.

Section ClaimsConfiguration.

Context {T : TimeLib}.

Lemma count_history_config rl1 rl2 md :
  config_of rl1 = config_of rl2 ->
  count_history rl1 md = count_history rl2 md.
Proof.
  unfold config_of. intros H. injection H as Ht Hs Hm Hh Hd Hr Hp He.
  unfold count_history, restart_time_of, total_seconds.
  rewrite Hs, Hm, Hh, Hd, Hr, He. reflexivity.
Qed.

Lemma same_inputs_refl ag : same_inputs ag ag.
Proof. unfold same_inputs. auto. Qed.

Lemma rate_limit_main_off (is_local : bool) ag :
  (forall rl capacity, ~ limiter_runs is_local ag rl capacity) ->
  rate_limit_main is_local ag = (Ret tt, ag).
Proof.
  intros H. unfold rate_limit_main, bind, gets.
  destruct (is_local && negb (use_ratelimit_when_local ag)) eqn:Hl; auto.
  destruct (rate_limit ag) as [rl|] eqn:Hr; auto.
  destruct (tokens rl) as [capacity|] eqn:Ht; auto.
  destruct (H rl capacity). repeat split; auto.
Qed.

Lemma limiter_runs_or_not (is_local : bool) ag :
  (exists rl capacity, limiter_runs is_local ag rl capacity)
  \/ (forall rl capacity, ~ limiter_runs is_local ag rl capacity).
Proof.
  unfold limiter_runs.
  destruct (is_local && negb (use_ratelimit_when_local ag)) eqn:Hl.
  - right. intros rl c (H & _). discriminate.
  - destruct (rate_limit ag) as [rl|] eqn:Hr.
    + destruct (tokens rl) as [capacity|] eqn:Ht.
      * left. exists rl, capacity. auto.
      * right. intros rl' c (_ & H1 & H2). congruence.
    + right. intros rl' c (_ & H1 & _). discriminate.
Qed.

Lemma rate_limit_main_same_inputs (is_local : bool) ag :
  same_inputs ag (snd (rate_limit_main is_local ag)).
Proof.
  destruct (limiter_runs_or_not is_local ag) as [(rl & capacity & Hrun)|Hoff].
  - rewrite (rate_limit_main_runs _ _ _ _ Hrun).
    destruct (count_history rl (metadata ag)) as [[[n o] c]| |] eqn:Hc;
      try apply same_inputs_refl.
    destruct (n <? capacity) eqn:Hn.
    + apply Z.ltb_lt in Hn.
      pose proof (rate_limit_main_grant _ _ _ _ _ _ _ Hrun Hc Hn) as E.
      rewrite (rate_limit_main_runs _ _ _ _ Hrun), Hc in E.
      apply Z.ltb_lt in Hn. rewrite Hn in E. rewrite E.
      destruct Hrun as (_ & Hr & _).
      unfold same_inputs, granted. cbn. rewrite Hr. auto.
    + destruct (deny_leaves rl capacity n
                  (option_map (fun t => fromtimestamp (mktime t)) o) ag)
        as (_ & _ & Hr & Hm & Hu & _).
      unfold same_inputs. rewrite Hr, Hm, Hu. auto.
  - rewrite (rate_limit_main_off _ _ Hoff). apply same_inputs_refl.
Qed.

Lemma rate_limit_main_twice (is_local : bool) ag ag' :
  rate_limit_main is_local ag = (Ret tt, ag') ->
  rate_limit_main is_local ag' = (Ret tt, ag').
Proof.
  destruct (limiter_runs_or_not is_local ag) as [(rl & capacity & Hrun)|Hoff].
  - intros H. pose proof H as H0.
    rewrite (rate_limit_main_runs _ _ _ _ Hrun) in H.
    destruct (count_history rl (metadata ag)) as [[[n o] c]| |] eqn:Hc;
      try discriminate.
    destruct (n <? capacity) eqn:Hn.
    + clear H. apply Z.ltb_lt in Hn.
      rewrite (rate_limit_main_grant _ _ _ _ _ _ _ Hrun Hc Hn) in H0.
      injection H0 as <-.
      destruct Hrun as (Hl & Hr & Ht).
      set (rl' := set_next_token_regen
                    (option_map (fun t => fromtimestamp (mktime t)) o)
                    (Some (fromtimestamp (mktime c)))
                    (rate_limit_set_main_string
                       (grant_main_string capacity (seconds rl) (minutes rl)
                          (hours rl) (days rl))
                       (n + 1) rl)).
      assert (Hrun' : limiter_runs is_local
                        (granted ag rl capacity n o c) rl' capacity).
      { unfold limiter_runs, granted. cbn. auto. }
      assert (Hc' : count_history rl'
                      (metadata (granted ag rl capacity n o c))
                    = Ret (n, o, c)).
      { rewrite <- Hc. apply count_history_config. reflexivity. }
      rewrite (rate_limit_main_grant _ _ _ _ _ _ _ Hrun' Hc' Hn).
      f_equal. unfold granted, rl'. cbn.
      rewrite setitem_setitem. reflexivity.
    + destruct (deny_leaves rl capacity n
                  (option_map (fun t => fromtimestamp (mktime t)) o) ag)
        as (Hnever & _).
      rewrite H in Hnever. destruct (Hnever tt). reflexivity.
  - rewrite (rate_limit_main_off _ _ Hoff). intros H. injection H as <-.
    apply rate_limit_main_off. exact Hoff.
Qed.

(** C8, as amended.  [RateLimit.__init__] checks nothing: it returns a
    limiter for every argument, also for a capacity with a window of zero
    seconds.  With such a window no record submitted at or before the
    current submission is counted. *)
Theorem zero_window_is_accepted :
  (forall tokens s m h d reset pull exclude,
     exists rl,
       RateLimit_init tokens s m h d reset pull exclude = Ret rl
       /\ config_of rl = (tokens, s, m, h, d, reset, pull, exclude))
  /\ (forall rl restart current_time acc v t,
        total_seconds rl = 0 ->
        subm_time_of v = Ret t ->
        mktime t <= mktime current_time ->
        visit restart current_time (total_seconds rl)
          (submission_id_exclude rl) acc v = Ret acc).
Proof.
  split.
  - intros. eexists. split; reflexivity.
  - intros rl restart current_time acc v t H0 Ht Hle.
    apply visit_outside_window. unfold outside_window, age.
    rewrite Ht, H0. apply Z.leb_le. lia.
Qed.

(** C9.  The evaluation reads the clock, the configuration and the
    history, and nothing the object keeps from an earlier call: limiters
    with the same configuration count the same history alike; a call
    leaves metadata and configuration as they were, so a second call
    counts what the first counted; and a call that granted the submission
    leaves an object on which the same call grants it again and changes
    nothing. *)
Theorem evaluation_is_stateless :
  (forall rl1 rl2 md,
     config_of rl1 = config_of rl2 ->
     count_history rl1 md = count_history rl2 md)
  /\ (forall (is_local : bool) ag,
        same_inputs ag (snd (rate_limit_main is_local ag)))
  /\ (forall (is_local : bool) ag rl rl',
        rate_limit ag = Some rl ->
        rate_limit (snd (rate_limit_main is_local ag)) = Some rl' ->
        tokens rl' = tokens rl
        /\ count_history rl' (metadata (snd (rate_limit_main is_local ag)))
           = count_history rl (metadata ag))
  /\ (forall (is_local : bool) ag ag',
        rate_limit_main is_local ag = (Ret tt, ag') ->
        rate_limit_main is_local ag' = (Ret tt, ag')).
Proof.
  split; [|split; [|split]].
  - exact count_history_config.
  - exact rate_limit_main_same_inputs.
  - intros is_local ag rl rl' Hr Hr'.
    destruct (rate_limit_main_same_inputs is_local ag) as (Hm & _ & Hc).
    assert (Hc' : config_of rl' = config_of rl)
      by (rewrite Hr, Hr' in Hc; cbn [option_map] in Hc; congruence).
    split.
    + unfold config_of in Hc'. congruence.
    + rewrite Hm. apply count_history_config. exact Hc'.
  - exact rate_limit_main_twice.
Qed.

(** C10.  On a local run of an object whose [use_ratelimit_when_local] is
    false, [rate_limit_main] returns at once and leaves the object as it
    was, whatever the limiter and the history are: nothing is counted,
    [extra_data] is not touched, and [execute] goes on to run the tests on
    the unchanged object. *)
Theorem local_run_skips_the_limiter ag (run_tests : M bool) :
  use_ratelimit_when_local ag = false ->
  rate_limit_main true ag = (Ret tt, ag)
  /\ extra_data (snd (rate_limit_main true ag)) = extra_data ag
  /\ execute true run_tests ag =
     bind run_tests (fun _ => report_and_dump) ag.
Proof.
  intros H.
  assert (E : rate_limit_main true ag = (Ret tt, ag)).
  { unfold rate_limit_main, bind, gets. rewrite H. reflexivity. }
  split; [exact E|]. split; [rewrite E; reflexivity|].
  unfold execute. unfold bind at 1. rewrite E. reflexivity.
Qed.

End ClaimsConfiguration.

(** A capacity of one token with an empty window is constructed, and a
    counted record two hours old costs nothing under it. *)
Lemma zero_window_is_accepted_witness :
  let rl := Sample.limiter (Some 1) 0 0 None false [] in
  let v := Sample.entry Sample.two_hours_ago
             [Sample.results_with (Sample.counted_as (JNum 4))] in
  total_seconds rl = 0
  /\ visit None Sample.now (total_seconds rl) (submission_id_exclude rl)
       (0, None) v = Ret (0, None).
Proof.
  split; [reflexivity|].
  exact (proj2 (@zero_window_is_accepted UTC.clock)
           (Sample.limiter (Some 1) 0 0 None false []) None Sample.now
           (0, None)
           (Sample.entry Sample.two_hours_ago
              [Sample.results_with (Sample.counted_as (JNum 4))])
           (UTC.mkTm 2020 4 25 12 56 44) eq_refl eq_refl ltac:(vm_compute; discriminate)).
Defined.

(** C8 as it was stated fails: the constructor returns a limiter for a
    capacity of one token and a window of zero seconds. *)
Lemma zero_window_is_constructed :
  exists rl : RateLimit,
    RateLimit_init (Some 1) 0 0 0 0 None false [] = Ret rl
    /\ tokens rl = Some 1
    /\ total_seconds rl = 0.
Proof. eexists. repeat split. Qed.

(** A granted submission, evaluated once more on the object it left. *)
Lemma evaluation_is_stateless_witness :
  let ag := Sample.autograder Sample.daily [] in
  let ag' := snd (rate_limit_main false ag) in
  rate_limit_main false ag = (Ret tt, ag')
  /\ rate_limit_main false ag' = (Ret tt, ag').
Proof.
  split; [reflexivity|].
  exact (proj2 (proj2 (proj2 (@evaluation_is_stateless UTC.clock)))
           false (Sample.autograder Sample.daily [])
           (snd (rate_limit_main false (Sample.autograder Sample.daily [])))
           eq_refl).
Defined.

(** A local run with one token a day and a counted submission two hours
    ago, which would be denied on the platform. *)
Lemma local_run_skips_the_limiter_witness :
  let ag := Sample.autograder Sample.daily Sample.one_counted in
  fst (rate_limit_main false ag) = Exit
  /\ rate_limit_main true ag = (Ret tt, ag).
Proof.
  split; [reflexivity|].
  exact (proj1 (@local_run_skips_the_limiter UTC.clock
                  (Sample.autograder Sample.daily Sample.one_counted)
                  (ret true) eq_refl)).
Defined.

(** ** Replaying the previous run *)

Lemma lookup_setitem_other (k k' : string) (v : json) (d : dict) :
  String.eqb k k' = false ->
  Py.lookup k (Py.setitem k' v d) = Py.lookup k d.
Proof.
  intros H. induction d as [|[k0 v0] d IH]; simpl.
  - rewrite H. reflexivity.
  - destruct (String.eqb k' k0) eqn:E; simpl.
    + apply String.eqb_eq in E. subst k0. rewrite H. reflexivity.
    + rewrite IH. reflexivity.
Qed.

Lemma lookup_set_if_other (c : bool) (k k' : string) (v : json) (d : dict) :
  String.eqb k k' = false ->
  Py.lookup k (set_if c k' v d) = Py.lookup k d.
Proof.
  intros H. destruct c; simpl; auto. apply lookup_setitem_other. exact H.
Qed.

Lemma setitem_truthy (k : string) (v : json) (d : dict) :
  Py.truthy (JObj (Py.setitem k v d)) = true.
Proof.
  destruct d as [|[k' v'] d]; simpl; auto.
  destruct (String.eqb k k'); reflexivity.
Qed.

Lemma nonempty_truthy (d : dict) : d <> [] -> Py.truthy (JObj d) = true.
Proof. destruct d; simpl; congruence. Qed.

Lemma lookup_truthy (k : string) (d : dict) (v : json) :
  Py.lookup k d = Some v -> Py.truthy (JObj d) = true.
Proof. destruct d; simpl; auto. discriminate. Qed.

Section Replay.

Context {T : TimeLib}.

(** The entries [generate_results] copies from the object leave the
    [tests] and the [score] of the dict alone. *)
Lemma with_fields_keeps lb ag d k :
  String.eqb k "output" = false ->
  String.eqb k "visibility" = false ->
  String.eqb k "stdout_visibility" = false ->
  String.eqb k "extra_data" = false ->
  String.eqb k "leaderboard" = false ->
  Py.lookup k (with_fields lb ag d) = Py.lookup k d.
Proof.
  intros Ho Hv Hs He Hl. unfold with_fields. cbv zeta.
  assert (Hlb : forall d',
             Py.lookup k
               (if Py.truthy lb then Py.setitem "leaderboard" lb d'
                else set_if (negb (Py.is_none (leaderboard ag)))
                       "leaderboard" (leaderboard ag) d')
             = Py.lookup k d').
  { intros d'. destruct (Py.truthy lb).
    - apply lookup_setitem_other. exact Hl.
    - apply lookup_set_if_other. exact Hl. }
  rewrite Hlb, !lookup_set_if_other by assumption.
  destruct (output ag); auto. apply lookup_setitem_other. exact Ho.
Qed.

Lemma with_fields_extra_data lb ag d :
  Py.truthy (JObj (extra_data ag)) = true ->
  Py.lookup "extra_data" (with_fields lb ag d) = Some (JObj (extra_data ag)).
Proof.
  intros H. unfold with_fields. cbv zeta. rewrite H.
  destruct (Py.truthy lb).
  - rewrite lookup_setitem_other by reflexivity. apply lookup_setitem.
  - rewrite lookup_set_if_other by reflexivity. apply lookup_setitem.
Qed.

Lemma with_fields_leaderboard lb ag d :
  Py.truthy lb = true ->
  Py.lookup "leaderboard" (with_fields lb ag d) = Some lb.
Proof.
  intros H. unfold with_fields. cbv zeta. rewrite H. apply lookup_setitem.
Qed.

(** With a score on the object, [generate_results] builds the dict, dumps
    it and returns it. *)
Lemma generate_results_scored tr lb warn ag :
  Py.is_none (score ag) = false ->
  generate_results tr lb true warn ag =
  let d := modify_results ag
             (with_fields lb ag
                (Py.setitem "score" (score ag) (with_tests tr ag []))) in
  (Ret d, with_results_json (Some d) ag).
Proof.
  intros H. unfold generate_results, bind, gets, ret, dump_results, modify.
  rewrite H. reflexivity.
Qed.

Lemma pull_prev_run_results_fallback ag kv :
  last_entry ag = Ret (JObj kv) ->
  kv <> [] ->
  (Py.lookup "results" kv = None
   \/ exists res,
        Py.lookup "results" kv = Some (JObj res)
        /\ res <> [] /\ Py.lookup "tests" res = None) ->
  pull_prev_run_results ag =
  (Ret (JList [], JNull),
   with_score (JNum 0)
     (with_output
        (Some (text ag
               ++ "[ERROR]: Could not pull the data from your previous submission! This is probably due to it not have finished running!"
               ++ nl))
        ag)).
Proof.
  unfold last_entry. intros Hl Hkv H.
  unfold pull_prev_run_results, bind, gets, lift.
  destruct (Py.getitem (metadata ag) "previous_submissions")
    as [ps| |]; try discriminate.
  cbn [obind] in Hl. rewrite Hl.
  assert (Hf : pull_failed (JObj kv) = Ret true).
  { unfold pull_failed. rewrite (nonempty_truthy _ Hkv).
    cbn [Py.contains obind]. unfold Py.has_key.
    destruct H as [H|(res & H & Hres & Ht)]; rewrite H.
    - reflexivity.
    - cbn [negb obind Py.getitem]. rewrite H. cbn [obind].
      rewrite (nonempty_truthy _ Hres). cbn [Py.contains obind].
      unfold Py.has_key. rewrite Ht. reflexivity. }
  rewrite Hf. reflexivity.
Qed.

Lemma pull_prev_run_results_replay ag kv res ts lb :
  last_entry ag = Ret (JObj kv) ->
  Py.lookup "results" kv = Some (JObj res) ->
  Py.lookup "tests" res = Some ts ->
  Py.lookup "leaderboard" res = Some lb ->
  pull_prev_run_results ag =
  (Ret (ts, lb),
   with_score (match Py.lookup "score" kv with
               | Some sc => sc
               | None => JNull
               end) ag).
Proof.
  unfold last_entry. intros Hl Hr Ht Hlb.
  unfold pull_prev_run_results, bind, gets, lift.
  destruct (Py.getitem (metadata ag) "previous_submissions")
    as [ps| |]; try discriminate.
  cbn [obind] in Hl. rewrite Hl.
  assert (Hf : pull_failed (JObj kv) = Ret false).
  { unfold pull_failed.
    rewrite (lookup_truthy _ _ _ Hr). cbn [Py.contains obind Py.getitem].
    unfold Py.has_key. rewrite Hr. cbn [negb obind].
    rewrite (lookup_truthy _ _ _ Ht). cbn [Py.contains obind].
    unfold Py.has_key. rewrite Ht. reflexivity. }
  rewrite Hf. cbn [Py.getitem Py.get]. rewrite Hr. cbn [Py.getitem].
  rewrite Ht, Hlb.
  destruct (Py.lookup "score" kv); reflexivity.
Qed.

End Replay.

Section ReplayedRun.

Context {T : TimeLib}.

Lemma deny_unfold rl capacity n oldest ag :
  deny rl capacity n oldest ag =
  bind (if pull_prev_run rl then pull_prev_run_results
        else bind (set_score (JNum 0)) (fun _ => ret (JList [], JNull)))
    (fun tl =>
       bind (generate_results (fst tl) (snd tl) true true)
         (fun _ => sys_exit))
    (denied ag rl capacity n oldest).
Proof.
  unfold deny, denied, next_token_line, bind, set_sub_counts, print, modify,
    text.
  destruct oldest; reflexivity.
Qed.

(** The dict a denial dumps once the score is set: the tests handed over,
    that score, and the flag that the submission did not count. *)
Lemma deny_dumps ag ag1 tests lb :
  extra_data ag1 = Py.setitem "sub_counts" (JNum 0) (extra_data ag) ->
  (forall d, modify_results ag1 d = d) ->
  Py.is_none (score ag1) = false ->
  let r := bind (generate_results (JList tests) lb true true)
             (fun _ => @sys_exit T unit) ag1 in
  fst r = Exit
  /\ score (snd r) = score ag1
  /\ exists d,
       results_json (snd r) = Some d
       /\ Py.lookup "tests" d = Some (JList tests)
       /\ Py.lookup "score" d = Some (score ag1)
       /\ Py.lookup "extra_data" d =
          Some (JObj (Py.setitem "sub_counts" (JNum 0) (extra_data ag)))
       /\ Py.lookup "output" d =
          match output ag1 with Some o => Some (JStr o) | None => None end
       /\ (Py.truthy lb = true -> Py.lookup "leaderboard" d = Some lb).
Proof.
  intros He Hid Hs r. unfold r, bind.
  rewrite (generate_results_scored _ _ _ _ Hs). cbv zeta.
  unfold sys_exit. cbn [fst snd]. split; [reflexivity|].
  split; [reflexivity|]. eexists. split; [reflexivity|].
  rewrite Hid. repeat split.
  - rewrite with_fields_keeps by reflexivity.
    rewrite lookup_setitem_other by reflexivity. reflexivity.
  - rewrite with_fields_keeps by reflexivity. apply lookup_setitem.
  - rewrite with_fields_extra_data.
    + rewrite He. reflexivity.
    + rewrite He. apply setitem_truthy.
  - unfold with_fields. cbv zeta.
    assert (Hlb : forall d',
               Py.lookup "output"
                 (if Py.truthy lb then Py.setitem "leaderboard" lb d'
                  else set_if (negb (Py.is_none (leaderboard ag1)))
                         "leaderboard" (leaderboard ag1) d')
               = Py.lookup "output" d').
    { intros d'. destruct (Py.truthy lb).
      - apply lookup_setitem_other. reflexivity.
      - apply lookup_set_if_other. reflexivity. }
    rewrite Hlb, !lookup_set_if_other by reflexivity.
    destruct (output ag1).
    + apply lookup_setitem.
    + rewrite lookup_setitem_other by reflexivity. reflexivity.
  - apply with_fields_leaderboard.
Qed.

End ReplayedRun.

Section ClaimsReplay.

Context {T : TimeLib}.

(** On a denial with [pull_prev_run], when the last entry of the history
    has no [results] key, or has a non-empty [results] object without a
    [tests] key, the run ends in [sys.exit()] after dumping a score of 0,
    an empty test list, the flag [sub_counts = 0] and an output that ends
    with the explanation. *)
Theorem denied_run_falls_back
    (is_local : bool) ag rl capacity n oldest current_time kv :
  limiter_runs is_local ag rl capacity ->
  count_history rl (metadata ag) = Ret (n, oldest, current_time) ->
  capacity <= n ->
  pull_prev_run rl = true ->
  last_entry ag = Ret (JObj kv) ->
  kv <> [] ->
  (Py.lookup "results" kv = None
   \/ exists res,
        Py.lookup "results" kv = Some (JObj res)
        /\ res <> [] /\ Py.lookup "tests" res = None) ->
  (forall d, modify_results ag d = d) ->
  let r := rate_limit_main is_local ag in
  let before :=
    denied ag rl capacity n
      (option_map (fun t => fromtimestamp (mktime t)) oldest) in
  fst r = Exit
  /\ score (snd r) = JNum 0
  /\ exists d,
       results_json (snd r) = Some d
       /\ Py.lookup "tests" d = Some (JList [])
       /\ Py.lookup "score" d = Some (JNum 0)
       /\ Py.lookup "extra_data" d =
          Some (JObj (Py.setitem "sub_counts" (JNum 0) (extra_data ag)))
       /\ Py.lookup "output" d =
          Some (JStr (text before ++ pull_error ++ nl)).
Proof.
  intros Hrun Hc Hge Hpull Hl Hkv Hres Hid r before.
  set (ag1 := with_score (JNum 0)
                (with_output (Some (text before ++ pull_error ++ nl))
                   before)).
  assert (E : r = bind (generate_results (JList []) JNull true true)
                    (fun _ => sys_exit) ag1).
  { unfold r.
    rewrite (rate_limit_main_deny _ _ _ _ _ _ _ Hrun Hc Hge), deny_unfold.
    fold before. unfold bind at 1. rewrite Hpull.
    rewrite (pull_prev_run_results_fallback before kv Hl Hkv Hres).
    reflexivity. }
  rewrite E.
  destruct (deny_dumps ag ag1 [] JNull eq_refl Hid eq_refl)
    as (He & Hs & d & Hd & Ht & Hsc & Hed & Ho & _).
  split; [exact He|]. split; [exact Hs|].
  exists d. repeat split; assumption.
Qed.

(** On a denial with [pull_prev_run], when the last entry of the history
    has a score and a [results] object with a test list and a
    [leaderboard] key, the run ends in [sys.exit()] after dumping that
    score and that test list as they are, the leaderboard as it is when
    there is one, and the flag [sub_counts = 0]. *)
Theorem denied_run_replays_previous_results
    (is_local : bool) ag rl capacity n oldest current_time kv res ts lb sc :
  limiter_runs is_local ag rl capacity ->
  count_history rl (metadata ag) = Ret (n, oldest, current_time) ->
  capacity <= n ->
  pull_prev_run rl = true ->
  last_entry ag = Ret (JObj kv) ->
  Py.lookup "results" kv = Some (JObj res) ->
  Py.lookup "tests" res = Some (JList ts) ->
  Py.lookup "leaderboard" res = Some lb ->
  Py.lookup "score" kv = Some sc ->
  Py.is_none sc = false ->
  (forall d, modify_results ag d = d) ->
  let r := rate_limit_main is_local ag in
  fst r = Exit
  /\ score (snd r) = sc
  /\ exists d,
       results_json (snd r) = Some d
       /\ Py.lookup "tests" d = Some (JList ts)
       /\ Py.lookup "score" d = Some sc
       /\ Py.lookup "extra_data" d =
          Some (JObj (Py.setitem "sub_counts" (JNum 0) (extra_data ag)))
       /\ (Py.truthy lb = true -> Py.lookup "leaderboard" d = Some lb).
Proof.
  intros Hrun Hc Hge Hpull Hl Hr Ht Hlb Hsc Hnone Hid r.
  set (before := denied ag rl capacity n
                   (option_map (fun t => fromtimestamp (mktime t)) oldest)).
  set (ag1 := with_score sc before).
  assert (E : r = bind (generate_results (JList ts) lb true true)
                    (fun _ => sys_exit) ag1).
  { unfold r.
    rewrite (rate_limit_main_deny _ _ _ _ _ _ _ Hrun Hc Hge), deny_unfold.
    fold before. unfold bind at 1. rewrite Hpull.
    rewrite (pull_prev_run_results_replay before kv res (JList ts) lb
               Hl Hr Ht Hlb).
    rewrite Hsc. reflexivity. }
  rewrite E.
  destruct (deny_dumps ag ag1 ts lb eq_refl Hid Hnone)
    as (He & Hs & d & Hd & Htd & Hscd & Hed & _ & Hld).
  split; [exact He|]. split; [exact Hs|].
  exists d. repeat split; assumption.
Qed.

End ClaimsReplay.

(** One token a day, taken two hours ago by a run that left no [results]:
    the denied submission gets the fallback. *)
Lemma denied_run_falls_back_witness :
  let r := rate_limit_main false
             (Sample.autograder Sample.pulling Sample.no_results) in
  fst r = Exit /\ score (snd r) = JNum 0.
Proof.
  pose proof (@denied_run_falls_back UTC.clock false
                (Sample.autograder Sample.pulling Sample.no_results)
                Sample.pulling 1 1 None Sample.now
                [("submission_time", JStr Sample.two_hours_ago);
                 ("score", JNum 7)]
                (conj eq_refl (conj eq_refl eq_refl)) eq_refl
                ltac:(lia) eq_refl eq_refl ltac:(discriminate)
                (or_introl eq_refl) (fun d => eq_refl)) as H.
  exact (conj (proj1 H) (proj1 (proj2 H))).
Defined.

(** Scenario E: the last entry has a score of 7 and one test; the denied
    submission is answered with that score and that test list. *)
Lemma denied_run_replays_previous_results_witness :
  let r := rate_limit_main false
             (Sample.autograder Sample.pulling Sample.one_counted) in
  fst r = Exit
  /\ score (snd r) = JNum 7
  /\ exists d,
       results_json (snd r) = Some d
       /\ Py.lookup "tests" d = Some (JList [Sample.a_test])
       /\ Py.lookup "score" d = Some (JNum 7)
       /\ Py.lookup "extra_data" d =
          Some (JObj [("id", JNum 5); ("sub_counts", JNum 0)]).
Proof.
  pose proof (@denied_run_replays_previous_results UTC.clock false
                (Sample.autograder Sample.pulling Sample.one_counted)
                Sample.pulling 1 1 (Some (UTC.mkTm 2020 4 25 12 56 44))
                Sample.now
                [("submission_time", JStr Sample.two_hours_ago);
                 ("score", JNum 7);
                 Sample.results_with (Sample.counted_as (JNum 4))]
                [("extra_data", Sample.counted_as (JNum 4));
                 ("score", JNum 7); ("tests", JList [Sample.a_test]);
                 ("leaderboard", JNull)]
                [Sample.a_test] JNull (JNum 7)
                (conj eq_refl (conj eq_refl eq_refl)) eq_refl
                ltac:(lia) eq_refl eq_refl eq_refl eq_refl eq_refl eq_refl
                eq_refl (fun d => eq_refl)) as H.
  destruct H as (H1 & H2 & d & H3 & H4 & H5 & H6 & _).
  split; [exact H1|]. split; [exact H2|].
  exists d. repeat split; assumption.
Defined.

(** C4: the defect.  One token a day, taken two hours ago, and
    [pull_prev_run] set, so the current submission is denied and the last
    entry is to be replayed.  When that entry's [results] is null or an
    empty object, or has no [leaderboard] key, the test of line 475 lets it
    through and the replay raises instead of falling back: no result is
    dumped by the limiter. *)
Theorem replay_raises_on_unusable_results :
  (count_history Sample.pulling (Sample.metadata_of Sample.unfinished)
   = Ret (1, None, Sample.now)
   /\ pull_failed (JObj [("submission_time", JStr Sample.two_hours_ago);
                         ("score", JNum 7); ("results", JNull)])
      = Ret false
   /\ rate_limit_main false
        (Sample.autograder Sample.pulling Sample.unfinished)
      = (Raise TypeError,
         denied (Sample.autograder Sample.pulling Sample.unfinished)
           Sample.pulling 1 1 None))
  /\ (count_history Sample.pulling (Sample.metadata_of Sample.empty_results)
      = Ret (1, None, Sample.now)
      /\ rate_limit_main false
           (Sample.autograder Sample.pulling Sample.empty_results)
         = (Raise KeyError,
            denied (Sample.autograder Sample.pulling Sample.empty_results)
              Sample.pulling 1 1 None))
  /\ (count_history Sample.pulling
        (Sample.metadata_of Sample.no_leaderboard_key)
      = Ret (1, Some (UTC.mkTm 2020 4 25 12 56 44), Sample.now)
      /\ fst (rate_limit_main false
                (Sample.autograder Sample.pulling Sample.no_leaderboard_key))
         = Raise KeyError
      /\ results_json
           (snd (rate_limit_main false
                   (Sample.autograder Sample.pulling
                      Sample.no_leaderboard_key)))
         = None).
Proof.
  repeat split.
Qed.

(** ** The count as a number of records *)

Section Counting.

Context {T : TimeLib}.

Variables (restart : option struct_time) (current_time : struct_time)
  (regen : Z) (exclude : list json).

Lemma visit_not_in_window n o v t :
  subm_time_of v = Ret t ->
  in_window restart current_time regen t = false ->
  visit restart current_time regen exclude (n, o) v = Ret (n, o).
Proof.
  intros Ht Hw. unfold visit. rewrite Ht. simpl.
  unfold in_window, before_reset, age in Hw.
  destruct (match restart with Some r => _ | None => false end); auto.
  simpl in Hw. rewrite Hw. reflexivity.
Qed.

Lemma visit_counts n o v t :
  subm_time_of v = Ret t ->
  exists o',
    visit restart current_time regen exclude (n, o) v =
    Ret (n + (if costs_token restart current_time regen exclude v
              then 1 else 0), o').
Proof.
  intros Ht. unfold costs_token. rewrite Ht.
  destruct (in_window restart current_time regen t) eqn:Hw.
  - destruct (payload v) as [ed|] eqn:Hp.
    + rewrite (visit_wellformed _ _ _ _ _ _ _ _ _ Ht Hw Hp). cbn [andb].
      destruct (consumes_token exclude ed); eexists.
      * reflexivity.
      * rewrite Z.add_0_r. reflexivity.
    + rewrite (visit_no_payload _ _ _ _ _ _ _ _ Ht Hw Hp). cbn [andb].
      unfold null_extra_data.
      destruct (Py.getitem v "results") as [res| |]; cbn [negb];
        try (eexists; reflexivity).
      destruct (Py.getitem res "extra_data") as [[]| |]; cbn [negb];
        eexists; try reflexivity.
      rewrite Z.add_0_r. reflexivity.
  - rewrite (visit_not_in_window _ _ _ _ Ht Hw). cbn [andb].
    eexists. rewrite Z.add_0_r. reflexivity.
Qed.

(** The walk over a history whose records all have a readable time ends
    without an exception, and [tokens_used] grows by the number of records
    that cost a token. *)
Theorem tokens_used_counts_costly_records l :
  forall n o,
  Forall (fun v => exists t, subm_time_of v = Ret t) l ->
  exists o',
    count_submissions restart current_time regen exclude l (n, o) =
    Ret (n + Z.of_nat
               (List.length
                  (filter (costs_token restart current_time regen exclude)
                     l)),
         o').
Proof.
  induction l as [|v l IH]; intros n o Hall.
  - exists o. cbn. rewrite Z.add_0_r. reflexivity.
  - inversion Hall as [|v' l' (t & Ht) Hl]; subst.
    rewrite count_submissions_cons.
    destruct (visit_counts n o v t Ht) as (o1 & Hv). rewrite Hv.
    cbn [obind filter].
    destruct (IH (n + (if costs_token restart current_time regen exclude v
                       then 1 else 0)) o1 Hl) as (o' & Hc).
    exists o'. rewrite Hc. f_equal. f_equal.
    destruct (costs_token restart current_time regen exclude v);
      cbn [List.length]; lia.
Qed.

End Counting.

(** Three records under one token a day: one counted two hours ago, one
    with no [results] three hours ago, one counted two days ago.  Two of
    them cost a token. *)
Lemma tokens_used_counts_costly_records_witness :
  exists o',
    count_submissions None Sample.now 86400 []
      [Sample.entry Sample.two_days_ago
         [Sample.results_with (Sample.counted_as (JNum 2))];
       Sample.entry Sample.three_hours_ago [];
       Sample.entry Sample.two_hours_ago
         [Sample.results_with (Sample.counted_as (JNum 4))]]
      (0, None)
    = Ret (0 + 2, o').
Proof.
  exact (@tokens_used_counts_costly_records UTC.clock None Sample.now 86400 []
           [Sample.entry Sample.two_days_ago
              [Sample.results_with (Sample.counted_as (JNum 2))];
            Sample.entry Sample.three_hours_ago [];
            Sample.entry Sample.two_hours_ago
              [Sample.results_with (Sample.counted_as (JNum 4))]]
           0 None
           ltac:(repeat constructor; eexists; reflexivity)).
Defined.

Section LocalReport.

Context {T : TimeLib}.

(** On a local run the limiter leaves no [sub_counts]; when the tests
    leave none either and a limiter is configured, the report of
    [execute] reads the missing key and raises [KeyError] after the tests
    ran. *)
Theorem local_run_report_raises ag rl (run_tests : M bool) ag' b :
  use_ratelimit_when_local ag = false ->
  run_tests ag = (Ret b, ag') ->
  rate_limit ag' = Some rl ->
  oldest_token_time rl = None ->
  Py.lookup "sub_counts" (extra_data ag') = None ->
  fst (execute true run_tests ag) = Raise KeyError
  /\ results_json (snd (execute true run_tests ag)) = results_json ag'.
Proof.
  intros Hu Hrun Hr Ho Hs.
  assert (E : rate_limit_main true ag = (Ret tt, ag)).
  { unfold rate_limit_main, bind, gets. rewrite Hu. reflexivity. }
  assert (G : forall ag1,
             rate_limit ag1 = Some rl ->
             extra_data ag1 = extra_data ag' ->
             get_rate_limit_str rl ag1 = Raise KeyError).
  { intros ag1 _ He.
    unfold get_rate_limit_str, rate_limit_does_submission_count.
    rewrite Ho, He. cbn [Py.getitem]. rewrite Hs. reflexivity. }
  assert (X : execute true run_tests ag =
              (Raise KeyError,
               match output ag' with
               | Some _ => ag'
               | None => with_output (Some "") ag'
               end)).
  { unfold execute. unfold bind at 1. rewrite E.
    unfold bind at 1. rewrite Hrun.
    unfold report_and_dump, bind, gets, lift, modify, ret. rewrite Hr.
    destruct (output ag') as [o|] eqn:Hout.
    - rewrite (G ag' Hr eq_refl). reflexivity.
    - rewrite (G (with_output (Some "") ag') Hr eq_refl). reflexivity. }
  rewrite X. split; [reflexivity|].
  destruct (output ag'); reflexivity.
Qed.

End LocalReport.

(** A local run with one token a day and tests that pass. *)
Lemma local_run_report_raises_witness :
  fst (execute true (ret true) (Sample.autograder Sample.daily []))
  = Raise KeyError.
Proof.
  exact (proj1 (@local_run_report_raises UTC.clock
                  (Sample.autograder Sample.daily []) Sample.daily
                  (ret true) (Sample.autograder Sample.daily []) true
                  eq_refl eq_refl eq_refl eq_refl eq_refl)).
Defined.

(** * Further properties of the code *)

(** ** The window and its text *)

Section Window.

Context {T : TimeLib}.

(** A window of non-negative components lasts no negative time, and lasts
    no time at all only when every component is zero. *)
Theorem total_seconds_zero_iff rl :
  0 <= seconds rl -> 0 <= minutes rl -> 0 <= hours rl -> 0 <= days rl ->
  0 <= total_seconds rl
  /\ (total_seconds rl = 0 <->
      seconds rl = 0 /\ minutes rl = 0 /\ hours rl = 0 /\ days rl = 0).
Proof.
  unfold total_seconds. intros Hs Hm Hh Hd. split; [lia|]. split; lia.
Qed.

End Window.

Lemma total_seconds_zero_iff_witness :
  0 <= total_seconds Sample.two_an_hour
  /\ (total_seconds Sample.two_an_hour = 0 <->
      seconds Sample.two_an_hour = 0 /\ minutes Sample.two_an_hour = 0
      /\ hours Sample.two_an_hour = 0 /\ days Sample.two_an_hour = 0).
Proof.
  exact (@total_seconds_zero_iff UTC.clock Sample.two_an_hour
           ltac:(vm_compute; discriminate) ltac:(vm_compute; discriminate)
           ltac:(vm_compute; discriminate) ltac:(vm_compute; discriminate)).
Defined.

Lemma has_space_append (a b : string) :
  has_space (a ++ b) = has_space a || has_space b.
Proof.
  induction a as [|c a IH]; simpl; auto.
  rewrite IH. apply orb_assoc.
Qed.

Lemma unit_str_zero (name : string) : unit_str 0 name = "".
Proof. reflexivity. Qed.

Lemma unit_str_nonzero (n : Z) (name : string) :
  n <> 0 ->
  unit_str n name =
  Py.str n ++ " " ++ name ++ (if n =? 1 then "" else "s").
Proof.
  intros H. unfold unit_str. apply Z.eqb_neq in H. rewrite H.
  assert (E : String.eqb (Py.str n ++ " " ++ name) "" = false).
  { apply String.eqb_neq. intros C.
    apply (f_equal has_space) in C. rewrite has_space_append in C.
    simpl in C. rewrite orb_true_r in C. discriminate. }
  rewrite E. cbn [orb]. rewrite !append_assoc. reflexivity.
Qed.

Lemma unit_str_has_space (n : Z) (name : string) :
  n <> 0 -> has_space (unit_str n name) = true.
Proof.
  intros H. rewrite (unit_str_nonzero _ _ H), has_space_append.
  simpl. apply orb_true_r.
Qed.

Lemma unit_str_empty (n : Z) (name : string) :
  unit_str n name = "" <-> n = 0.
Proof.
  split.
  - intros E. destruct (Z.eq_dec n 0) as [|H]; auto.
    apply (unit_str_has_space _ name) in H. rewrite E in H. discriminate.
  - intros ->. reflexivity.
Qed.

(** The loop of [pretty_time_str] joins the non-empty unit strings with
    single spaces, days first. *)
Lemma pretty_time_str_joins (s m h d : Z) :
  pretty_time_str s m h d =
  match duration_parts s m h d with
  | [] => "none"
  | parts => String.concat " " parts
  end.
Proof.
  unfold pretty_time_str, duration_parts.
  generalize (unit_str d "day") (unit_str h "hour") (unit_str m "minute")
    (unit_str s "second").
  intros a b c e.
  destruct a as [|a0 a], b as [|b0 b], c as [|c0 c], e as [|e0 e];
    cbn; rewrite ?append_empty_r; try reflexivity;
    repeat (rewrite append_assoc; cbn); reflexivity.
Qed.

Lemma duration_parts_have_space (s m h d : Z) :
  Forall (fun part => has_space part = true) (duration_parts s m h d).
Proof.
  unfold duration_parts. apply Forall_forall. intros part Hin.
  apply filter_In in Hin. destruct Hin as [Hin Hne].
  apply negb_true_iff, String.eqb_neq in Hne.
  assert (U : forall n name, part = unit_str n name -> has_space part = true).
  { intros n name ->. apply unit_str_has_space. intros ->. apply Hne.
    reflexivity. }
  simpl in Hin.
  destruct Hin as [E|[E|[E|[E|[]]]]]; symmetry in E; eapply U; exact E.
Qed.

Lemma concat_has_space (parts : list string) :
  parts <> [] ->
  Forall (fun part => has_space part = true) parts ->
  has_space (String.concat " " parts) = true.
Proof.
  intros Hne Hall. destruct parts as [|p ps]; [congruence|].
  inversion Hall as [|p' ps' Hp Hps]; subst.
  destruct ps as [|q ps]; cbn [String.concat]; auto.
  rewrite has_space_append, Hp. reflexivity.
Qed.

(** The text of a window is ["none"] exactly when every component is zero;
    otherwise it is the non-empty unit strings, days first, joined by
    single spaces, and so never empty. *)
Theorem pretty_time_str_none_iff (s m h d : Z) :
  (pretty_time_str s m h d = "none"
   <-> s = 0 /\ m = 0 /\ h = 0 /\ d = 0)
  /\ pretty_time_str s m h d <> ""
  /\ (duration_parts s m h d <> [] ->
      pretty_time_str s m h d = String.concat " " (duration_parts s m h d)).
Proof.
  pose proof (duration_parts_have_space s m h d) as Hall.
  rewrite pretty_time_str_joins.
  destruct (duration_parts s m h d) as [|p ps] eqn:E.
  - split; [|split; [discriminate|congruence]].
    split; [intros _|reflexivity].
    unfold duration_parts in E. cbn [filter] in E.
    destruct (String.eqb (unit_str d "day") "") eqn:Ed; try discriminate.
    destruct (String.eqb (unit_str h "hour") "") eqn:Eh; try discriminate.
    destruct (String.eqb (unit_str m "minute") "") eqn:Em; try discriminate.
    destruct (String.eqb (unit_str s "second") "") eqn:Es; try discriminate.
    apply String.eqb_eq, unit_str_empty in Ed, Eh, Em, Es. auto.
  - assert (Hsp : has_space (String.concat " " (p :: ps)) = true)
      by (apply concat_has_space; [discriminate|exact Hall]).
    split; [|split; [|reflexivity]].
    + split.
      * intros C. rewrite C in Hsp. discriminate.
      * intros (-> & -> & -> & ->). discriminate.
    + intros C. rewrite C in Hsp. discriminate.
Qed.

(** ** The time stamp of a submission *)

Lemma length_append (a b : string) :
  String.length (a ++ b) = (String.length a + String.length b)%nat.
Proof. induction a; simpl; auto. Qed.

Lemma take_append (a b : string) : Py.take (String.length a) (a ++ b) = a.
Proof. induction a; simpl; [destruct b|]; congruence. Qed.

(** [get_submission_time] takes a suffix of 13 characters away, whatever
    it holds, and leaves nothing of a string that has no more than 13
    characters. *)
Theorem get_submission_time_cuts_the_zone :
  (forall t zone,
     String.length zone = 13%nat ->
     get_submission_time (JStr (t ++ zone)) = Ret t)
  /\ (forall s,
        (String.length s <= 13)%nat ->
        get_submission_time (JStr s) = Ret "").
Proof.
  split.
  - intros t zone H. unfold get_submission_time, Py.drop_last.
    rewrite length_append, H, Nat.add_sub, take_append. reflexivity.
  - intros s H. unfold get_submission_time, Py.drop_last.
    replace (String.length s - 13)%nat with 0%nat by lia.
    destruct s; reflexivity.
Qed.

(** The stamp of the platform, with microseconds and zone, and a stamp
    without microseconds, which loses part of its time and can no longer
    be parsed. *)
Lemma get_submission_time_cuts_the_zone_witness :
  get_submission_time (JStr ("2020-04-25T14:56:44" ++ ".087023-07:00"))
  = Ret "2020-04-25T14:56:44"
  /\ get_submission_time (JStr ("2020-04-25T1" ++ "4:56:44-07:00"))
     = Ret "2020-04-25T1"
  /\ subm_time_of
       (JObj [("submission_time", JStr "2020-04-25T14:56:44-07:00")])
     = Raise ValueError
  /\ get_submission_time (JStr "-07:00") = Ret "".
Proof.
  split; [|split; [|split]].
  - exact (proj1 get_submission_time_cuts_the_zone
             "2020-04-25T14:56:44" ".087023-07:00" eq_refl).
  - exact (proj1 get_submission_time_cuts_the_zone
             "2020-04-25T1" "4:56:44-07:00" eq_refl).
  - reflexivity.
  - exact (proj2 get_submission_time_cuts_the_zone
             "-07:00" ltac:(vm_compute; repeat constructor)).
Defined.

(** ** Registering tests and keeping the score *)

Lemma list_insert_splits {A} (index : Z) (x : A) (l : list A) :
  exists l1 l2,
    l = (l1 ++ l2)%list
    /\ list_insert index x l = (l1 ++ x :: l2)%list
    /\ (0 <= index <= Z.of_nat (List.length l) ->
        Z.of_nat (List.length l1) = index)
    /\ (Z.of_nat (List.length l) <= index -> l2 = [])
    /\ (- Z.of_nat (List.length l) <= index < 0 ->
        Z.of_nat (List.length l2) = - index)
    /\ (index <= - Z.of_nat (List.length l) -> l1 = []).
Proof.
  unfold list_insert.
  set (n := Z.of_nat (List.length l)).
  set (i := if index <? 0 then Z.max 0 (index + n) else Z.min index n).
  assert (Hn : 0 <= n) by (unfold n; lia).
  assert (Hi : 0 <= i <= n).
  { unfold i. destruct (index <? 0) eqn:E; [apply Z.ltb_lt in E|
                                             apply Z.ltb_ge in E]; lia. }
  exists (firstn (Z.to_nat i) l), (skipn (Z.to_nat i) l).
  assert (L1 : Z.of_nat (List.length (firstn (Z.to_nat i) l)) = i).
  { rewrite length_firstn. unfold n in Hi. lia. }
  assert (L2 : Z.of_nat (List.length (skipn (Z.to_nat i) l)) = n - i).
  { rewrite length_skipn. unfold n in *. lia. }
  split; [symmetry; apply firstn_skipn|]. split; [reflexivity|].
  repeat split.
  - intros H. rewrite L1. unfold i.
    destruct (index <? 0) eqn:E; [apply Z.ltb_lt in E|apply Z.ltb_ge in E];
      lia.
  - intros H. apply length_zero_iff_nil.
    assert (i = n).
    { unfold i. destruct (index <? 0) eqn:E;
        [apply Z.ltb_lt in E|apply Z.ltb_ge in E]; lia. }
    lia.
  - intros H. rewrite L2. unfold i.
    destruct (index <? 0) eqn:E; [apply Z.ltb_lt in E|apply Z.ltb_ge in E];
      lia.
  - intros H. apply length_zero_iff_nil.
    assert (i = 0).
    { unfold i. destruct (index <? 0) eqn:E;
        [apply Z.ltb_lt in E|apply Z.ltb_ge in E]; lia. }
    lia.
Qed.

Section Registering.

Context {T : TimeLib}.

(** [add_test] refuses what is not a test and leaves the object alone.  A
    test is put into the list without disturbing the tests already there:
    at the end without an index, before the test at that position with an
    index inside the list, counted from the end with a negative index,
    and at the nearest end with an index out of range. *)
Theorem add_test_keeps_the_order test index ag :
  add_test false test index ag = (Raise ValueError, ag)
  /\ fst (add_test true test index ag) = Ret tt
  /\ exists l1 l2,
       tests ag = (l1 ++ l2)%list
       /\ tests (snd (add_test true test index ag)) = (l1 ++ test :: l2)%list
       /\ match index with
          | None => l2 = []
          | Some i =>
              let n := Z.of_nat (List.length (tests ag)) in
              (0 <= i <= n -> Z.of_nat (List.length l1) = i)
              /\ (n <= i -> l2 = [])
              /\ (- n <= i < 0 -> Z.of_nat (List.length l2) = - i)
              /\ (i <= - n -> l1 = [])
          end.
Proof.
  split; [reflexivity|]. split; [reflexivity|].
  destruct index as [i|]; cbn.
  - destruct (list_insert_splits i test (tests ag))
      as (l1 & l2 & E & I & P).
    exists l1, l2. auto.
  - exists (tests ag), []. rewrite app_nil_r. auto.
Qed.

Lemma add_score_on_number addition ag n :
  score_value (score ag) = Some n ->
  add_score addition ag = (Ret tt, with_score (JNum (n + addition)) ag).
Proof.
  unfold add_score, bind, gets, set_score, modify, ret.
  destruct (score ag) eqn:E; cbn; intros H; try discriminate;
    injection H as <-; rewrite ?E; reflexivity.
Qed.

(** For a score that is unset, an integer or a [bool], [add_score]
    returns and leaves the integer it stands for raised by the addition
    (an unset score stands for 0), and two additions in a row are the
    addition of the sum. *)
Theorem add_score_accumulates (a b : Z) ag n :
  score_value (score ag) = Some n ->
  add_score a ag = (Ret tt, with_score (JNum (n + a)) ag)
  /\ bind (add_score a) (fun _ => add_score b) ag = add_score (a + b) ag.
Proof.
  intros E. split; [exact (add_score_on_number a ag n E)|].
  unfold bind at 1. rewrite (add_score_on_number a ag n E).
  rewrite (add_score_on_number b (with_score (JNum (n + a)) ag) (n + a))
    by reflexivity.
  rewrite (add_score_on_number (a + b) ag n E).
  cbn. rewrite Z.add_assoc. reflexivity.
Qed.

Lemma get_score_fold (test_scores : list (option Z)) :
  forall total,
  fold_left
    (fun total test_score =>
       match test_score with
       | Some ts =>
           match total with
           | None => Some ts
           | Some s => Some (s + ts)
           end
       | None => total
       end)
    test_scores total =
  match total, given_scores test_scores with
  | None, [] => None
  | None, z :: zs => Some (fold_right Z.add 0 (z :: zs))
  | Some s, zs => Some (s + fold_right Z.add 0 zs)
  end.
Proof.
  induction test_scores as [|[ts|] l IH]; intros total.
  - destruct total; cbn; [f_equal; lia | reflexivity].
  - change (given_scores (Some ts :: l)) with (ts :: given_scores l).
    cbn [fold_left]. rewrite IH.
    destruct total; destruct (given_scores l);
      cbn [fold_right]; f_equal; lia.
  - change (given_scores (None :: l)) with (given_scores l).
    cbn [fold_left]. apply IH.
Qed.

(** [get_score] is the sum of the scores the tests give, and falls back
    to the score of the object only when no test gives one: a score set
    with [set_score] is ignored as soon as one test has a score. *)
Theorem get_score_prefers_the_tests test_scores ag :
  get_score test_scores ag =
  match given_scores test_scores with
  | [] => score ag
  | zs => JNum (fold_right Z.add 0 zs)
  end.
Proof.
  unfold get_score. rewrite get_score_fold.
  destruct (given_scores test_scores); reflexivity.
Qed.

End Registering.

(** ** The leaderboard *)

Lemma has_name_named (item : json) :
  has_name item = true ->
  exists kv s, item = JObj kv /\ Py.lookup "name" kv = Some (JStr s).
Proof.
  unfold has_name, Py.getitem. destruct item as [| | | | |kv]; try discriminate.
  destruct (Py.lookup "name" kv) as [[| | |s| |]|] eqn:E; cbn;
    try discriminate.
  intros _. exists kv, s. auto.
Qed.

Lemma add_item_spec (name : string) (value order : json) (l : list json) :
  forallb has_name l = true ->
  exists l',
    add_item name value order l = Ret l'
    /\ forallb has_name l' = true
    /\ (exists kv,
          find_item name l' = Ret (JObj kv)
          /\ Py.lookup "name" kv = Some (JStr name)
          /\ Py.lookup "value" kv = Some value
          /\ (Py.is_none order = false -> Py.lookup "order" kv = Some order))
    /\ (forall name',
          String.eqb name' name = false ->
          find_item name' l' = find_item name' l)
    /\ List.length l' =
       (List.length l + if existsb (is_named name) l then 0 else 1)%nat.
Proof.
  induction l as [|item l IH]; intros H.
  - exists [new_item name value order]. cbn [add_item].
    split; [reflexivity|]. unfold new_item, set_if.
    destruct (Py.is_none order) eqn:E; cbn [negb].
    + split; [reflexivity|]. split.
      * eexists. cbn. rewrite String.eqb_refl. repeat split. discriminate.
      * split; [|reflexivity]. intros name' N. cbn.
        rewrite String.eqb_sym, N. reflexivity.
    + split; [reflexivity|]. split.
      * eexists. cbn. rewrite String.eqb_refl. repeat split.
      * split; [|reflexivity]. intros name' N. cbn.
        rewrite String.eqb_sym, N. reflexivity.
  - cbn [forallb] in H. apply andb_true_iff in H as [Hi Hl].
    destruct (has_name_named item Hi) as (kv & s & -> & Hn).
    cbn [add_item Py.getitem]. rewrite Hn. cbn [obind Py.eq].
    destruct (String.eqb s name) eqn:E.
    + apply String.eqb_eq in E. subst s.
      set (kv' := set_if (negb (Py.is_none order)) "order" order
                    (Py.setitem "value" value kv)).
      assert (Hn' : Py.lookup "name" kv' = Some (JStr name)).
      { unfold kv'. rewrite lookup_set_if_other by reflexivity.
        rewrite lookup_setitem_other by reflexivity. exact Hn. }
      exists (JObj kv' :: l). split; [reflexivity|]. split.
      { cbn [forallb]. rewrite Hl. unfold has_name, Py.getitem.
        rewrite Hn'. reflexivity. }
      split.
      { exists kv'. split; [|split; [exact Hn'|split]].
        - cbn [find_item Py.getitem]. rewrite Hn'.
          cbn [obind Py.eq]. rewrite String.eqb_refl. reflexivity.
        - unfold kv'. rewrite lookup_set_if_other by reflexivity.
          apply lookup_setitem.
        - intros O. unfold kv', set_if. rewrite O. apply lookup_setitem. }
      split.
      { intros name' N. cbn [find_item Py.getitem]. rewrite Hn', Hn.
        cbn [obind Py.eq]. rewrite String.eqb_sym, N. reflexivity. }
      cbn [List.length existsb]. unfold is_named at 1, Py.getitem.
      rewrite Hn. cbn [Py.eq]. rewrite String.eqb_refl. cbn [orb]. lia.
    + destruct (IH Hl) as (l' & Ea & Hl' & (kv' & Ef & F) & Ho & Hlen).
      rewrite Ea. cbn [obind]. exists (JObj kv :: l').
      split; [reflexivity|]. split.
      { cbn [forallb]. rewrite Hl', Hi. reflexivity. }
      split.
      { exists kv'. cbn [find_item Py.getitem]. rewrite Hn.
        cbn [obind Py.eq]. rewrite E. split; [exact Ef|exact F]. }
      split.
      { intros name' N. cbn [find_item Py.getitem]. rewrite Hn.
        cbn [obind Py.eq]. destruct (String.eqb s name'); [reflexivity|].
        apply Ho. exact N. }
      cbn [List.length existsb]. unfold is_named at 1, Py.getitem.
      rewrite Hn. cbn [Py.eq]. rewrite E. cbn [orb]. lia.
Qed.

Section Leaderboard.

Context {T : TimeLib}.

(** On a leaderboard that is [None] or a list of items with string names,
    [add_leaderboard_item] returns and leaves a list of such items; then
    [get_leaderboard_item] answers for that name an item that carries the
    name, the value and, when one was given, the order; the answers for
    the other names are those of the list before; and the list is longer
    by one exactly when it had no item of the name. *)
Theorem add_then_get_leaderboard_item
    (name : string) (value order : json) ag l :
  board (leaderboard ag) = Some l ->
  forallb has_name l = true ->
  let r := add_leaderboard_item name value order ag in
  fst r = Ret tt
  /\ exists l',
       snd r = with_leaderboard (JList l') ag
       /\ forallb has_name l' = true
       /\ (exists kv,
             get_leaderboard_item name (snd r) = Ret (JObj kv)
             /\ Py.lookup "name" kv = Some (JStr name)
             /\ Py.lookup "value" kv = Some value
             /\ (Py.is_none order = false ->
                 Py.lookup "order" kv = Some order))
       /\ (forall name',
             String.eqb name' name = false ->
             get_leaderboard_item name' (snd r) = find_item name' l)
       /\ List.length l' =
          (List.length l + if existsb (is_named name) l then 0 else 1)%nat.
Proof.
  intros Hb Hl r.
  destruct (add_item_spec name value order l Hl)
    as (l' & Ea & Hl' & Hget & Ho & Hlen).
  assert (E : r = (Ret tt, with_leaderboard (JList l') ag)).
  { unfold r, add_leaderboard_item, bind, gets, modify, lift.
    destruct (leaderboard ag) as [| | | |l0|] eqn:Eb; try discriminate;
      injection Hb as <-; cbn [Py.is_none]; rewrite Ea; reflexivity. }
  rewrite E. cbn [fst snd]. split; [reflexivity|].
  exists l'. split; [reflexivity|]. split; [exact Hl'|].
  split; [exact Hget|]. split; [exact Ho|exact Hlen].
Qed.

(** Before the first item is added the leaderboard is [None], which the
    loop of [get_leaderboard_item] cannot run over: it raises a
    [TypeError], also through [remove_leaderboard_item], instead of
    answering [None] or [False]. *)
Theorem leaderboard_is_none_before_the_first_item (name : string) ag :
  leaderboard ag = JNull ->
  get_leaderboard_item name ag = Raise TypeError
  /\ remove_leaderboard_item name ag = (Raise TypeError, ag).
Proof.
  intros H. unfold remove_leaderboard_item, bind, gets, lift,
    get_leaderboard_item. rewrite H. split; reflexivity.
Qed.

End Leaderboard.

(** ** Failing with a result *)

Lemma lookup_dict_update (k : string) (extra : dict) :
  forall seen data,
  Py.lookup k (dict_update extra seen data) =
  if existsb (String.eqb k) seen then Py.lookup k data
  else match Py.lookup k extra with
       | Some v => Some v
       | None => Py.lookup k data
       end.
Proof.
  induction extra as [|[k' v'] extra IH]; intros seen data;
    cbn [dict_update Py.lookup].
  - destruct (existsb (String.eqb k) seen); reflexivity.
  - destruct (existsb (String.eqb k') seen) eqn:S.
    + rewrite IH. destruct (existsb (String.eqb k) seen) eqn:Sk;
        [reflexivity|].
      destruct (String.eqb k k') eqn:E; [|reflexivity].
      apply String.eqb_eq in E. subst k'. congruence.
    + rewrite IH. cbn [existsb]. destruct (String.eqb k k') eqn:E.
      * apply String.eqb_eq in E. subst k'. cbn [orb]. rewrite S.
        apply lookup_setitem.
      * cbn [orb]. rewrite (lookup_setitem_other k k' v' data E).
        reflexivity.
Qed.

Section Failing.

Context {T : TimeLib}.

(** [ag_fail] writes a result with the score 0 and the message as output,
    where the entries of [extra] come on top and win (also over [score]
    and [output]); nothing else of the object changes, and the process
    ends exactly when [exit_prog] is set. *)
Theorem ag_fail_writes_the_failure message extra (exit_prog : bool) ag :
  exists d,
    ag_fail message extra exit_prog ag =
    (if exit_prog then Exit else Ret tt, with_results_json (Some d) ag)
    /\ forall k,
         Py.lookup k d =
         match Py.lookup k extra with
         | Some v => Some v
         | None => Py.lookup k (failure message)
         end.
Proof.
  exists (dict_update extra [] (failure message)). split.
  - unfold ag_fail, bind, dump_results, modify, sys_exit, ret, failure.
    destruct exit_prog; reflexivity.
  - intros k. apply (lookup_dict_update k extra [] (failure message)).
Qed.

Lemma ag_fail_exits message ag :
  ag_fail message [] true ag =
  (Exit, with_results_json (Some (failure message)) ag).
Proof. reflexivity. Qed.

(** [safe_env] lets no exception through.  It hands back the value of
    [f] exactly when [f] returns; when [f] raises, either the handler
    answers a true value, which is handed back in an error object, or the
    process ends: as the handler ended it, or else after the result with
    the score 0 and the message of the unexpected exception has been
    written.  The error object around the exception itself, the last line
    of the method, is never handed back. *)
Theorem safe_env_lets_no_exception_through {A} (f : M A) handler ag :
  let r := safe_env f handler ag in
  (forall e, fst r <> Raise e)
  /\ (forall exc, fst r <> Ret (SafeEnvErrorOf exc))
  /\ (forall a, fst r = Ret (Value a) <-> fst (f ag) = Ret a)
  /\ (forall a, fst (f ag) = Ret a -> snd r = snd (f ag))
  /\ (fst (f ag) = Exit -> r = (Exit, snd (f ag)))
  /\ (forall exc,
        fst (f ag) = Raise exc ->
        (exists handle h,
           handler = Some handle
           /\ handle exc (snd (f ag)) = (Ret h, snd r)
           /\ Py.truthy h = true
           /\ fst r = Ret (SafeEnvError h))
        \/ (exists handle,
              handler = Some handle
              /\ handle exc (snd (f ag)) = (Exit, snd r)
              /\ fst r = Exit)
        \/ (fst r = Exit
            /\ results_json (snd r) = Some (failure unexpected_exception))).
Proof.
  unfold safe_env. destruct (f ag) as [[a|exc|] ag1].
  - cbn. repeat split; try discriminate; congruence.
  - destruct handler as [handle|].
    + destruct (handle exc ag1) as [[h|exc'|] ag2] eqn:Hh.
      * destruct (Py.truthy h) eqn:Ht.
        -- cbn. repeat split; try discriminate; try congruence.
           intros exc0 H. injection H as <-. left. exists handle, h.
           rewrite Hh. auto.
        -- cbv zeta. unfold bind. rewrite ag_fail_exits. cbn.
           repeat split; try discriminate; try congruence.
           intros exc0 H. right. right. auto.
      * cbv zeta. unfold bind. rewrite ag_fail_exits. cbn.
        repeat split; try discriminate; try congruence.
        intros exc0 H. right. right. auto.
      * cbn. repeat split; try discriminate; try congruence.
        intros exc0 H. injection H as <-. right. left. exists handle.
        rewrite Hh. auto.
    + cbv zeta. unfold bind. rewrite ag_fail_exits. cbn.
      repeat split; try discriminate; try congruence.
      intros exc0 H. right. right. auto.
  - cbn. repeat split; try discriminate; congruence.
Qed.

Lemma main_unfold {A} (f : M A) ag :
  main f ag =
  match f ag with
  | (Ret _, ag') => (Ret tt, ag')
  | (Raise _, ag') =>
      (Exit, with_results_json (Some (failure main_exception)) ag')
  | (Exit, ag') => (Exit, ag')
  end.
Proof.
  unfold main, safe_env, bind, ret.
  destruct (f ag) as [[a|exc|] ag1]; reflexivity.
Qed.

(** [main] ends every exception of [f] by writing the result with the
    score 0 and its own message and leaving the process: it never raises,
    a run that returns or leaves is passed on as it is, and the [True] of
    its handler is never answered. *)
Theorem main_writes_a_result_on_exceptions {A} (f : M A) ag :
  main f ag =
  match f ag with
  | (Ret _, ag') => (Ret tt, ag')
  | (Raise _, ag') =>
      (Exit, with_results_json (Some (failure main_exception)) ag')
  | (Exit, ag') => (Exit, ag')
  end.
Proof. exact (main_unfold f ag). Qed.

End Failing.

Section FailedRecord.

Context {T : TimeLib}.

Variables (restart : option struct_time) (current_time : struct_time)
  (regen : Z) (exclude : list json).

(** The result [main] writes for a run that raised has no [extra_data]:
    a later evaluation that finds it as the [results] of a record of the
    active window counts it as a used token, whether or not that run had
    been granted one. *)
Theorem crashed_run_costs_a_token {A} (f : M A) ag exc ag1 :
  f ag = (Raise exc, ag1) ->
  exists d,
    results_json (snd (main f ag)) = Some d
    /\ forall v t n o,
         Py.getitem v "results" = Ret (JObj d) ->
         subm_time_of v = Ret t ->
         in_window restart current_time regen t = true ->
         visit restart current_time regen exclude (n, o) v = Ret (n + 1, o).
Proof.
  intros Hf. exists (failure main_exception). split.
  - rewrite main_unfold, Hf. reflexivity.
  - intros v t n o Hres Ht Hw.
    rewrite (visit_no_payload current_time regen exclude restart n o v t
               Ht Hw).
    + rewrite Hres. reflexivity.
    + unfold payload. rewrite Hres. reflexivity.
Qed.

End FailedRecord.

(** ** Running the setups, the tests and the teardowns *)

Lemma setitem_absorb (k : string) (v v' : json) (d : dict) :
  Py.setitem k v (Py.setitem k v' d) = Py.setitem k v d.
Proof.
  induction d as [|[k' w] d IH]; simpl.
  - rewrite String.eqb_refl. reflexivity.
  - destruct (String.eqb k k') eqn:E; simpl.
    + rewrite String.eqb_refl. reflexivity.
    + rewrite E. f_equal. exact IH.
Qed.

Section Running.

Context {T : TimeLib}.

Lemma bind_returned {A B} (c : M A) (k : A -> M B) ag a ag' :
  c ag = (Ret a, ag') -> bind c k ag = k a ag'.
Proof. intros H. unfold bind. rewrite H. reflexivity. Qed.

Lemma failing_step_gave_back error ag :
  exists ag',
    bind (print error)
      (fun _ => bind handle_failed (fun _ => ret false)) ag = (Ret false, ag')
    /\ gave_back ag ag'.
Proof.
  unfold bind, print, handle_failed, bind, set_score, gets, modify, ret,
    rate_limit_unset_submission, set_sub_counts, print, modify.
  cbn [extra_data with_score with_output].
  destruct (Py.has_key "sub_counts" (extra_data ag)) eqn:E;
    eexists; (split; [reflexivity|]);
    unfold gave_back, unset; rewrite E; cbn;
    repeat split.
  - exists ((error ++ nl) ++ token_back ++ nl).
    rewrite append_assoc. reflexivity.
  - exists (error ++ nl). reflexivity.
Qed.

Lemma grows_gave_back a b c : grows a b -> gave_back b c -> gave_back a c.
Proof.
  intros (E1 & R1 & M1 & U1 & F1 & O1) (S2 & E2 & R2 & M2 & U2 & F2 & s2 & O2).
  unfold gave_back. repeat split; try congruence.
  destruct O1 as [O1|[s1 O1]].
  - exists s2. rewrite O2. unfold text. rewrite O1. reflexivity.
  - exists (s1 ++ s2). rewrite O2. unfold text at 1. rewrite O1.
    rewrite append_assoc. reflexivity.
Qed.

Lemma run_steps_effect (local : bool) error steps :
  steady_steps steps ->
  forall ag,
    match run_steps local error steps ag with
    | (Ret true, ag') => grows ag ag'
    | (Ret false, ag') => gave_back ag ag'
    | _ => True
    end.
Proof.
  induction steps as [|s steps IH]; intros Hs ag; cbn [run_steps].
  - apply grows_refl.
  - assert (Hs' : steady_steps steps).
    { intros s' H. apply Hs. right. exact H. }
    specialize (IH Hs').
    destruct (okay_to_run s local); cbn [negb]; [|apply IH].
    unfold bind at 1.
    pose proof (Hs s (or_introl eq_refl) ag) as G.
    destruct (run s ag) as [[res| |] ag1]; cbn [snd] in G; auto.
    destruct (Py.truthy res); cbn [negb].
    + specialize (IH ag1).
      destruct (run_steps local error steps ag1) as [[[|]| |] ag2]; auto.
      * eapply grows_trans; eassumption.
      * eapply grows_gave_back; eassumption.
    + destruct (failing_step_gave_back error ag1) as (ag' & E & G').
      rewrite E. eapply grows_gave_back; eassumption.
Qed.

Lemma run_each_steady (export : bool) runs :
  steady_runs runs -> steady (run_each export runs).
Proof.
  induction runs as [|r runs IH]; intros Hr; cbn [run_each].
  - apply steady_ret.
  - apply steady_bind; [apply Hr; left; reflexivity|]. intros _.
    apply steady_bind.
    + destruct export; [|apply steady_ret].
      apply steady_bind; [apply steady_generate_results|].
      intros _. apply steady_ret.
    + intros _. apply IH. intros r' H. apply Hr. right. exact H.
Qed.

Lemma run_tests_effect (local : bool) setups runs (export : bool) teardowns :
  steady_steps setups -> steady_runs runs -> steady_steps teardowns ->
  forall ag,
    match run_tests local setups runs export teardowns ag with
    | (Ret true, ag') => grows ag ag'
    | (Ret false, ag') => gave_back ag ag'
    | _ => True
    end.
Proof.
  intros Hs Hr Ht ag. unfold run_tests. unfold bind at 1.
  pose proof (run_steps_effect local setup_error setups Hs ag) as G1.
  destruct (run_steps local setup_error setups ag) as [[[|]| |] ag1]; auto.
  unfold bind at 1.
  pose proof (run_each_steady export runs Hr ag1) as G2.
  destruct (run_each export runs ag1) as [[[]| |] ag2]; cbn [snd] in G2; auto.
  pose proof (run_steps_effect local teardown_error teardowns Ht ag2) as G3.
  destruct (run_steps local teardown_error teardowns ag2)
    as [[[|]| |] ag3]; auto.
  - eapply grows_trans; [|eassumption]. eapply grows_trans; eassumption.
  - eapply grows_gave_back; [|eassumption].
    eapply grows_trans; eassumption.
Qed.

Lemma run_steps_failed (local : bool) error steps :
  forall ag ag',
    run_steps local error steps ag = (Ret false, ag') ->
    score ag' = JNum 0
    /\ forall c, rate_limit_does_submission_count ag' = Ret c -> c = JNum 0.
Proof.
  induction steps as [|s steps IH]; intros ag ag'; cbn [run_steps].
  - discriminate.
  - destruct (okay_to_run s local); cbn [negb]; [|apply IH].
    unfold bind at 1.
    destruct (run s ag) as [[res| |] ag1]; try discriminate.
    destruct (Py.truthy res); cbn [negb]; [apply IH|].
    unfold bind, print, handle_failed, bind, set_score, gets, modify, ret,
      rate_limit_unset_submission, set_sub_counts, print, modify.
    cbn [extra_data with_score with_output].
    unfold rate_limit_does_submission_count, Py.getitem.
    destruct (Py.has_key "sub_counts" (extra_data ag1)) eqn:E;
      intros H; injection H as <-; cbn [score extra_data with_score
        with_output with_extra_data]; (split; [reflexivity|]); intros c.
    + rewrite lookup_setitem. congruence.
    + unfold Py.has_key in E.
      destruct (Py.lookup "sub_counts" (extra_data ag1)); discriminate.
Qed.

(** When [run_tests] answers [False], the score is 0 and the submission
    does not count: a flag set by the limiter has been taken back.  The
    run stopped at a setup, before any test ran, or at a teardown. *)
Theorem failed_run_gives_the_token_back
    (local : bool) setups runs (export : bool) teardowns ag ag' :
  run_tests local setups runs export teardowns ag = (Ret false, ag') ->
  score ag' = JNum 0
  /\ (forall c, rate_limit_does_submission_count ag' = Ret c -> c = JNum 0)
  /\ (run_steps local setup_error setups ag = (Ret false, ag')
      \/ exists ag1 ag2,
           run_steps local setup_error setups ag = (Ret true, ag1)
           /\ run_each export runs ag1 = (Ret tt, ag2)
           /\ run_steps local teardown_error teardowns ag2
              = (Ret false, ag')).
Proof.
  unfold run_tests. unfold bind at 1.
  destruct (run_steps local setup_error setups ag) as [[[|]| |] ag1] eqn:E1;
    try discriminate.
  - unfold bind at 1.
    destruct (run_each export runs ag1) as [[[]| |] ag2] eqn:E2;
      try discriminate.
    intros E3.
    destruct (run_steps_failed local teardown_error teardowns ag2 ag' E3)
      as (S & C).
    split; [exact S|]. split; [exact C|]. right. exists ag1, ag2. auto.
  - unfold ret. intros H. injection H as <-.
    destruct (run_steps_failed local setup_error setups ag ag1 E1)
      as (S & C).
    split; [exact S|]. split; [exact C|]. left. reflexivity.
Qed.

End Running.

Section CountedRun.

Context {T : TimeLib}.

Lemma get_rate_limit_str_extra rl ag ag' :
  extra_data ag' = extra_data ag ->
  get_rate_limit_str rl ag' = get_rate_limit_str rl ag.
Proof.
  intros E. unfold get_rate_limit_str, rate_limit_does_submission_count.
  rewrite E. reflexivity.
Qed.

Lemma with_fields_output lb ag d o :
  output ag = Some o ->
  Py.lookup "output" (with_fields lb ag d) = Some (JStr o).
Proof.
  intros Ho. unfold with_fields. cbv zeta.
  assert (Hlb : forall d',
             Py.lookup "output"
               (if Py.truthy lb then Py.setitem "leaderboard" lb d'
                else set_if (negb (Py.is_none (leaderboard ag)))
                       "leaderboard" (leaderboard ag) d')
             = Py.lookup "output" d').
  { intros d'. destruct (Py.truthy lb).
    - apply lookup_setitem_other. reflexivity.
    - apply lookup_set_if_other. reflexivity. }
  rewrite Hlb, !lookup_set_if_other by reflexivity.
  rewrite Ho. apply lookup_setitem.
Qed.

Lemma execute_failed_run
    (is_local : bool) ag rl capacity n oldest current_time
    setups runs (export : bool) teardowns :
  limiter_runs is_local ag rl capacity ->
  count_history rl (metadata ag) = Ret (n, oldest, current_time) ->
  n < capacity ->
  steady_steps setups -> steady_runs runs -> steady_steps teardowns ->
  (forall d, modify_results ag d = d) ->
  fst (run_tests is_local setups runs export teardowns
         (granted ag rl capacity n oldest current_time)) = Ret false ->
  let r := execute is_local
             (run_tests is_local setups runs export teardowns) ag in
  fst r = Ret tt
  /\ exists d printed,
       results_json (snd r) = Some d
       /\ Py.lookup "score" d = Some (JNum 0)
       /\ Py.lookup "extra_data" d =
          Some (JObj (Py.setitem "sub_counts" (JNum 0) (extra_data ag)))
       /\ Py.lookup "output" d =
          Some (JStr (report rl capacity n
                        match oldest with
                        | Some t =>
                            grant_regen_str (fromtimestamp (mktime t))
                              (total_seconds rl)
                        | None => grant_unused_str
                        end
                      ++ text ag ++ printed)).
Proof.
  intros Hrun Hc Hlt Hs Hr Ht Hid Hfalse r.
  set (g := granted ag rl capacity n oldest current_time) in *.
  pose proof (run_tests_effect is_local setups runs export teardowns
                Hs Hr Ht g) as G.
  destruct (run_tests is_local setups runs export teardowns g)
    as [[[|]| |] ag2] eqn:E2; cbn [fst] in Hfalse; try discriminate.
  destruct G as (S2 & Ed2 & R2 & M2 & U2 & F2 & printed & O2).
  set (g0 := snd (rate_limit_unset_submission g)).
  assert (Hk : extra_data ag2 = extra_data g0).
  { rewrite Ed2. unfold unset, Py.has_key, g, granted. cbn [extra_data
      with_rate_limit with_extra_data]. rewrite lookup_setitem.
    reflexivity. }
  destruct (rate_limit g) as [rl'|] eqn:Rg; [|discriminate].
  assert (Rg0 : rate_limit g0 = Some rl') by exact Rg.
  pose proof (get_rate_limit_str_given_back ag rl capacity n oldest
                current_time rl' Rg0) as Hstr.
  fold g in Hstr. fold g0 in Hstr.
  rewrite <- (get_rate_limit_str_extra rl' g0 ag2 Hk) in Hstr.
  set (str := report rl capacity n
                match oldest with
                | Some t =>
                    grant_regen_str (fromtimestamp (mktime t))
                      (total_seconds rl)
                | None => grant_unused_str
                end) in *.
  set (ag3 := with_output (Some (str ++ text ag ++ printed)) ag2).
  assert (X : r = bind (generate_results JNull JNull true true)
                    (fun _ => ret tt) ag3).
  { unfold r, execute.
    rewrite (bind_returned _ _ _ _ _
               (rate_limit_main_grant is_local ag rl capacity n oldest
                  current_time Hrun Hc Hlt)).
    fold g. rewrite (bind_returned _ _ _ _ _ E2).
    unfold report_and_dump.
    remember (generate_results JNull JNull true true) as gen.
    unfold bind, gets, lift, modify, ret.
    rewrite R2, O2. cbn [output]. rewrite O2, Hstr. reflexivity. }
  rewrite X. unfold bind.
  rewrite generate_results_scored
    by (unfold ag3; cbn [score with_output]; rewrite S2; reflexivity).
  cbv zeta. cbn [fst snd ret]. split; [reflexivity|].
  eexists. exists printed. split; [reflexivity|].
  assert (Hid3 : forall d, modify_results ag3 d = d).
  { intros d. unfold ag3. cbn [modify_results with_output].
    rewrite F2. exact (Hid d). }
  rewrite Hid3. repeat split.
  - rewrite with_fields_keeps by reflexivity. rewrite lookup_setitem.
    unfold ag3. cbn [score with_output]. rewrite S2. reflexivity.
  - rewrite with_fields_extra_data.
    + unfold ag3. cbn [extra_data with_output]. rewrite Hk.
      unfold g0, g, granted, rate_limit_unset_submission, set_sub_counts,
        modify. cbn [snd extra_data with_rate_limit with_extra_data].
      rewrite setitem_absorb. reflexivity.
    + unfold ag3. cbn [extra_data with_output]. rewrite Hk.
      apply setitem_truthy.
  - apply with_fields_output. reflexivity.
Qed.

(** A granted submission whose run fails is not counted: [execute] still
    returns, and the result it writes has the score 0 and
    [sub_counts = 0], so that later evaluations do not charge it; the
    report before the output counts the tokens used without this
    submission, and names no regeneration time when none is in use. *)
Theorem failed_run_is_not_counted
    (is_local : bool) ag rl capacity n oldest current_time
    setups runs (export : bool) teardowns :
  limiter_runs is_local ag rl capacity ->
  count_history rl (metadata ag) = Ret (n, oldest, current_time) ->
  n < capacity ->
  steady_steps setups -> steady_runs runs -> steady_steps teardowns ->
  (forall d, modify_results ag d = d) ->
  fst (run_tests is_local setups runs export teardowns
         (granted ag rl capacity n oldest current_time)) = Ret false ->
  let r := execute is_local
             (run_tests is_local setups runs export teardowns) ag in
  fst r = Ret tt
  /\ exists d printed,
       results_json (snd r) = Some d
       /\ Py.lookup "score" d = Some (JNum 0)
       /\ Py.lookup "extra_data" d =
          Some (JObj (Py.setitem "sub_counts" (JNum 0) (extra_data ag)))
       /\ Py.lookup "output" d =
          Some (JStr (report rl capacity n
                        match oldest with
                        | Some t =>
                            grant_regen_str (fromtimestamp (mktime t))
                              (total_seconds rl)
                        | None => grant_unused_str
                        end
                      ++ text ag ++ printed)).
Proof.
  exact (execute_failed_run is_local ag rl capacity n oldest current_time
           setups runs export teardowns).
Qed.

End CountedRun.

Section PassedRun.

Context {T : TimeLib}.

Lemma score_in_each_dicts l :
  forallb is_dict l = true -> exists bs, score_in_each l = Ret bs.
Proof.
  induction l as [|t l IH]; cbn [forallb score_in_each].
  - intros _. eexists. reflexivity.
  - intros H. apply andb_true_iff in H as [Ht Hl].
    destruct t; try discriminate. destruct (IH Hl) as [bs E].
    cbn. rewrite E. eexists. reflexivity.
Qed.

Lemma truthy_tests_are_dicts l :
  forallb dict_or_none l = true -> forallb is_dict (filter Py.truthy l) = true.
Proof.
  induction l as [|t l IH]; cbn [forallb filter]; [reflexivity|].
  intros H. apply andb_true_iff in H as [Ht Hl].
  destruct (Py.truthy t) eqn:E; [|exact (IH Hl)].
  cbn [forallb]. rewrite (IH Hl).
  destruct t; try discriminate. reflexivity.
Qed.

Lemma dict_or_none_rev l :
  forallb dict_or_none l = true -> forallb dict_or_none (rev l) = true.
Proof.
  intros H. apply forallb_forall. intros t Ht. apply in_rev in Ht.
  exact (proj1 (forallb_forall _ _) H t Ht).
Qed.

(** With test results that are dicts or [None], [generate_results]
    raises nothing: it writes the dict it returns, after printing at most
    its warning. *)
Lemma generate_results_dumps lb warn ag :
  forallb dict_or_none (tests ag) = true ->
  exists results ag1,
    generate_results JNull lb true warn ag =
    (Ret (modify_results ag (with_fields lb ag1 results)),
     with_results_json
       (Some (modify_results ag (with_fields lb ag1 results))) ag1)
    /\ grows ag ag1.
Proof.
  intros Hd. destruct (Py.is_none (score ag)) eqn:Hs.
  2: { eexists. exists ag. rewrite generate_results_scored by exact Hs.
       split; [reflexivity|apply grows_refl]. }
  unfold generate_results. unfold bind at 1. unfold gets at 1.
  cbv zeta. rewrite Hs. cbn [negb].
  match goal with
  | |- context [lift ?o] => assert (Ho : exists b : bool, o = Ret b)
  end.
  { unfold with_tests.
    set (ts := filter Py.truthy
                 (if reverse_tests ag then rev (tests ag) else tests ag)).
    assert (Hts : forallb is_dict ts = true).
    { apply truthy_tests_are_dicts.
      destruct (reverse_tests ag); [apply dict_or_none_rev|]; exact Hd. }
    destruct ts as [|t ts']; cbn.
    - eexists. reflexivity.
    - destruct (score_in_each_dicts (t :: ts') Hts) as [bs E].
      cbn [score_in_each] in E. rewrite E. eexists. reflexivity. }
  destruct Ho as [b Ho]. rewrite Ho.
  unfold bind, lift, gets, ret, dump_results, modify.
  destruct b; [destruct warn|].
  - eexists. eexists. split; [reflexivity|]. apply steady_print.
  - eexists. exists ag. split; [reflexivity|]. apply grows_refl.
  - eexists. exists ag. split; [reflexivity|]. apply grows_refl.
Qed.

Lemma execute_passed_run
    (is_local : bool) ag rl capacity n oldest current_time
    setups runs (export : bool) teardowns ag2 :
  limiter_runs is_local ag rl capacity ->
  count_history rl (metadata ag) = Ret (n, oldest, current_time) ->
  n < capacity ->
  steady_steps setups -> steady_runs runs -> steady_steps teardowns ->
  (forall d, modify_results ag d = d) ->
  run_tests is_local setups runs export teardowns
    (granted ag rl capacity n oldest current_time) = (Ret true, ag2) ->
  forallb dict_or_none (tests ag2) = true ->
  let r := execute is_local
             (run_tests is_local setups runs export teardowns) ag in
  fst r = Ret tt
  /\ exists d printed,
       results_json (snd r) = Some d
       /\ Py.lookup "extra_data" d =
          Some (JObj (Py.setitem "sub_counts" (JNum 1) (extra_data ag)))
       /\ Py.lookup "output" d =
          Some (JStr (report rl capacity (n + 1)
                        (grant_regen_str
                           (fromtimestamp
                              (mktime (match oldest with
                                       | Some t => t
                                       | None => current_time
                                       end)))
                           (total_seconds rl))
                      ++ text ag ++ printed)).
Proof.
  intros Hrun Hc Hlt Hs Hr Ht Hid E2 Hd r.
  set (g := granted ag rl capacity n oldest current_time) in *.
  pose proof (run_tests_effect is_local setups runs export teardowns
                Hs Hr Ht g) as G.
  rewrite E2 in G. destruct G as (Ed2 & R2 & M2 & U2 & F2 & O2).
  destruct (rate_limit g) as [rl'|] eqn:Rg; [|discriminate].
  pose proof (get_rate_limit_str_granted ag rl capacity n oldest
                current_time rl' Rg) as Hstr.
  fold g in Hstr.
  rewrite <- (get_rate_limit_str_extra rl' g ag2 Ed2) in Hstr.
  set (str := report rl capacity (n + 1)
                (grant_regen_str
                   (fromtimestamp
                      (mktime (match oldest with
                               | Some t => t
                               | None => current_time
                               end)))
                   (total_seconds rl))) in *.
  assert (Hp : exists printed, text ag2 = text ag ++ printed).
  { destruct O2 as [O2|[suffix O2]].
    - exists "". unfold text at 1. rewrite O2, append_empty_r. reflexivity.
    - exists suffix. unfold text at 1. rewrite O2. reflexivity. }
  destruct Hp as [printed Hp].
  set (ag3 := with_output (Some (str ++ text ag ++ printed)) ag2).
  assert (X : r = bind (generate_results JNull JNull true true)
                    (fun _ => ret tt) ag3).
  { unfold r, execute.
    rewrite (bind_returned _ _ _ _ _
               (rate_limit_main_grant is_local ag rl capacity n oldest
                  current_time Hrun Hc Hlt)).
    fold g. rewrite (bind_returned _ _ _ _ _ E2).
    unfold report_and_dump.
    remember (generate_results JNull JNull true true) as gen.
    unfold bind, gets, lift, modify, ret. rewrite R2.
    unfold ag3. rewrite <- Hp. unfold text.
    cbv beta.
    destruct (output ag2) as [o|] eqn:Ho; cbn [output with_output];
      rewrite ?Ho.
    - rewrite Hstr. reflexivity.
    - rewrite (get_rate_limit_str_extra rl' ag2
                 (with_output (Some "") ag2) eq_refl), Hstr.
      reflexivity. }
  rewrite X.
  destruct (generate_results_dumps JNull true ag3 Hd)
    as (results & ag4 & Eg & E4 & R4 & M4 & U4 & F4 & O4).
  unfold bind. rewrite Eg. cbn [fst snd ret]. split; [reflexivity|].
  assert (Hid3 : forall d, modify_results ag3 d = d).
  { intros d. unfold ag3. cbn [modify_results with_output].
    rewrite F2. exact (Hid d). }
  rewrite Hid3.
  assert (Hk : extra_data ag4 =
               Py.setitem "sub_counts" (JNum 1) (extra_data ag)).
  { rewrite E4. unfold ag3. cbn [extra_data with_output]. rewrite Ed2.
    reflexivity. }
  destruct O4 as [O4|[suffix O4]].
  - eexists. exists printed. split; [reflexivity|]. split.
    + rewrite with_fields_extra_data; rewrite Hk;
        [reflexivity|apply setitem_truthy].
    + apply with_fields_output. rewrite O4. reflexivity.
  - eexists. exists (printed ++ suffix). split; [reflexivity|]. split.
    + rewrite with_fields_extra_data; rewrite Hk;
        [reflexivity|apply setitem_truthy].
    + apply with_fields_output. rewrite O4. unfold ag3, text.
      cbn [output with_output]. rewrite !append_assoc. reflexivity.
Qed.

(** A granted submission whose run passes is counted: with test results
    that are dicts or [None], [execute] returns and the result it writes
    has [sub_counts = 1], so that later evaluations charge it (when its id
    is a true value that is not excluded); the report before the output
    counts this submission among the tokens used and names the time the
    oldest token in use, this one if there is no other, comes back. *)
Theorem passed_run_is_counted
    (is_local : bool) ag rl capacity n oldest current_time
    setups runs (export : bool) teardowns ag2 :
  limiter_runs is_local ag rl capacity ->
  count_history rl (metadata ag) = Ret (n, oldest, current_time) ->
  n < capacity ->
  steady_steps setups -> steady_runs runs -> steady_steps teardowns ->
  (forall d, modify_results ag d = d) ->
  run_tests is_local setups runs export teardowns
    (granted ag rl capacity n oldest current_time) = (Ret true, ag2) ->
  forallb dict_or_none (tests ag2) = true ->
  let r := execute is_local
             (run_tests is_local setups runs export teardowns) ag in
  fst r = Ret tt
  /\ exists d printed,
       results_json (snd r) = Some d
       /\ Py.lookup "extra_data" d =
          Some (JObj (Py.setitem "sub_counts" (JNum 1) (extra_data ag)))
       /\ Py.lookup "output" d =
          Some (JStr (report rl capacity (n + 1)
                        (grant_regen_str
                           (fromtimestamp
                              (mktime (match oldest with
                                       | Some t => t
                                       | None => current_time
                                       end)))
                           (total_seconds rl))
                      ++ text ag ++ printed)).
Proof.
  exact (execute_passed_run is_local ag rl capacity n oldest current_time
           setups runs export teardowns ag2).
Qed.

End PassedRun.

(** ** Worked examples of the further properties *)

(** A test put before the last of three, with the index [-1]. *)
Lemma add_test_keeps_the_order_witness :
  tests (snd (add_test true (JStr "new") (Some (-1))
                (with_registered [JStr "a"; JStr "b"; JStr "c"]
                   SampleRun.first_submission)))
  = [JStr "a"; JStr "b"; JStr "new"; JStr "c"].
Proof.
  destruct (proj2 (proj2
              (add_test_keeps_the_order (JStr "new") (Some (-1))
                 (with_registered [JStr "a"; JStr "b"; JStr "c"]
                    SampleRun.first_submission))))
    as (l1 & l2 & E & I & _ & _ & L & _).
  rewrite I. cbn [tests with_registered] in E, L.
  specialize (L ltac:(cbn; lia)).
  destruct l2 as [|x [|y l2]]; cbn [List.length] in L; try lia.
  change ([JStr "a"; JStr "b"] ++ [JStr "c"] = l1 ++ [x])%list in E.
  apply app_inj_tail in E as [<- <-]. reflexivity.
Defined.

(** An unset score raised by 4, and a score of 3 raised by 4 and by 5. *)
Lemma add_score_accumulates_witness :
  let ag := with_score (JNum 3) SampleRun.first_submission in
  score (snd (add_score 4 SampleRun.first_submission)) = JNum 4
  /\ score (snd (bind (add_score 4) (fun _ => add_score 5) ag)) = JNum 12.
Proof.
  split.
  - exact (f_equal (fun r => score (snd r))
             (proj1 (add_score_accumulates 4 0 SampleRun.first_submission 0
                       eq_refl))).
  - exact (f_equal (fun r => score (snd r))
             (proj2 (add_score_accumulates 4 5
                       (with_score (JNum 3) SampleRun.first_submission) 3
                       eq_refl))).
Defined.

(** The denied run whose last record never finished raises in [execute];
    [main] writes its failure, and a record with that result, two hours
    old under one token a day, is charged. *)
Lemma crashed_run_costs_a_token_witness :
  let crashed :=
    main (execute false (ret true))
      (Sample.autograder Sample.pulling Sample.unfinished) in
  exists d,
    results_json (snd crashed) = Some d
    /\ visit None Sample.now 86400 [] (0, None)
         (Sample.entry Sample.two_hours_ago [("results", JObj d)])
       = Ret (1, None).
Proof.
  cbv zeta.
  assert (Hf : execute false (ret true)
                 (Sample.autograder Sample.pulling Sample.unfinished)
               = (Raise TypeError,
                  snd (execute false (ret true)
                         (Sample.autograder Sample.pulling
                            Sample.unfinished)))).
  { reflexivity. }
  pose proof (crashed_run_costs_a_token None Sample.now 86400 []
                (execute false (ret true))
                (Sample.autograder Sample.pulling Sample.unfinished)
                TypeError _ Hf) as X.
  destruct X as (d & Hd & Hv).
  exists d. split; [exact Hd|].
  apply (Hv _ (UTC.mkTm 2020 4 25 12 56 44)); reflexivity.
Defined.

(** The first submission is granted its token; its setup fails. *)
Lemma failed_run_gives_the_token_back_witness :
  let granted := snd (rate_limit_main false SampleRun.first_submission) in
  let ag' :=
    snd (run_tests false [SampleRun.failing_setup] [SampleRun.a_test_run]
           true [] granted) in
  rate_limit_does_submission_count granted = Ret (JNum 1)
  /\ score ag' = JNum 0
  /\ rate_limit_does_submission_count ag' = Ret (JNum 0)
  /\ tests ag' = [].
Proof.
  cbv zeta.
  destruct (failed_run_gives_the_token_back false
              [SampleRun.failing_setup] [SampleRun.a_test_run] true []
              (snd (rate_limit_main false SampleRun.first_submission))
              (snd (run_tests false [SampleRun.failing_setup]
                      [SampleRun.a_test_run] true []
                      (snd (rate_limit_main false
                              SampleRun.first_submission))))
              eq_refl) as (S & C & _).
  split; [reflexivity|]. split; [exact S|].
  split; reflexivity.
Defined.

Lemma steady_failing_setup : steady_steps [SampleRun.failing_setup].
Proof. intros s [<-|[]]. apply steady_ret. Qed.

Lemma steady_passing_setup : steady_steps [SampleRun.passing_setup].
Proof. intros s [<-|[]]. apply steady_ret. Qed.

Lemma steady_a_test_run : steady_runs [SampleRun.a_test_run].
Proof.
  intros r [<-|[]] ag. unfold grows. cbn. repeat split. left. reflexivity.
Qed.

Lemma steady_no_steps : steady_steps [].
Proof. intros s []. Qed.

(** The first submission under one token a day, with a setup that fails:
    the result has the score 0 and [sub_counts = 0], and the report counts
    no token. *)
Lemma failed_run_is_not_counted_witness :
  let r :=
    execute false
      (run_tests false [SampleRun.failing_setup] [SampleRun.a_test_run]
         true [])
      SampleRun.first_submission in
  fst r = Ret tt
  /\ exists d printed,
       results_json (snd r) = Some d
       /\ Py.lookup "score" d = Some (JNum 0)
       /\ Py.lookup "extra_data" d =
          Some (JObj [("id", JNum 5); ("sub_counts", JNum 0)])
       /\ Py.lookup "output" d =
          Some (JStr (report Sample.daily 1 0 grant_unused_str
                      ++ printed)).
Proof.
  apply (failed_run_is_not_counted false SampleRun.first_submission
           Sample.daily 1 0 None Sample.now
           [SampleRun.failing_setup] [SampleRun.a_test_run] true []).
  - repeat split; reflexivity.
  - reflexivity.
  - lia.
  - exact steady_failing_setup.
  - exact steady_a_test_run.
  - exact steady_no_steps.
  - intros d. reflexivity.
  - reflexivity.
Defined.

(** The same submission with a setup and a test that pass: the result
    has [sub_counts = 1] and the report counts one token, back a day
    after this submission. *)
Lemma passed_run_is_counted_witness :
  let r :=
    execute false
      (run_tests false [SampleRun.passing_setup] [SampleRun.a_test_run]
         true [])
      SampleRun.first_submission in
  fst r = Ret tt
  /\ exists d printed,
       results_json (snd r) = Some d
       /\ Py.lookup "extra_data" d =
          Some (JObj [("id", JNum 5); ("sub_counts", JNum 1)])
       /\ Py.lookup "output" d =
          Some (JStr (report Sample.daily 1 1
                        (grant_regen_str
                           (fromtimestamp (mktime Sample.now)) 86400)
                      ++ printed)).
Proof.
  apply (passed_run_is_counted false SampleRun.first_submission
           Sample.daily 1 0 None Sample.now
           [SampleRun.passing_setup] [SampleRun.a_test_run] true []
           (snd (run_tests false [SampleRun.passing_setup]
                   [SampleRun.a_test_run] true []
                   (granted SampleRun.first_submission Sample.daily 1 0
                      None Sample.now)))).
  - repeat split; reflexivity.
  - reflexivity.
  - lia.
  - exact steady_passing_setup.
  - exact steady_a_test_run.
  - exact steady_no_steps.
  - intros d. reflexivity.
  - reflexivity.
  - reflexivity.
Defined.

(** An item updated and an item added on a leaderboard of one. *)
Lemma add_then_get_leaderboard_item_witness :
  let ag := with_leaderboard (JList SampleRun.one_item)
              SampleRun.first_submission in
  leaderboard (snd (add_leaderboard_item "accuracy" (JNum 95) (JStr "desc")
                      ag))
  = JList [JObj [("name", JStr "accuracy"); ("value", JNum 95);
                 ("order", JStr "desc")]]
  /\ exists l',
       leaderboard (snd (add_leaderboard_item "speed" (JNum 3) JNull ag))
       = JList l'
       /\ List.length l' = 2%nat
       /\ get_leaderboard_item "accuracy"
            (snd (add_leaderboard_item "speed" (JNum 3) JNull ag))
          = Ret (JObj [("name", JStr "accuracy"); ("value", JNum 90)]).
Proof.
  cbv zeta. split; [reflexivity|].
  destruct (add_then_get_leaderboard_item "speed" (JNum 3) JNull
              (with_leaderboard (JList SampleRun.one_item)
                 SampleRun.first_submission)
              SampleRun.one_item eq_refl eq_refl)
    as (_ & l' & E & _ & _ & Ho & Hlen).
  exists l'. split; [rewrite E; reflexivity|]. split; [exact Hlen|].
  exact (Ho "accuracy" eq_refl).
Defined.

(** A fresh object has no leaderboard yet. *)
Lemma leaderboard_is_none_before_the_first_item_witness :
  get_leaderboard_item "accuracy" SampleRun.first_submission
  = Raise TypeError
  /\ remove_leaderboard_item "accuracy" SampleRun.first_submission
     = (Raise TypeError, SampleRun.first_submission).
Proof.
  exact (leaderboard_is_none_before_the_first_item "accuracy"
           SampleRun.first_submission eq_refl).
Defined.

(** ** The result that is written *)

Section Scored.

Context {T : TimeLib}.

Lemma no_points_false (results : dict) :
  match Py.lookup "tests" results with
  | None => Ret true
  | Some (JList []) => Ret true
  | Some (JList ts) =>
      (bs <- score_in_each ts ;;
       Ret (negb (existsb (fun b => b) bs)))%py
  | Some _ => Ret true
  end = Ret false ->
  exists ts bs,
    Py.lookup "tests" results = Some (JList ts)
    /\ score_in_each ts = Ret bs
    /\ existsb (fun b => b) bs = true.
Proof.
  destruct (Py.lookup "tests" results) as [[| | | |[|t ts]|]|];
    try discriminate.
  destruct (score_in_each (t :: ts)) as [bs| |] eqn:E; try discriminate.
  cbn [obind]. intros H. exists (t :: ts), bs.
  split; [reflexivity|]. split; [exact E|].
  injection H as H. apply negb_false_iff. exact H.
Qed.

(** Whatever [generate_results] returns can be graded (with the default
    [modify_results]): it holds the score of the object when one is set;
    otherwise it holds the score 0, or else a list of tests one of which
    has a score. *)
Theorem generate_results_has_a_score
    tr lb (dump warn : bool) ag d ag' :
  generate_results tr lb dump warn ag = (Ret d, ag') ->
  (forall x, modify_results ag x = x) ->
  (Py.is_none (score ag) = false -> Py.lookup "score" d = Some (score ag))
  /\ (Py.is_none (score ag) = true ->
      Py.lookup "score" d = Some (JNum 0)
      \/ (Py.lookup "score" d = None
          /\ exists ts bs,
               Py.lookup "tests" d = Some (JList ts)
               /\ score_in_each ts = Ret bs
               /\ existsb (fun b => b) bs = true))
  /\ (dump = true -> results_json ag' = Some d).
Proof.
  unfold generate_results. unfold bind at 1, gets at 1. cbv zeta.
  destruct (Py.is_none (score ag)) eqn:Hs; cbn [negb].
  - match goal with
    | |- context [lift ?o] => destruct o as [b| |] eqn:Eo
    end; unfold bind, lift, gets, ret, dump_results, modify, print, modify;
      try discriminate.
    destruct b.
    + destruct warn, dump; intros H Hid; injection H as <- <-;
        cbn [modify_results with_output results_json with_results_json];
        rewrite Hid; (split; [discriminate|]);
        (split; [|try reflexivity; discriminate]); intros _; left;
        rewrite with_fields_keeps by reflexivity; apply lookup_setitem.
    + apply no_points_false in Eo. destruct Eo as (ts & bs & Et & Eb & Ex).
      assert (Hn : Py.lookup "score" (with_tests tr ag []) = None).
      { unfold with_tests. destruct tr; try reflexivity.
        - unfold set_if. destruct (Py.truthy _); reflexivity. }
      destruct dump; intros H Hid; injection H as <- <-;
        cbn [results_json with_results_json];
        rewrite Hid; (split; [discriminate|]);
        (split; [|try reflexivity; discriminate]); intros _; right;
        rewrite !with_fields_keeps by reflexivity;
        (split; [exact Hn|]); exists ts, bs; auto.
  - unfold bind, gets, ret, dump_results, modify.
    destruct dump; intros H Hid; injection H as <- <-;
      cbn [results_json with_results_json];
      rewrite Hid; (split; [intros _|]);
      try (split; [discriminate|try reflexivity; discriminate]);
      rewrite with_fields_keeps by reflexivity; apply lookup_setitem.
Qed.

End Scored.

(** ** The older revision: runs and replays *)

Section LegacyRunning.

Context {T : TimeLib}.

Lemma legacy_run_steps_effect error steps :
  (forall s, In s steps -> LegacyRun.keeps_extra_data s) ->
  forall ag,
    match LegacyRun.run_steps error steps ag with
    | (o, ag') =>
        Legacy.extra_data ag' = Legacy.extra_data ag
        /\ (o = Ret false -> Legacy.score ag' = JNum 0)
    end.
Proof.
  induction steps as [|s steps IH]; intros Hs ag; cbn [LegacyRun.run_steps].
  - cbn. split; [reflexivity|discriminate].
  - unfold Legacy.bind at 1.
    pose proof (Hs s (or_introl eq_refl) ag) as K.
    destruct (s ag) as [[res| |] ag1]; cbn [fst snd] in *;
      try (split; [exact K|discriminate]).
    destruct (Py.truthy res); cbn [negb].
    + pose proof (IH (fun s' H => Hs s' (or_intror H)) ag1) as I.
      destruct (LegacyRun.run_steps error steps ag1) as [o ag2].
      destruct I as [E F]. split; [rewrite E; exact K|exact F].
    + cbn. split; [exact K|reflexivity].
Qed.

Lemma legacy_run_each_keeps runs :
  (forall r, In r runs -> LegacyRun.keeps_extra_data r) ->
  LegacyRun.keeps_extra_data (LegacyRun.run_each runs).
Proof.
  induction runs as [|r runs IH]; intros Hr ag; cbn [LegacyRun.run_each].
  - reflexivity.
  - unfold Legacy.bind.
    pose proof (Hr r (or_introl eq_refl) ag) as K.
    destruct (r ag) as [[[]| |] ag1]; cbn [snd] in *; try exact K.
    rewrite (IH (fun r' H => Hr r' (or_intror H)) ag1). exact K.
Qed.

Lemma legacy_run_tests_effect setups runs teardowns :
  (forall s, In s setups -> LegacyRun.keeps_extra_data s) ->
  (forall r, In r runs -> LegacyRun.keeps_extra_data r) ->
  (forall s, In s teardowns -> LegacyRun.keeps_extra_data s) ->
  forall ag,
    match LegacyRun.run_tests setups runs teardowns ag with
    | (o, ag') =>
        Legacy.extra_data ag' = Legacy.extra_data ag
        /\ (o = Ret false -> Legacy.score ag' = JNum 0)
    end.
Proof.
  intros Hs Hr Ht ag. unfold LegacyRun.run_tests.
  unfold Legacy.bind at 1.
  pose proof (legacy_run_steps_effect LegacyRun.setup_error setups Hs ag)
    as I1.
  destruct (LegacyRun.run_steps LegacyRun.setup_error setups ag)
    as [[[|]| |] ag1]; destruct I1 as [E1 F1];
    try (split; [exact E1|discriminate]).
  - unfold Legacy.bind at 1.
    pose proof (legacy_run_each_keeps runs Hr ag1) as E2.
    destruct (LegacyRun.run_each runs ag1) as [[[]| |] ag2];
      cbn [fst snd] in *;
      try (split; [rewrite E2; exact E1|discriminate]).
    pose proof (legacy_run_steps_effect LegacyRun.teardown_error teardowns
                  Ht ag2) as I3.
    destruct (LegacyRun.run_steps LegacyRun.teardown_error teardowns ag2)
      as [o ag3]. destruct I3 as [E3 F3].
    split; [rewrite E3, E2; exact E1|exact F3].
  - cbn. split; [exact E1|]. intros _. apply F1. reflexivity.
Qed.

Lemma legacy_generate_results_dumps tr ag :
  exists d,
    Legacy.generate_results tr true ag
    = (Ret d, Legacy.with_results_json (Some d) ag)
    /\ Py.lookup "score" d =
       (if Py.is_none (Legacy.score ag) then None
        else Some (Legacy.score ag))
    /\ Py.lookup "extra_data" d =
       (if Py.truthy (JObj (Legacy.extra_data ag))
        then Some (JObj (Legacy.extra_data ag)) else None)
    /\ (forall l, tr = JList l -> Py.lookup "tests" d = Some tr).
Proof.
  unfold Legacy.generate_results, Legacy.bind, Legacy.gets,
    Legacy.dump_results, Legacy.modify, Legacy.ret.
  cbv beta iota zeta.
  eexists. split; [reflexivity|]. unfold Legacy.set_if.
  split; [|split].
  - destruct (Py.is_none (Legacy.leaderboard ag)),
      (Py.truthy (JObj (Legacy.extra_data ag))),
      (Py.is_none (Legacy.stdout_visibility ag)),
      (Py.is_none (Legacy.visibility ag)), (Legacy.output ag);
      cbn [negb]; rewrite ?lookup_setitem_other by reflexivity;
      (destruct (Py.is_none (Legacy.score ag)); cbn [negb];
       [|apply lookup_setitem]);
      destruct tr; try reflexivity;
      match goal with
      | |- context [Py.truthy ?x] => destruct (Py.truthy x)
      end; reflexivity.
  - destruct (Py.is_none (Legacy.leaderboard ag)),
      (Py.truthy (JObj (Legacy.extra_data ag))) eqn:E;
      cbn [negb]; rewrite ?lookup_setitem_other by reflexivity;
      try apply lookup_setitem;
      destruct (Py.is_none (Legacy.stdout_visibility ag)),
        (Py.is_none (Legacy.visibility ag)), (Legacy.output ag);
      cbn [negb]; rewrite ?lookup_setitem_other by reflexivity;
      (destruct (Py.is_none (Legacy.score ag)); cbn [negb];
       rewrite ?lookup_setitem_other by reflexivity);
      destruct tr; try reflexivity;
      match goal with
      | |- context [Py.truthy ?x] => destruct (Py.truthy x)
      end; reflexivity.
  - intros l ->.
    destruct (Py.is_none (Legacy.leaderboard ag)),
      (Py.truthy (JObj (Legacy.extra_data ag))),
      (Py.is_none (Legacy.stdout_visibility ag)),
      (Py.is_none (Legacy.visibility ag)), (Legacy.output ag),
      (Py.is_none (Legacy.score ag));
      cbn [negb]; rewrite ?lookup_setitem_other by reflexivity;
      reflexivity.
Qed.

(** In the older revision a granted submission whose run fails keeps its
    token: [run_tests] sets the score to 0 and nothing takes the flag
    back, so the result [execute] writes has the score 0 and
    [sub_counts = 1], and later evaluations charge the submission. *)
Theorem legacy_failed_run_keeps_the_token
    md ag rl capacity n setups runs teardowns :
  Legacy.rate_limit ag = Some rl ->
  Legacy.tokens rl = Some capacity ->
  Legacy.count_history rl md = Ret n ->
  n < capacity ->
  (forall s, In s setups -> LegacyRun.keeps_extra_data s) ->
  (forall r, In r runs -> LegacyRun.keeps_extra_data r) ->
  (forall s, In s teardowns -> LegacyRun.keeps_extra_data s) ->
  fst (LegacyRun.run_tests setups runs teardowns
         (snd (Legacy.grant rl capacity n ag))) = Ret false ->
  let r := LegacyRun.execute md
             (LegacyRun.run_tests setups runs teardowns) ag in
  fst r = Ret tt
  /\ exists d,
       Legacy.results_json (snd r) = Some d
       /\ Py.lookup "score" d = Some (JNum 0)
       /\ Py.lookup "extra_data" d =
          Some (JObj (Py.setitem "sub_counts" (JNum 1)
                        (Legacy.extra_data ag))).
Proof.
  intros Hr Ht Hc Hlt Hs Hru Htd Hfalse r.
  set (g := snd (Legacy.grant rl capacity n ag)) in *.
  assert (Eg : Legacy.rate_limit_main md ag = (Ret tt, g)).
  { rewrite (legacy_rate_limit_main_runs md ag rl capacity Hr Ht), Hc.
    apply Z.ltb_lt in Hlt. rewrite Hlt. reflexivity. }
  pose proof (legacy_run_tests_effect setups runs teardowns Hs Hru Htd g)
    as I2.
  destruct (LegacyRun.run_tests setups runs teardowns g)
    as [[[|]| |] ag2] eqn:Erun; cbn [fst snd] in *; try discriminate.
  destruct I2 as [E2 F2]. specialize (F2 eq_refl).
  destruct (legacy_generate_results_dumps JNull ag2)
    as (d & Ed & Hsc & Hed & _).
  assert (X : r = (Ret tt, Legacy.with_results_json (Some d) ag2)).
  { unfold r, LegacyRun.execute. unfold Legacy.bind at 1. rewrite Eg.
    unfold Legacy.bind at 1. rewrite Erun.
    unfold Legacy.bind. rewrite Ed. reflexivity. }
  rewrite X. cbn [fst snd]. split; [reflexivity|].
  exists d. split; [reflexivity|]. split.
  - rewrite Hsc, F2. reflexivity.
  - rewrite Hed, E2.
    change (Legacy.extra_data g)
      with (Py.setitem "sub_counts" (JNum 1) (Legacy.extra_data ag)).
    rewrite setitem_truthy. reflexivity.
Qed.

Lemma last_item_not_exit (x : json) : Py.last_item x <> Exit.
Proof.
  destruct x as [| | |s|l|]; cbn; try discriminate.
  - destruct (rev (Py.chars s)); discriminate.
  - destruct (rev l); discriminate.
Qed.

Lemma legacy_deny_replays rl md capacity n ag :
  Legacy.deny rl md capacity n ag =
  let ag1 :=
    Legacy.with_output
      (Some (Legacy.text ag
             ++ Legacy.deny_message capacity (Legacy.seconds rl)
                  (Legacy.minutes rl) (Legacy.hours rl) (Legacy.days rl) n
             ++ nl))
      (Legacy.with_extra_data
         (Py.setitem "sub_counts" (JNum 0) (Legacy.extra_data ag)) ag) in
  match LegacyRun.replayed md with
  | Ret (sc, ts) =>
      Legacy.bind (Legacy.generate_results ts true)
        (fun _ => Legacy.sys_exit) (Legacy.with_score sc ag1)
  | Raise e =>
      (Raise e,
       match (prev_subs <- Py.getitem md "previous_submissions" ;;
              prev_sub <- Py.last_item prev_subs ;;
              Py.getitem prev_sub "score")%py with
       | Ret sc => Legacy.with_score sc ag1
       | _ => ag1
       end)
  | Exit => (Exit, ag1)
  end.
Proof.
  unfold Legacy.deny, LegacyRun.replayed, Legacy.bind, Legacy.lift,
    Legacy.set_sub_counts, Legacy.print, Legacy.modify.
  cbv zeta. cbn [fst snd].
  destruct (Py.getitem md "previous_submissions") as [ps| |] eqn:E1;
    cbn [obind];
    [|reflexivity|destruct (getitem_not_exit _ _ E1)].
  destruct (Py.last_item ps) as [p| |] eqn:E2; cbn [obind];
    [|reflexivity|destruct (last_item_not_exit _ E2)].
  destruct (Py.getitem p "score") as [sc| |] eqn:E3; cbn [obind];
    [|reflexivity|destruct (getitem_not_exit _ _ E3)].
  destruct (Py.getitem p "results") as [res| |] eqn:E4; cbn [obind];
    [|reflexivity|destruct (getitem_not_exit _ _ E4)].
  destruct (Py.getitem res "tests") as [ts| |] eqn:E5;
    [reflexivity|reflexivity|destruct (getitem_not_exit _ _ E5)].
Qed.

(** A denial of the older revision replays the last entry or raises.
    When the entry has a [score] and [results] with [tests], the run ends
    in [sys.exit()] after writing that score (no score at all when it is
    null), that list of tests and [sub_counts = 0]; when one of them
    cannot be read, the exception leaves the limiter and nothing is
    written: there is no fallback. *)
Theorem legacy_denied_run_replays_or_raises md ag rl capacity n :
  Legacy.rate_limit ag = Some rl ->
  Legacy.tokens rl = Some capacity ->
  Legacy.count_history rl md = Ret n ->
  capacity <= n ->
  let r := Legacy.rate_limit_main md ag in
  match LegacyRun.replayed md with
  | Ret (sc, ts) =>
      fst r = Exit
      /\ exists d,
           Legacy.results_json (snd r) = Some d
           /\ Py.lookup "score" d =
              (if Py.is_none sc then None else Some sc)
           /\ (forall l, ts = JList l -> Py.lookup "tests" d = Some ts)
           /\ Py.lookup "extra_data" d =
              Some (JObj (Py.setitem "sub_counts" (JNum 0)
                            (Legacy.extra_data ag)))
  | Raise e =>
      fst r = Raise e
      /\ Legacy.results_json (snd r) = Legacy.results_json ag
  | Exit => False
  end.
Proof.
  intros Hr Ht Hc Hge r.
  assert (Ed : r = Legacy.deny rl md capacity n ag).
  { unfold r.
    rewrite (legacy_rate_limit_main_runs md ag rl capacity Hr Ht), Hc.
    apply Z.ltb_ge in Hge. rewrite Hge. reflexivity. }
  rewrite Ed, legacy_deny_replays. cbv zeta.
  destruct (LegacyRun.replayed md) as [[sc ts]|e|] eqn:Erep.
  - match goal with
    | |- context [Legacy.bind (Legacy.generate_results ts true) _ ?a] =>
        destruct (legacy_generate_results_dumps ts a)
          as (d & Eg & Hsc & Hed & Hts)
    end.
    unfold Legacy.bind. rewrite Eg. cbn [fst snd Legacy.sys_exit].
    split; [reflexivity|]. exists d. split; [reflexivity|].
    split; [exact Hsc|]. split; [exact Hts|].
    rewrite Hed.
    cbn [Legacy.extra_data Legacy.with_score Legacy.with_output
         Legacy.with_extra_data].
    rewrite setitem_truthy. reflexivity.
  - cbn [fst snd]. split; [reflexivity|].
    destruct (prev_subs <- Py.getitem md "previous_submissions" ;;
              prev_sub <- Py.last_item prev_subs ;;
              Py.getitem prev_sub "score")%py; reflexivity.
  - unfold LegacyRun.replayed in Erep.
    destruct (Py.getitem md "previous_submissions") as [ps| |] eqn:E1;
      cbn [obind] in Erep; try discriminate.
    + destruct (Py.last_item ps) as [p| |] eqn:E2; cbn [obind] in Erep;
        try discriminate.
      * destruct (Py.getitem p "score") as [sc| |] eqn:E3;
          cbn [obind] in Erep; try discriminate.
        -- destruct (Py.getitem p "results") as [res| |] eqn:E4;
             cbn [obind] in Erep; try discriminate.
           ++ destruct (Py.getitem res "tests") eqn:E5; try discriminate.
              exact (getitem_not_exit _ _ E5).
           ++ exact (getitem_not_exit _ _ E4).
        -- exact (getitem_not_exit _ _ E3).
      * exact (last_item_not_exit _ E2).
    + exact (getitem_not_exit _ _ E1).
Qed.

Lemma legacy_main_unfold {A} (f : Legacy.M A) ag :
  LegacyRun.main f ag =
  match f ag with
  | (Ret _, ag') => (Ret tt, ag')
  | (Raise _, ag') =>
      (Exit, Legacy.with_results_json (Some (failure main_exception)) ag')
  | (Exit, ag') => (Exit, ag')
  end.
Proof.
  unfold LegacyRun.main, LegacyRun.safe_env, Legacy.bind, Legacy.ret.
  destruct (f ag) as [[a|exc|] ag1]; reflexivity.
Qed.

(** Under [main], a denial of the older revision whose last entry cannot
    be replayed ends with the result of a crash: the score 0 and the
    message of [main], without tests and without [extra_data]; the tests
    of the submission are not run. *)
Theorem legacy_unusable_replay_ends_in_main
    md ag rl capacity n e (run_tests : Legacy.M bool) :
  Legacy.rate_limit ag = Some rl ->
  Legacy.tokens rl = Some capacity ->
  Legacy.count_history rl md = Ret n ->
  capacity <= n ->
  LegacyRun.replayed md = Raise e ->
  let r := LegacyRun.main (LegacyRun.execute md run_tests) ag in
  fst r = Exit
  /\ Legacy.results_json (snd r) = Some (failure main_exception).
Proof.
  intros Hr Ht Hc Hge Hrep r.
  assert (Em : exists ag1, Legacy.rate_limit_main md ag = (Raise e, ag1)).
  { rewrite (legacy_rate_limit_main_runs md ag rl capacity Hr Ht), Hc.
    apply Z.ltb_ge in Hge. rewrite Hge.
    rewrite legacy_deny_replays. cbv zeta. rewrite Hrep.
    eexists. reflexivity. }
  destruct Em as [ag1 Em].
  assert (X : LegacyRun.execute md run_tests ag = (Raise e, ag1)).
  { unfold LegacyRun.execute, Legacy.bind. rewrite Em. reflexivity. }
  unfold r. rewrite legacy_main_unfold, X. split; reflexivity.
Qed.

End LegacyRunning.

(** ** Removing from the leaderboard *)

Lemma lookup_unique (k : string) (v : json) (kv : dict) :
  unique_keys (map fst kv) = true ->
  In (k, v) kv -> Py.lookup k kv = Some v.
Proof.
  induction kv as [|[k' v'] kv IH]; cbn; intros U H; [destruct H|].
  apply andb_true_iff in U as [U1 U2].
  destruct H as [H|H].
  - injection H as -> ->. rewrite String.eqb_refl. reflexivity.
  - destruct (String.eqb k k') eqn:E.
    + apply String.eqb_eq in E. subst k'.
      apply negb_true_iff in U1.
      assert (X : existsb (String.eqb k) (map fst kv) = true).
      { apply existsb_exists. exists k. split; [|apply String.eqb_refl].
        apply in_map_iff. exists (k, v). auto. }
      congruence.
    + apply IH; assumption.
Qed.

Lemma eq_proper_refl : forall x, proper x = true -> Py.eq x x = true.
Proof.
  fix IH 1. intros [ |b|n|s|l|kv] H; cbn [Py.eq].
  - reflexivity.
  - apply Bool.eqb_reflx.
  - apply Z.eqb_refl.
  - apply String.eqb_refl.
  - cbn [proper] in H. induction l as [|a l IHl]; [reflexivity|].
    cbn [forallb] in H. apply andb_true_iff in H as [Ha Hl].
    rewrite (IH a Ha). cbn [andb]. exact (IHl Hl).
  - cbn [proper] in H. apply andb_true_iff in H as [U P].
    apply andb_true_iff. split.
    + assert (G : forall kv',
                 (forall k v, In (k, v) kv -> Py.lookup k kv' = Some v) ->
                 (fix eq_items (kv0 : dict) : bool :=
                    match kv0 with
                    | [] => true
                    | (k, v) :: r =>
                        match Py.lookup k kv' with
                        | Some v' => Py.eq v v'
                        | None => false
                        end && eq_items r
                    end) kv = true).
      { clear U. induction kv as [|[k v] kv IHkv]; intros kv' L;
          [reflexivity|].
        cbn [forallb snd] in P. apply andb_true_iff in P as [Pv Pr].
        rewrite (L k v (or_introl eq_refl)), (IH v Pv). cbn [andb].
        apply (IHkv Pr). intros k0 v0 H0. apply L. right. exact H0. }
      apply G. intros k v Hin. apply lookup_unique; assumption.
    + apply forallb_forall. intros [k v] Hin. cbn [fst].
      unfold Py.has_key. rewrite (lookup_unique k v kv U Hin). reflexivity.
Qed.

Lemma eq_dicts_differ (k : string) (v v' : json) (kv kv' : dict) :
  Py.lookup k kv = Some v ->
  Py.lookup k kv' = Some v' ->
  Py.eq v v' = false ->
  Py.eq (JObj kv) (JObj kv') = false.
Proof.
  intros L L' D. cbn [Py.eq]. apply andb_false_iff. left.
  induction kv as [|[k0 v0] kv IH]; [discriminate|].
  cbn [Py.lookup] in L. destruct (String.eqb k k0) eqn:E.
  - apply String.eqb_eq in E. subst k0. injection L as ->.
    rewrite L', D. reflexivity.
  - rewrite (IH L). apply andb_false_r.
Qed.

Lemma is_named_name (name : string) (item : json) :
  has_name item = true ->
  is_named name item = true ->
  exists kv, item = JObj kv /\ Py.lookup "name" kv = Some (JStr name).
Proof.
  intros H N. destruct (has_name_named item H) as (kv & s & -> & L).
  unfold is_named, Py.getitem in N. rewrite L in N. cbn [Py.eq] in N.
  apply String.eqb_eq in N. subst s. exists kv. auto.
Qed.

Lemma find_item_named (name : string) (l : list json) :
  forallb has_name l = true ->
  find_item name l =
  Ret (match find (is_named name) l with
       | Some item => item
       | None => JNull
       end).
Proof.
  induction l as [|item l IH]; intros H; [reflexivity|].
  cbn [forallb] in H. apply andb_true_iff in H as [Hi Hl].
  destruct (has_name_named item Hi) as (kv & s & -> & L).
  cbn [find_item find]. unfold is_named. cbn [Py.getitem]. rewrite L.
  cbn [obind]. destruct (Py.eq (JStr s) (JStr name)); [reflexivity|].
  exact (IH Hl).
Qed.

Lemma list_remove_named (name : string) (item : json) (l : list json) :
  forallb has_name l = true ->
  forallb proper l = true ->
  find (is_named name) l = Some item ->
  list_remove item l = Ret (drop_named name l).
Proof.
  induction l as [|y l IH]; intros H P F; [discriminate|].
  cbn [forallb] in H, P.
  apply andb_true_iff in H as [Hy Hl]. apply andb_true_iff in P as [Py Pl].
  cbn [find] in F. cbn [list_remove drop_named].
  destruct (is_named name y) eqn:N.
  - injection F as <-. rewrite (eq_proper_refl y Py). reflexivity.
  - assert (D : Py.eq y item = false).
    { destruct (find_some _ _ F) as [Hin Ni].
      assert (Hi : has_name item = true)
        by exact (proj1 (forallb_forall _ _) Hl item Hin).
      destruct (is_named_name name item Hi Ni) as (kvi & -> & Li).
      destruct (has_name_named y Hy) as (kvy & s & -> & Ly).
      apply (eq_dicts_differ "name" (JStr s) (JStr name) kvy kvi Ly Li).
      unfold is_named, Py.getitem in N. rewrite Ly in N. exact N. }
    rewrite D, (IH Hl Pl F). reflexivity.
Qed.

Lemma add_item_absent (name : string) (value order : json) (l : list json) :
  forallb has_name l = true ->
  existsb (is_named name) l = false ->
  add_item name value order l = Ret (l ++ [new_item name value order])%list.
Proof.
  induction l as [|item l IH]; intros H N; [reflexivity|].
  cbn [forallb existsb] in H, N.
  apply andb_true_iff in H as [Hi Hl]. apply orb_false_iff in N as [Ni Nl].
  destruct (has_name_named item Hi) as (kv & s & -> & L).
  cbn [add_item Py.getitem]. rewrite L. cbn [obind].
  unfold is_named, Py.getitem in Ni. rewrite L in Ni. rewrite Ni.
  rewrite (IH Hl Nl). reflexivity.
Qed.

Lemma drop_named_added (name : string) (item : json) (l : list json) :
  existsb (is_named name) l = false ->
  is_named name item = true ->
  drop_named name (l ++ [item]) = l.
Proof.
  induction l as [|y l IH]; intros N Hi; cbn [app drop_named].
  - rewrite Hi. reflexivity.
  - cbn [existsb] in N. apply orb_false_iff in N as [Ny Nl].
    rewrite Ny, (IH Nl Hi). reflexivity.
Qed.

Section Removing.

Context {T : TimeLib}.

Lemma remove_leaderboard_item_unfold (name : string) ag l :
  leaderboard ag = JList l ->
  forallb has_name l = true ->
  forallb proper l = true ->
  remove_leaderboard_item name ag =
  if existsb (is_named name) l
  then (Ret true, with_leaderboard (JList (drop_named name l)) ag)
  else (Ret false, ag).
Proof.
  intros Hb H P.
  unfold remove_leaderboard_item, bind, gets, lift, modify, ret,
    get_leaderboard_item.
  rewrite Hb. cbn [Py.iter obind]. rewrite (find_item_named name l H).
  destruct (find (is_named name) l) as [item|] eqn:F.
  - destruct (find_some _ _ F) as [Hin Ni].
    assert (E : existsb (is_named name) l = true).
    { apply existsb_exists. exists item. auto. }
    rewrite E.
    assert (Hi : has_name item = true)
      by exact (proj1 (forallb_forall _ _) H item Hin).
    destruct (has_name_named item Hi) as (kv & s & -> & L).
    assert (Tr : Py.truthy (JObj kv) = true)
      by exact (lookup_truthy "name" kv _ L).
    rewrite Tr, (list_remove_named name (JObj kv) l H P F). reflexivity.
  - assert (E : existsb (is_named name) l = false).
    { destruct (existsb (is_named name) l) eqn:E; [|reflexivity].
      apply existsb_exists in E. destruct E as (x & Hin & Nx).
      pose proof (find_none _ _ F x Hin). congruence. }
    rewrite E. reflexivity.
Qed.

(** On a list of proper dict items with string names,
    [remove_leaderboard_item] takes the first item of the name out of the
    list and answers [True], the other items staying in their order; when
    no item has the name it answers [False] and changes nothing. *)
Theorem remove_leaderboard_item_drops_the_first (name : string) ag l :
  leaderboard ag = JList l ->
  forallb has_name l = true ->
  forallb proper l = true ->
  remove_leaderboard_item name ag =
  if existsb (is_named name) l
  then (Ret true, with_leaderboard (JList (drop_named name l)) ag)
  else (Ret false, ag).
Proof. exact (remove_leaderboard_item_unfold name ag l). Qed.

(** Adding an item under a name the list does not have and removing it
    again gives the list back. *)
Theorem add_then_remove_leaderboard_item
    (name : string) (value order : json) ag l :
  leaderboard ag = JList l ->
  forallb has_name l = true ->
  forallb proper l = true ->
  proper value = true ->
  proper order = true ->
  existsb (is_named name) l = false ->
  bind (add_leaderboard_item name value order)
    (fun _ => remove_leaderboard_item name) ag
  = (Ret true, with_leaderboard (JList l) ag).
Proof.
  intros Hb H P Pv Po N.
  set (item := new_item name value order).
  assert (Ea : add_leaderboard_item name value order ag
               = (Ret tt, with_leaderboard (JList (l ++ [item])) ag)).
  { unfold add_leaderboard_item, bind, gets, modify, lift.
    rewrite Hb. cbn [Py.is_none].
    rewrite (add_item_absent name value order l H N). reflexivity. }
  assert (Hi : has_name item = true /\ is_named name item = true
               /\ proper item = true).
  { unfold item, new_item, set_if, has_name, is_named.
    destruct (Py.is_none order); cbn [negb Py.getitem Py.lookup Py.setitem
      String.eqb Ascii.eqb Bool.eqb obind Py.eq]; cbn;
      rewrite String.eqb_refl, Pv, ?Po; auto. }
  destruct Hi as (Hh & Hn & Hp).
  unfold bind at 1. rewrite Ea.
  rewrite (remove_leaderboard_item_unfold name
             (with_leaderboard (JList (l ++ [item])) ag) (l ++ [item])
             eq_refl).
  - rewrite existsb_app. cbn [existsb]. rewrite Hn, orb_true_r.
    rewrite (drop_named_added name item l N Hn). reflexivity.
  - rewrite forallb_app, H. cbn [forallb]. rewrite Hh. reflexivity.
  - rewrite forallb_app, P. cbn [forallb]. rewrite Hp. reflexivity.
Qed.

End Removing.

(** A first submission without tests, and one with a test that gives a
    score. *)
Lemma generate_results_has_a_score_witness :
  let plain :=
    generate_results JNull JNull true true SampleRun.first_submission in
  let tested :=
    generate_results JNull JNull true true
      (with_registered [Sample.a_test] SampleRun.first_submission) in
  (exists d, fst plain = Ret d /\ Py.lookup "score" d = Some (JNum 0))
  /\ (exists d,
        fst tested = Ret d
        /\ Py.lookup "score" d = None
        /\ Py.lookup "tests" d = Some (JList [Sample.a_test])).
Proof.
  cbv zeta. split.
  - eexists. split; [reflexivity|].
    destruct (generate_results_has_a_score JNull JNull true true
                SampleRun.first_submission _ _ eq_refl
                (fun x => eq_refl)) as (_ & H & _).
    destruct (H eq_refl) as [H0|[H0 _]]; [exact H0|discriminate H0].
  - eexists. split; [reflexivity|].
    destruct (generate_results_has_a_score JNull JNull true true
                (with_registered [Sample.a_test] SampleRun.first_submission)
                _ _ eq_refl (fun x => eq_refl)) as (_ & H & _).
    destruct (H eq_refl) as [H0|[H0 _]]; [discriminate H0|].
    split; [exact H0|reflexivity].
Defined.

(** The first submission of the older revision, with a setup that
    answers nothing: the token stays used. *)
Lemma legacy_failed_run_keeps_the_token_witness :
  let r :=
    LegacyRun.execute (Sample.metadata_of [])
      (LegacyRun.run_tests [Legacy.ret JNull] [] [])
      (Sample.legacy_autograder Sample.legacy_daily) in
  fst r = Ret tt
  /\ exists d,
       Legacy.results_json (snd r) = Some d
       /\ Py.lookup "score" d = Some (JNum 0)
       /\ Py.lookup "extra_data" d = Some (JObj [("sub_counts", JNum 1)]).
Proof.
  apply (legacy_failed_run_keeps_the_token (Sample.metadata_of [])
           (Sample.legacy_autograder Sample.legacy_daily)
           Sample.legacy_daily 1 0 [Legacy.ret JNull] [] []);
    try reflexivity; try lia.
  - intros s [<-|[]] ag. reflexivity.
  - intros r [].
  - intros s [].
Defined.

(** One token a day, taken two hours ago by a run that finished with the
    score 7: the older revision replays it. *)
Lemma legacy_denied_run_replays_or_raises_witness :
  let r :=
    Legacy.rate_limit_main (Sample.metadata_of Sample.one_counted)
      (Sample.legacy_autograder Sample.legacy_daily) in
  fst r = Exit
  /\ exists d,
       Legacy.results_json (snd r) = Some d
       /\ Py.lookup "score" d = Some (JNum 7)
       /\ Py.lookup "tests" d = Some (JList [Sample.a_test])
       /\ Py.lookup "extra_data" d = Some (JObj [("sub_counts", JNum 0)]).
Proof.
  pose proof (legacy_denied_run_replays_or_raises
                (Sample.metadata_of Sample.one_counted)
                (Sample.legacy_autograder Sample.legacy_daily)
                Sample.legacy_daily 1 1 eq_refl eq_refl eq_refl
                ltac:(lia)) as H.
  cbv zeta in H.
  change (LegacyRun.replayed (Sample.metadata_of Sample.one_counted))
    with (@Ret (json * json) (JNum 7, JList [Sample.a_test])) in H.
  cbv beta iota in H.
  destruct H as (H1 & d & Hd & Hs & Ht & He).
  split; [exact H1|]. exists d. split; [exact Hd|].
  split; [exact Hs|]. split; [exact (Ht _ eq_refl)|exact He].
Defined.

(** The same token, taken by a run that never finished: under [main] the
    older revision ends with the result of a crash. *)
Lemma legacy_unusable_replay_ends_in_main_witness :
  let r :=
    LegacyRun.main
      (LegacyRun.execute (Sample.metadata_of Sample.unfinished)
         (Legacy.ret true))
      (Sample.legacy_autograder Sample.legacy_daily) in
  fst r = Exit
  /\ Legacy.results_json (snd r) = Some (failure main_exception).
Proof.
  exact (legacy_unusable_replay_ends_in_main
           (Sample.metadata_of Sample.unfinished)
           (Sample.legacy_autograder Sample.legacy_daily)
           Sample.legacy_daily 1 1 TypeError (Legacy.ret true)
           eq_refl eq_refl eq_refl ltac:(lia) eq_refl).
Defined.

(** A leaderboard with two items of one name: the first goes. *)
Lemma remove_leaderboard_item_drops_the_first_witness :
  let speed := JObj [("name", JStr "speed"); ("value", JNum 3)] in
  let later := JObj [("name", JStr "accuracy"); ("value", JNum 80)] in
  let ag := with_leaderboard (JList (SampleRun.one_item ++ [speed; later]))
              SampleRun.first_submission in
  remove_leaderboard_item "accuracy" ag
  = (Ret true, with_leaderboard (JList [speed; later]) ag)
  /\ remove_leaderboard_item "memory" ag = (Ret false, ag).
Proof.
  cbv zeta.
  set (l := (SampleRun.one_item
             ++ [JObj [("name", JStr "speed"); ("value", JNum 3)];
                 JObj [("name", JStr "accuracy"); ("value", JNum 80)]])%list).
  split.
  - exact (remove_leaderboard_item_drops_the_first "accuracy"
             (with_leaderboard (JList l) SampleRun.first_submission) l
             eq_refl eq_refl eq_refl).
  - exact (remove_leaderboard_item_drops_the_first "memory"
             (with_leaderboard (JList l) SampleRun.first_submission) l
             eq_refl eq_refl eq_refl).
Defined.

(** An item added to a leaderboard of one and removed again. *)
Lemma add_then_remove_leaderboard_item_witness :
  let ag := with_leaderboard (JList SampleRun.one_item)
              SampleRun.first_submission in
  bind (add_leaderboard_item "speed" (JNum 3) (JStr "asc"))
    (fun _ => remove_leaderboard_item "speed") ag
  = (Ret true, with_leaderboard (JList SampleRun.one_item) ag).
Proof.
  exact (add_then_remove_leaderboard_item "speed" (JNum 3) (JStr "asc")
           (with_leaderboard (JList SampleRun.one_item)
              SampleRun.first_submission)
           SampleRun.one_item eq_refl eq_refl eq_refl eq_refl eq_refl
           eq_refl).
Defined.

(** ** The verdict as it reaches the user *)

Section Delivered.

Context {T : TimeLib}.

Lemma bind_stops {A} (c : M A) (k : A -> M A) ag :
  (forall a, fst (c ag) <> Ret a) -> bind c k ag = c ag.
Proof.
  intros H. unfold bind. specialize (H).
  destruct (c ag) as [[a| |] ag'] eqn:E; try reflexivity.
  destruct (H a). reflexivity.
Qed.

Lemma score_in_each_not_exit l : score_in_each l <> Exit.
Proof.
  induction l as [|t l IH]; cbn [score_in_each]; [discriminate|].
  destruct (Py.contains t "score") as [b| |] eqn:E; cbn [obind];
    try discriminate.
  - destruct (score_in_each l); cbn [obind]; try discriminate.
    destruct (IH eq_refl).
  - destruct t; discriminate.
Qed.

Lemma no_points_not_exit (results : dict) :
  match Py.lookup "tests" results with
  | None => Ret true
  | Some (JList []) => Ret true
  | Some (JList ts) =>
      (bs <- score_in_each ts ;;
       Ret (negb (existsb (fun b => b) bs)))%py
  | Some _ => Ret true
  end <> Exit.
Proof.
  destruct (Py.lookup "tests" results) as [[| | | |[|t ts]|]|];
    try discriminate.
  pose proof (score_in_each_not_exit (t :: ts)) as H.
  destruct (score_in_each (t :: ts)); cbn [obind]; try discriminate.
  destruct (H eq_refl).
Qed.

(** What [generate_results] leaves when it is told to dump: the dict it
    returns is the one written, built from the object after at most the
    warning has been printed; it never leaves the process. *)
Lemma generate_results_inv tr lb warn ag :
  match generate_results tr lb true warn ag with
  | (Ret d, ag') =>
      results_json ag' = Some d
      /\ exists results ag1,
           d = modify_results ag (with_fields lb ag1 results)
           /\ grows ag ag1
  | (Raise _, _) => True
  | (Exit, _) => False
  end.
Proof.
  unfold generate_results. unfold bind at 1, gets at 1. cbv zeta.
  destruct (Py.is_none (score ag)) eqn:Hs; cbn [negb].
  - match goal with
    | |- context [lift ?x] =>
        pose proof (no_points_not_exit (with_tests tr ag [])) as Hx;
        destruct x as [b| |] eqn:Eo
    end; unfold bind, lift, gets, ret, dump_results, modify;
      [|exact I|destruct (Hx eq_refl)].
    destruct b; [destruct warn|].
    + unfold print, modify. cbv beta iota.
      split; [reflexivity|]. eexists. eexists.
      split; [reflexivity|]. unfold grows. cbn [extra_data rate_limit
        metadata use_ratelimit_when_local modify_results output
        with_output].
      repeat split. right. eexists. reflexivity.
    + cbv beta iota. split; [reflexivity|]. eexists. exists ag.
      split; [reflexivity|]. apply grows_refl.
    + cbv beta iota. split; [reflexivity|]. eexists. exists ag.
      split; [reflexivity|]. apply grows_refl.
  - unfold bind, gets, ret, dump_results, modify. cbv beta iota.
    split; [reflexivity|]. eexists. exists ag.
    split; [reflexivity|]. apply grows_refl.
Qed.

Lemma pull_failed_not_exit v : pull_failed v <> Exit.
Proof.
  unfold pull_failed, Py.contains, Py.getitem.
  destruct (Py.truthy v); destruct v; cbn;
    repeat match goal with
           | |- context [match ?x with _ => _ end] => destruct x; cbn
           end; discriminate.
Qed.

Lemma get_not_exit x k : Py.get x k <> Exit.
Proof.
  unfold Py.get. destruct x; try discriminate.
  destruct (Py.lookup k kv); discriminate.
Qed.

Lemma pull_prev_run_results_not_exit ag :
  fst (pull_prev_run_results ag) <> Exit.
Proof.
  unfold pull_prev_run_results, bind, gets, lift, print, set_score, modify,
    ret.
  destruct (Py.getitem (metadata ag) "previous_submissions")
    as [ps| |] eqn:E1; cbn [fst]; try discriminate;
    [|destruct (getitem_not_exit _ _ E1)].
  destruct (Py.last_item ps) as [p| |] eqn:E2; cbn [fst]; try discriminate;
    [|destruct (last_item_not_exit _ E2)].
  destruct (pull_failed p) as [[|]| |] eqn:E3; cbn [fst]; try discriminate;
    [|destruct (pull_failed_not_exit _ E3)].
  destruct (Py.getitem p "results") as [res| |] eqn:E4; cbn [fst];
    try discriminate; [|destruct (getitem_not_exit _ _ E4)].
  destruct (Py.getitem res "tests") as [ts| |] eqn:E5; cbn [fst];
    try discriminate; [|destruct (getitem_not_exit _ _ E5)].
  destruct (Py.getitem res "leaderboard") as [lb| |] eqn:E6; cbn [fst];
    try discriminate; [|destruct (getitem_not_exit _ _ E6)].
  destruct (Py.get p "score") as [sc| |] eqn:E7; cbn [fst];
    try discriminate. destruct (get_not_exit _ _ E7).
Qed.

(** A denial that ends in [sys.exit()] has written a result: it carries
    the flag [sub_counts = 0] and an output that begins with the message
    of the denial. *)
Lemma deny_written rl capacity n oldest ag :
  (forall d, modify_results ag d = d) ->
  let r := deny rl capacity n oldest ag in
  fst r = Exit ->
  exists d tail,
    results_json (snd r) = Some d
    /\ Py.lookup "extra_data" d =
       Some (JObj (Py.setitem "sub_counts" (JNum 0) (extra_data ag)))
    /\ Py.lookup "output" d =
       Some (JStr (text ag
                   ++ deny_message capacity (seconds rl) (minutes rl)
                        (hours rl) (days rl) n (pull_prev_run rl)
                   ++ tail)).
Proof.
  intros Hid r. unfold r. rewrite deny_unfold.
  set (ag0 := denied ag rl capacity n oldest).
  set (c1 := if pull_prev_run rl then pull_prev_run_results
             else bind (set_score (JNum 0))
                    (fun _ => ret (JList [], JNull))).
  assert (Hs : steady c1).
  { unfold c1. destruct (pull_prev_run rl).
    - apply steady_pull_prev_run_results.
    - repeat steady_step. }
  assert (Hx : fst (c1 ag0) <> Exit).
  { unfold c1. destruct (pull_prev_run rl).
    - apply pull_prev_run_results_not_exit.
    - discriminate. }
  unfold bind. specialize (Hs ag0).
  destruct (c1 ag0) as [[tl| |] ag1]; cbn [fst snd] in *;
    [|discriminate|destruct (Hx eq_refl)].
  pose proof (generate_results_inv (fst tl) (snd tl) true ag1) as G.
  destruct (generate_results (fst tl) (snd tl) true true ag1)
    as [[d| |] ag2]; cbn [fst snd sys_exit]; [|discriminate|destruct G].
  intros _. destruct G as (Hd & results & ag1' & -> & G1).
  pose proof (grows_trans _ _ _ Hs G1) as G0.
  destruct G0 as (E0 & _ & _ & _ & _ & O0).
  destruct Hs as (_ & _ & _ & _ & F1 & _).
  assert (Hid1 : forall x, modify_results ag1 x = x).
  { intros x. rewrite F1. exact (Hid x). }
  assert (Ho : exists tail,
             output ag1' =
             Some (text ag
                   ++ deny_message capacity (seconds rl) (minutes rl)
                        (hours rl) (days rl) n (pull_prev_run rl)
                   ++ tail)).
  { destruct O0 as [O0|[suffix O0]].
    - exists (nl ++ next_token_line rl oldest ++ nl). rewrite O0.
      unfold ag0, denied. cbn [output with_output].
      rewrite !append_assoc. reflexivity.
    - exists ((nl ++ next_token_line rl oldest ++ nl) ++ suffix).
      rewrite O0. unfold ag0, denied, text. cbn [output with_output].
      rewrite !append_assoc. reflexivity. }
  destruct Ho as [tail Ho].
  exists (with_fields (snd tl) ag1' results), tail.
  rewrite Hid1 in Hd. split; [exact Hd|]. split.
  - rewrite with_fields_extra_data; rewrite E0; unfold ag0, denied;
      cbn [extra_data with_output with_extra_data];
      [reflexivity|apply setitem_truthy].
  - apply with_fields_output. exact Ho.
Qed.

End Delivered.

Section LegacyDelivered.

Context {T : TimeLib}.

Lemma legacy_bind_stops {A} (c : Legacy.M A) (k : A -> Legacy.M A) ag :
  (forall a, fst (c ag) <> Ret a) -> Legacy.bind c k ag = c ag.
Proof.
  intros H. unfold Legacy.bind.
  destruct (c ag) as [[a| |] ag'] eqn:E; try reflexivity.
  destruct (H a). reflexivity.
Qed.

Lemma legacy_grows_refl ag : legacy_grows ag ag.
Proof. split; [reflexivity|left; reflexivity]. Qed.

Lemma legacy_grows_trans ag1 ag2 ag3 :
  legacy_grows ag1 ag2 -> legacy_grows ag2 ag3 -> legacy_grows ag1 ag3.
Proof.
  intros (E1 & O1) (E2 & O2). split; [congruence|].
  destruct O1 as [O1|[s1 O1]], O2 as [O2|[s2 O2]].
  - left. congruence.
  - right. exists s2. rewrite O2. unfold Legacy.text. rewrite O1.
    reflexivity.
  - right. exists s1. congruence.
  - right. exists (s1 ++ s2). rewrite O2. unfold Legacy.text at 1.
    rewrite O1, append_assoc. reflexivity.
Qed.

Lemma legacy_run_steps_steady error steps :
  legacy_steady_steps steps ->
  legacy_steady (LegacyRun.run_steps error steps).
Proof.
  induction steps as [|s steps IH]; intros Hs ag; cbn [LegacyRun.run_steps].
  - apply legacy_grows_refl.
  - unfold Legacy.bind at 1.
    pose proof (Hs s (or_introl eq_refl) ag) as K.
    destruct (s ag) as [[res| |] ag1]; cbn [snd] in *; try exact K.
    destruct (Py.truthy res); cbn [negb].
    + eapply legacy_grows_trans; [exact K|].
      apply IH. intros s' H. apply Hs. right. exact H.
    + eapply legacy_grows_trans; [exact K|].
      split; [reflexivity|]. right. exists (error ++ nl). reflexivity.
Qed.

Lemma legacy_run_each_steady runs :
  legacy_steady_steps runs -> legacy_steady (LegacyRun.run_each runs).
Proof.
  induction runs as [|r runs IH]; intros Hr ag; cbn [LegacyRun.run_each].
  - apply legacy_grows_refl.
  - unfold Legacy.bind.
    pose proof (Hr r (or_introl eq_refl) ag) as K.
    destruct (r ag) as [[[]| |] ag1]; cbn [snd] in *; try exact K.
    eapply legacy_grows_trans; [exact K|].
    apply IH. intros r' H. apply Hr. right. exact H.
Qed.

Lemma legacy_run_tests_steady setups runs teardowns :
  legacy_steady_steps setups ->
  legacy_steady_steps runs ->
  legacy_steady_steps teardowns ->
  legacy_steady (LegacyRun.run_tests setups runs teardowns).
Proof.
  intros Hs Hr Ht ag. unfold LegacyRun.run_tests.
  unfold Legacy.bind at 1.
  pose proof (legacy_run_steps_steady LegacyRun.setup_error setups Hs ag)
    as G1.
  destruct (LegacyRun.run_steps LegacyRun.setup_error setups ag)
    as [[[|]| |] ag1]; cbn [snd] in *; try exact G1.
  unfold Legacy.bind at 1.
  pose proof (legacy_run_each_steady runs Hr ag1) as G2.
  destruct (LegacyRun.run_each runs ag1) as [[[]| |] ag2]; cbn [snd] in *;
    try (eapply legacy_grows_trans; eassumption).
  eapply legacy_grows_trans; [exact G1|].
  eapply legacy_grows_trans; [exact G2|].
  apply (legacy_run_steps_steady LegacyRun.teardown_error teardowns Ht).
Qed.

Lemma legacy_steady_keeps {A} (steps : list (Legacy.M A)) :
  legacy_steady_steps steps ->
  forall s, In s steps -> LegacyRun.keeps_extra_data s.
Proof. intros H s Hin ag. exact (proj1 (H s Hin ag)). Qed.

Lemma legacy_replayed_not_exit md : LegacyRun.replayed md <> Exit.
Proof.
  unfold LegacyRun.replayed.
  destruct (Py.getitem md "previous_submissions") as [ps| |] eqn:E1;
    cbn [obind]; try discriminate;
    [|destruct (getitem_not_exit _ _ E1)].
  destruct (Py.last_item ps) as [p| |] eqn:E2; cbn [obind];
    try discriminate; [|destruct (last_item_not_exit _ E2)].
  destruct (Py.getitem p "score") as [sc| |] eqn:E3; cbn [obind];
    try discriminate; [|destruct (getitem_not_exit _ _ E3)].
  destruct (Py.getitem p "results") as [res| |] eqn:E4; cbn [obind];
    try discriminate; [|destruct (getitem_not_exit _ _ E4)].
  destruct (Py.getitem res "tests") as [ts| |] eqn:E5;
    try discriminate. destruct (getitem_not_exit _ _ E5).
Qed.

(** The result the older [generate_results] writes: the output and the
    [extra_data] of the object, and its score. *)
Lemma legacy_generate_results_written tr ag o :
  Legacy.output ag = Some o ->
  Py.truthy (JObj (Legacy.extra_data ag)) = true ->
  exists d,
    Legacy.generate_results tr true ag
    = (Ret d, Legacy.with_results_json (Some d) ag)
    /\ Py.lookup "output" d = Some (JStr o)
    /\ Py.lookup "extra_data" d = Some (JObj (Legacy.extra_data ag))
    /\ Py.lookup "score" d =
       (if Py.is_none (Legacy.score ag) then None
        else Some (Legacy.score ag)).
Proof.
  intros Ho He.
  unfold Legacy.generate_results, Legacy.bind, Legacy.gets,
    Legacy.dump_results, Legacy.modify, Legacy.ret.
  cbv beta iota zeta.
  eexists. split; [reflexivity|]. unfold Legacy.set_if. rewrite Ho, He.
  split; [|split].
  - destruct (Py.is_none (Legacy.leaderboard ag)),
      (Py.is_none (Legacy.stdout_visibility ag)),
      (Py.is_none (Legacy.visibility ag));
      cbn [negb]; rewrite ?lookup_setitem_other by reflexivity;
      apply lookup_setitem.
  - destruct (Py.is_none (Legacy.leaderboard ag));
      cbn [negb]; rewrite ?lookup_setitem_other by reflexivity;
      apply lookup_setitem.
  - destruct (Py.is_none (Legacy.leaderboard ag)),
      (Py.is_none (Legacy.stdout_visibility ag)),
      (Py.is_none (Legacy.visibility ag));
      cbn [negb]; rewrite ?lookup_setitem_other by reflexivity;
      (destruct (Py.is_none (Legacy.score ag)); cbn [negb];
       [|apply lookup_setitem]);
      destruct tr; try reflexivity;
      match goal with
      | |- context [Py.truthy ?x] => destruct (Py.truthy x)
      end; reflexivity.
Qed.

(** A grant of the older revision, followed by the run and the writing
    of the result. *)
Lemma legacy_execute_granted md ag rl capacity n setups runs teardowns b ag2 :
  Legacy.rate_limit ag = Some rl ->
  Legacy.tokens rl = Some capacity ->
  Legacy.count_history rl md = Ret n ->
  n < capacity ->
  legacy_steady_steps setups ->
  legacy_steady_steps runs ->
  legacy_steady_steps teardowns ->
  LegacyRun.run_tests setups runs teardowns
    (snd (Legacy.rate_limit_main md ag)) = (Ret b, ag2) ->
  let r := LegacyRun.execute md
             (LegacyRun.run_tests setups runs teardowns) ag in
  fst r = Ret tt
  /\ exists d printed,
       Legacy.results_json (snd r) = Some d
       /\ Py.lookup "extra_data" d =
          Some (JObj (Py.setitem "sub_counts" (JNum 1)
                        (Legacy.extra_data ag)))
       /\ Py.lookup "output" d =
          Some (JStr (Legacy.text ag
                      ++ Legacy.grant_message capacity (Legacy.seconds rl)
                           (Legacy.minutes rl) (Legacy.hours rl)
                           (Legacy.days rl) (n + 1)
                      ++ nl ++ printed))
       /\ (b = false -> Py.lookup "score" d = Some (JNum 0)).
Proof.
  intros Hr Ht Hc Hlt Hs Hru Htd Erun r.
  set (g := snd (Legacy.grant rl capacity n ag)).
  assert (Eg : Legacy.rate_limit_main md ag = (Ret tt, g)).
  { rewrite (legacy_rate_limit_main_runs md ag rl capacity Hr Ht), Hc.
    apply Z.ltb_lt in Hlt. rewrite Hlt. reflexivity. }
  rewrite Eg in Erun. cbn [snd] in Erun.
  pose proof (legacy_run_tests_steady setups runs teardowns Hs Hru Htd g)
    as G.
  pose proof (legacy_run_tests_effect setups runs teardowns
                (legacy_steady_keeps setups Hs)
                (legacy_steady_keeps runs Hru)
                (legacy_steady_keeps teardowns Htd) g) as F.
  rewrite Erun in G, F. cbn [snd] in G. destruct G as [E2 O2].
  destruct F as [_ F2].
  assert (Ho : exists printed,
             Legacy.output ag2 =
             Some (Legacy.text ag
                   ++ Legacy.grant_message capacity (Legacy.seconds rl)
                        (Legacy.minutes rl) (Legacy.hours rl)
                        (Legacy.days rl) (n + 1)
                   ++ nl ++ printed)).
  { destruct O2 as [O2|[suffix O2]].
    - exists "". rewrite O2. unfold g. rewrite legacy_grant_leaves.
      cbn [snd Legacy.output Legacy.with_output]. rewrite append_empty_r.
      reflexivity.
    - exists suffix. rewrite O2. unfold g. rewrite legacy_grant_leaves.
      unfold Legacy.text at 1. cbn [snd Legacy.output Legacy.with_output].
      rewrite !append_assoc. reflexivity. }
  destruct Ho as [printed Ho].
  assert (He : Legacy.extra_data ag2 =
               Py.setitem "sub_counts" (JNum 1) (Legacy.extra_data ag)).
  { rewrite E2. reflexivity. }
  destruct (legacy_generate_results_written JNull ag2 _ Ho)
    as (d & Ed & Hout & Hed & Hsc).
  { rewrite He. apply setitem_truthy. }
  assert (X : r = (Ret tt, Legacy.with_results_json (Some d) ag2)).
  { unfold r, LegacyRun.execute. unfold Legacy.bind at 1. rewrite Eg.
    unfold Legacy.bind at 1. rewrite Erun.
    unfold Legacy.bind. rewrite Ed. reflexivity. }
  rewrite X. cbn [fst snd]. split; [reflexivity|].
  exists d, printed. split; [reflexivity|].
  split; [rewrite Hed, He; reflexivity|]. split; [exact Hout|].
  intros ->. rewrite Hsc, (F2 eq_refl). reflexivity.
Qed.

(** A denial of the older revision that ends in [sys.exit()] has written
    a result with the flag [sub_counts = 0] and the message of the
    denial. *)
Lemma legacy_deny_written rl md capacity n ag :
  let r := Legacy.deny rl md capacity n ag in
  fst r = Exit ->
  exists d,
    Legacy.results_json (snd r) = Some d
    /\ Py.lookup "extra_data" d =
       Some (JObj (Py.setitem "sub_counts" (JNum 0)
                     (Legacy.extra_data ag)))
    /\ Py.lookup "output" d =
       Some (JStr (Legacy.text ag
                   ++ Legacy.deny_message capacity (Legacy.seconds rl)
                        (Legacy.minutes rl) (Legacy.hours rl)
                        (Legacy.days rl) n
                   ++ nl)).
Proof.
  cbv zeta. rewrite legacy_deny_replays. cbv zeta.
  pose proof (legacy_replayed_not_exit md) as Hx.
  destruct (LegacyRun.replayed md) as [[sc ts]|e|];
    [|discriminate|destruct (Hx eq_refl)].
  match goal with
  | |- context [Legacy.bind (Legacy.generate_results ts true) _ ?a] =>
      destruct (legacy_generate_results_written ts a _ eq_refl)
        as (d & Ed & Hout & Hed & _)
  end.
  { cbn [Legacy.extra_data Legacy.with_score Legacy.with_output
         Legacy.with_extra_data]. apply setitem_truthy. }
  unfold Legacy.bind. rewrite Ed. cbn [fst snd Legacy.sys_exit].
  intros _. exists d. split; [reflexivity|].
  split; [exact Hed|exact Hout].
Qed.

End LegacyDelivered.

(** ** The verdict, the report and the flag of the result *)

Section ClaimsVerdict.

Context {T : TimeLib}.

(** C1, as amended.  For every evaluation with a capacity, in both
    revisions: the submission is allowed ([rate_limit_main] returns and
    the tests are run) if and only if the tokens counted from the history
    are strictly fewer than the capacity.

    Current revision, allowed: the flag is set to 1 before the tests run.
    When [run_tests] answers [True], the result [execute] writes has
    [sub_counts = 1] and its output begins with the report counting
    [tokens_used + 1].  When [run_tests] answers [False], the token is
    taken back: the result has the score 0 and [sub_counts = 0], and the
    report counts [tokens_used].  Not allowed: [execute] is the denial
    itself, so no test runs; the flag is 0 and the message carries
    [tokens_used]; and when the denial ends in [sys.exit()] the result it
    has written has [sub_counts = 0] and that message.

    Older revision, allowed: whatever [run_tests] answers, the result has
    [sub_counts = 1] and its output begins with the message counting
    [tokens_used + 1] (and has the score 0 after a failed run).  Not
    allowed: as in the current revision.

    The setups, tests and teardowns are taken to leave the limiter, the
    metadata and [extra_data] alone, and [modify_results] to be the
    default. *)
Theorem allowed_iff_below_capacity :
  (forall (is_local : bool) ag rl capacity n oldest current_time
          setups runs (export : bool) teardowns,
     limiter_runs is_local ag rl capacity ->
     count_history rl (metadata ag) = Ret (n, oldest, current_time) ->
     steady_steps setups -> steady_runs runs -> steady_steps teardowns ->
     (forall d, modify_results ag d = d) ->
     let run := run_tests is_local setups runs export teardowns in
     let g := granted ag rl capacity n oldest current_time in
     let r := execute is_local run ag in
     (fst (rate_limit_main is_local ag) = Ret tt <-> n < capacity)
     /\ (n < capacity ->
         rate_limit_main is_local ag = (Ret tt, g)
         /\ Py.lookup "sub_counts" (extra_data g) = Some (JNum 1)
         /\ (forall ag2,
               run g = (Ret true, ag2) ->
               forallb dict_or_none (tests ag2) = true ->
               fst r = Ret tt
               /\ exists d printed,
                    results_json (snd r) = Some d
                    /\ Py.lookup "extra_data" d =
                       Some (JObj (Py.setitem "sub_counts" (JNum 1)
                                     (extra_data ag)))
                    /\ Py.lookup "output" d =
                       Some (JStr (report rl capacity (n + 1)
                                     (grant_regen_str
                                        (fromtimestamp
                                           (mktime
                                              (match oldest with
                                               | Some t => t
                                               | None => current_time
                                               end)))
                                        (total_seconds rl))
                                   ++ text ag ++ printed)))
         /\ (fst (run g) = Ret false ->
             fst r = Ret tt
             /\ exists d printed,
                  results_json (snd r) = Some d
                  /\ Py.lookup "score" d = Some (JNum 0)
                  /\ Py.lookup "extra_data" d =
                     Some (JObj (Py.setitem "sub_counts" (JNum 0)
                                   (extra_data ag)))
                  /\ Py.lookup "output" d =
                     Some (JStr (report rl capacity n
                                   match oldest with
                                   | Some t =>
                                       grant_regen_str
                                         (fromtimestamp (mktime t))
                                         (total_seconds rl)
                                   | None => grant_unused_str
                                   end
                                 ++ text ag ++ printed))))
     /\ (capacity <= n ->
         r = rate_limit_main is_local ag
         /\ (forall a, fst r <> Ret a)
         /\ Py.lookup "sub_counts" (extra_data (snd r)) = Some (JNum 0)
         /\ (exists tail,
               output (snd r) =
               Some (text ag
                     ++ deny_message capacity (seconds rl) (minutes rl)
                          (hours rl) (days rl) n (pull_prev_run rl)
                     ++ tail))
         /\ (fst r = Exit ->
             exists d tail,
               results_json (snd r) = Some d
               /\ Py.lookup "extra_data" d =
                  Some (JObj (Py.setitem "sub_counts" (JNum 0)
                                (extra_data ag)))
               /\ Py.lookup "output" d =
                  Some (JStr (text ag
                              ++ deny_message capacity (seconds rl)
                                   (minutes rl) (hours rl) (days rl) n
                                   (pull_prev_run rl)
                              ++ tail)))))
  /\ (forall md ag rl capacity n setups runs teardowns,
        Legacy.rate_limit ag = Some rl ->
        Legacy.tokens rl = Some capacity ->
        Legacy.count_history rl md = Ret n ->
        legacy_steady_steps setups ->
        legacy_steady_steps runs ->
        legacy_steady_steps teardowns ->
        let run := LegacyRun.run_tests setups runs teardowns in
        let r := LegacyRun.execute md run ag in
        (fst (Legacy.rate_limit_main md ag) = Ret tt <-> n < capacity)
        /\ (n < capacity ->
            Py.lookup "sub_counts"
              (Legacy.extra_data (snd (Legacy.rate_limit_main md ag)))
            = Some (JNum 1)
            /\ forall b ag2,
                 run (snd (Legacy.rate_limit_main md ag)) = (Ret b, ag2) ->
                 fst r = Ret tt
                 /\ exists d printed,
                      Legacy.results_json (snd r) = Some d
                      /\ Py.lookup "extra_data" d =
                         Some (JObj (Py.setitem "sub_counts" (JNum 1)
                                       (Legacy.extra_data ag)))
                      /\ Py.lookup "output" d =
                         Some (JStr (Legacy.text ag
                                     ++ Legacy.grant_message capacity
                                          (Legacy.seconds rl)
                                          (Legacy.minutes rl)
                                          (Legacy.hours rl)
                                          (Legacy.days rl) (n + 1)
                                     ++ nl ++ printed))
                      /\ (b = false ->
                          Py.lookup "score" d = Some (JNum 0)))
        /\ (capacity <= n ->
            r = Legacy.rate_limit_main md ag
            /\ (forall a, fst r <> Ret a)
            /\ Py.lookup "sub_counts" (Legacy.extra_data (snd r))
               = Some (JNum 0)
            /\ Legacy.output (snd r) =
               Some (Legacy.text ag
                     ++ Legacy.deny_message capacity (Legacy.seconds rl)
                          (Legacy.minutes rl) (Legacy.hours rl)
                          (Legacy.days rl) n
                     ++ nl)
            /\ (fst r = Exit ->
                exists d,
                  Legacy.results_json (snd r) = Some d
                  /\ Py.lookup "extra_data" d =
                     Some (JObj (Py.setitem "sub_counts" (JNum 0)
                                   (Legacy.extra_data ag)))
                  /\ Py.lookup "output" d =
                     Some (JStr (Legacy.text ag
                                 ++ Legacy.deny_message capacity
                                      (Legacy.seconds rl)
                                      (Legacy.minutes rl)
                                      (Legacy.hours rl)
                                      (Legacy.days rl) n
                                 ++ nl))))).
Proof.
  split.
  - intros is_local ag rl capacity n oldest current_time setups runs export
      teardowns Hrun Hc Hs Hr Ht Hid run g r.
    destruct (base_verdict is_local ag rl capacity n oldest current_time
                Hrun Hc) as (Hiff & _ & Hden).
    split; [exact Hiff|]. split.
    + intros Hlt.
      split; [apply rate_limit_main_grant; assumption|].
      split; [unfold g, granted; cbn; apply lookup_setitem|].
      split.
      * intros ag2 E2 Hd.
        exact (execute_passed_run is_local ag rl capacity n oldest
                 current_time setups runs export teardowns ag2
                 Hrun Hc Hlt Hs Hr Ht Hid E2 Hd).
      * intros Hf.
        exact (execute_failed_run is_local ag rl capacity n oldest
                 current_time setups runs export teardowns
                 Hrun Hc Hlt Hs Hr Ht Hid Hf).
    + intros Hge.
      assert (Hn : forall a, fst (rate_limit_main is_local ag) <> Ret a).
      { intros [] H. apply Hiff in H. lia. }
      assert (Er : r = rate_limit_main is_local ag).
      { unfold r, execute. apply bind_stops. exact Hn. }
      rewrite Er. destruct (Hden Hge) as (Hflag & Hout).
      split; [reflexivity|]. split; [exact Hn|].
      split; [exact Hflag|]. split; [exact Hout|].
      rewrite (rate_limit_main_deny is_local ag rl capacity n oldest
                 current_time Hrun Hc Hge).
      apply deny_written. exact Hid.
  - intros md ag rl capacity n setups runs teardowns Hr Ht Hc Hs Hru Htd
      run r.
    destruct (legacy_verdict md ag rl capacity n Hr Ht Hc)
      as (Hiff & Hgr & Hden).
    split; [exact Hiff|]. split.
    + intros Hlt. split; [exact (proj1 (Hgr Hlt))|].
      intros b ag2 E2.
      exact (legacy_execute_granted md ag rl capacity n setups runs
               teardowns b ag2 Hr Ht Hc Hlt Hs Hru Htd E2).
    + intros Hge.
      assert (Hn : forall a, fst (Legacy.rate_limit_main md ag) <> Ret a).
      { intros [] H. apply Hiff in H. lia. }
      assert (Er : r = Legacy.rate_limit_main md ag).
      { unfold r, LegacyRun.execute. apply legacy_bind_stops. exact Hn. }
      rewrite Er. destruct (Hden Hge) as (Hflag & Hout).
      split; [reflexivity|]. split; [exact Hn|].
      split; [exact Hflag|]. split; [exact Hout|].
      rewrite (legacy_rate_limit_main_runs md ag rl capacity Hr Ht), Hc.
      apply Z.ltb_ge in Hge. rewrite Hge.
      apply legacy_deny_written.
Qed.

End ClaimsVerdict.

Lemma legacy_steady_ret (v : json) : legacy_steady_steps [Legacy.ret v].
Proof. intros s [<-|[]] ag. apply legacy_grows_refl. Qed.

Lemma legacy_steady_none {A} : legacy_steady_steps (@nil (Legacy.M A)).
Proof. intros s []. Qed.

(** One token a day.  The first submission of the day runs its tests and
    is counted; the second, two hours later, is denied and writes the
    flag 0 with the count as it was, in both revisions. *)
Lemma allowed_iff_below_capacity_witness :
  (let r :=
     execute false
       (run_tests false [SampleRun.passing_setup] [SampleRun.a_test_run]
          true [])
       SampleRun.first_submission in
   fst r = Ret tt
   /\ exists d printed,
        results_json (snd r) = Some d
        /\ Py.lookup "extra_data" d =
           Some (JObj [("id", JNum 5); ("sub_counts", JNum 1)])
        /\ Py.lookup "output" d =
           Some (JStr (report Sample.daily 1 1
                         (grant_regen_str
                            (fromtimestamp (mktime Sample.now)) 86400)
                       ++ printed)))
  /\ (let ag := Sample.autograder Sample.daily Sample.one_counted in
      let r :=
        execute false
          (run_tests false [SampleRun.passing_setup]
             [SampleRun.a_test_run] true [])
          ag in
      r = rate_limit_main false ag
      /\ fst r = Exit
      /\ exists d tail,
           results_json (snd r) = Some d
           /\ Py.lookup "extra_data" d =
              Some (JObj [("id", JNum 5); ("sub_counts", JNum 0)])
           /\ Py.lookup "output" d =
              Some (JStr (deny_message 1 0 0 0 1 1 false ++ tail)))
  /\ (let r :=
        LegacyRun.execute (Sample.metadata_of [])
          (LegacyRun.run_tests [Legacy.ret (JBool true)] [] [])
          (Sample.legacy_autograder Sample.legacy_daily) in
      fst r = Ret tt
      /\ exists d printed,
           Legacy.results_json (snd r) = Some d
           /\ Py.lookup "extra_data" d =
              Some (JObj [("sub_counts", JNum 1)])
           /\ Py.lookup "output" d =
              Some (JStr (Legacy.grant_message 1 0 0 0 1 1
                          ++ nl ++ printed)))
  /\ (let md := Sample.metadata_of Sample.one_counted in
      let r :=
        LegacyRun.execute md
          (LegacyRun.run_tests [Legacy.ret (JBool true)] [] [])
          (Sample.legacy_autograder Sample.legacy_daily) in
      fst r = Exit
      /\ exists d,
           Legacy.results_json (snd r) = Some d
           /\ Py.lookup "extra_data" d =
              Some (JObj [("sub_counts", JNum 0)])
           /\ Py.lookup "output" d =
              Some (JStr (Legacy.deny_message 1 0 0 0 1 1 ++ nl))).
Proof.
  cbv zeta.
  pose proof (proj1 allowed_iff_below_capacity false
                SampleRun.first_submission Sample.daily 1 0 None Sample.now
                [SampleRun.passing_setup] [SampleRun.a_test_run] true []
                ltac:(repeat split) eq_refl
                steady_passing_setup steady_a_test_run steady_no_steps
                (fun d => eq_refl)) as B1.
  pose proof (proj1 allowed_iff_below_capacity false
                (Sample.autograder Sample.daily Sample.one_counted)
                Sample.daily 1 1 (Some (UTC.mkTm 2020 4 25 12 56 44))
                Sample.now
                [SampleRun.passing_setup] [SampleRun.a_test_run] true []
                ltac:(repeat split) eq_refl
                steady_passing_setup steady_a_test_run steady_no_steps
                (fun d => eq_refl)) as B2.
  pose proof (proj2 allowed_iff_below_capacity (Sample.metadata_of [])
                (Sample.legacy_autograder Sample.legacy_daily)
                Sample.legacy_daily 1 0
                [Legacy.ret (JBool true)] [] [] eq_refl eq_refl eq_refl
                (legacy_steady_ret (JBool true)) legacy_steady_none
                legacy_steady_none) as L1.
  pose proof (proj2 allowed_iff_below_capacity
                (Sample.metadata_of Sample.one_counted)
                (Sample.legacy_autograder Sample.legacy_daily)
                Sample.legacy_daily 1 1
                [Legacy.ret (JBool true)] [] [] eq_refl eq_refl eq_refl
                (legacy_steady_ret (JBool true)) legacy_steady_none
                legacy_steady_none) as L2.
  cbv zeta in B1, B2, L1, L2.
  destruct B1 as (_ & B1 & _). destruct (B1 ltac:(lia)) as (_ & _ & P & _).
  destruct B2 as (_ & _ & B2).
  destruct (B2 ltac:(lia)) as (E2 & _ & _ & _ & W2).
  destruct L1 as (_ & L1 & _). destruct (L1 ltac:(lia)) as (_ & Q).
  destruct L2 as (_ & _ & L2).
  destruct (L2 ltac:(lia)) as (_ & _ & _ & _ & V2).
  split; [|split; [|split]].
  - exact (P _ eq_refl eq_refl).
  - split; [exact E2|]. split; [reflexivity|]. exact (W2 eq_refl).
  - destruct (Q true _ eq_refl) as (Q1 & d & printed & Q2 & Q3 & Q4 & _).
    split; [exact Q1|]. exists d, printed. auto.
  - split; [reflexivity|]. exact (V2 eq_refl).
Defined.

(** C1 as it was worded fails on an allowed submission whose setup fails.
    The first submission under one token a day is allowed (no token is
    counted from the empty history), and yet the result written has
    [sub_counts = 0] and the report counts 0 graded submissions, not
    [tokens_used + 1 = 1]. *)
Lemma allowed_run_with_failed_setup_is_not_counted :
  let ag := SampleRun.first_submission in
  let r :=
    execute false
      (run_tests false [SampleRun.failing_setup] [SampleRun.a_test_run]
         true [])
      ag in
  count_history Sample.daily (metadata ag) = Ret (0, None, Sample.now)
  /\ fst (rate_limit_main false ag) = Ret tt
  /\ Py.lookup "sub_counts" (extra_data (snd (rate_limit_main false ag)))
     = Some (JNum 1)
  /\ fst r = Ret tt
  /\ exists d,
       results_json (snd r) = Some d
       /\ Py.lookup "extra_data" d =
          Some (JObj [("id", JNum 5); ("sub_counts", JNum 0)])
       /\ Py.lookup "score" d = Some (JNum 0)
       /\ Py.lookup "output" d =
          Some (JStr ("[Rate Limit]: Students can get up to 1 graded submissions within any given period of 1 day. In the last period, you have had 0 graded submissions."
                      ++ nl
                      ++ "[Rate Limit]: As of this submission time, you have not used any tokens!"
                      ++ nl ++ nl
                      ++ "[Error]: An error occurred in the setup of the Autograder!"
                      ++ nl
                      ++ "[Rate Limit]: Since the autograder failed to run, you will not use up a token!"
                      ++ nl)).
Proof.
  cbv zeta. split; [reflexivity|]. split; [reflexivity|].
  split; [reflexivity|]. split; [reflexivity|].
  exists (match results_json
                  (snd (execute false
                          (run_tests false [SampleRun.failing_setup]
                             [SampleRun.a_test_run] true [])
                          SampleRun.first_submission)) with
          | Some d => d
          | None => []
          end).
  repeat split; lazy; reflexivity.
Qed.
